(** * HireLens AI: the candidate evaluation pipeline, embedded and verified

    A shallow embedding of the rule-based scoring core of the repository
    (feature extraction, ATS simulation, interview readiness, signal
    compounding, score aggregation, recommendation ranking, orchestrator)
    together with the properties its specification states about it.

    Conventions of the embedding:
    - a Python [str] is a list of Unicode code points ([pystr]);
    - a Python [float] is an exact rational ([Q]); comparisons, [min],
      [max] and [round(_, 2)] are written out on rationals;
    - a Python [dict] is a [gmap]; a value of type [Any] is a [pyval];
    - code that appends to a result object passed by reference returns the
      appended items next to its value (explicit state passing). *)

From Stdlib Require Import ZArith QArith Qminmax Qabs Lia Lqa List String Ascii
  Permutation Sorted.
From stdpp Require Import base option list strings gmap.

Local Open Scope Z_scope.

(** ** Python strings *)

Module PyStr.

(** A code point, and a Python string as the sequence of its code points. *)
Definition char : Type := N.
Definition pystr : Type := list N.

(** A literal of the source text (ASCII) as a Python string. *)
Fixpoint str_of (s : string) : pystr :=
  match s with
  | EmptyString => []
  | String a r => N_of_ascii a :: str_of r
  end.

Definition char_eqb (a b : char) : bool := N.eqb a b.

Fixpoint str_eqb (a b : pystr) : bool :=
  match a, b with
  | [], [] => true
  | x :: a', y :: b' => N.eqb x y && str_eqb a' b'
  | _, _ => false
  end.

(** [str.isspace] on one code point: the whitespace of Unicode, which is
    also what the regular-expression class [\s] matches on [str]. *)
Definition isspace (c : char) : bool :=
  ((9 <=? c) && (c <=? 13) || (28 <=? c) && (c <=? 32)
   || (c =? 133) || (c =? 160) || (c =? 5760)
   || (8192 <=? c) && (c <=? 8202) || (c =? 8232) || (c =? 8233)
   || (c =? 8239) || (c =? 8287) || (c =? 12288))%N.

(** Decimal digits ([\d], [str.isdigit]); the ASCII digits are modelled,
    the decimal digits of other scripts are not. *)
Definition isdigit (c : char) : bool := ((48 <=? c) && (c <=? 57))%N.

Definition isupper (c : char) : bool := ((65 <=? c) && (c <=? 90))%N.
Definition islower (c : char) : bool := ((97 <=? c) && (c <=? 122))%N.

(** Word characters ([\w]): letters, digits and the underscore (ASCII). *)
Definition isword (c : char) : bool :=
  (isdigit c || isupper c || islower c || (c =? 95))%N.

(** [str.lower], on the ASCII letters; other code points are kept. *)
Definition lower_char (c : char) : char :=
  if isupper c then (c + 32)%N else c.
Definition lower (s : pystr) : pystr := map lower_char s.

(** [s.strip()] *)
Fixpoint lstrip (s : pystr) : pystr :=
  match s with
  | c :: r => if isspace c then lstrip r else s
  | [] => []
  end.
Definition rstrip (s : pystr) : pystr := rev (lstrip (rev s)).
Definition strip (s : pystr) : pystr := rstrip (lstrip s).

(** [s.split()]: the maximal runs of non-whitespace, in order. *)
Fixpoint split_ws_aux (cur : pystr) (s : pystr) : list pystr :=
  match s with
  | [] => match cur with [] => [] | _ => [rev cur] end
  | c :: r =>
      if isspace c
      then match cur with
           | [] => split_ws_aux [] r
           | _ => rev cur :: split_ws_aux [] r
           end
      else split_ws_aux (c :: cur) r
  end.
Definition split_ws (s : pystr) : list pystr := split_ws_aux [] s.

(** [prefix.startswith]-style test and the substring test [sub in s]. *)
Fixpoint is_prefix (p s : pystr) : bool :=
  match p, s with
  | [], _ => true
  | x :: p', y :: s' => N.eqb x y && is_prefix p' s'
  | _ :: _, [] => false
  end.
Fixpoint contains (sub s : pystr) : bool :=
  is_prefix sub s ||
  match s with
  | [] => false
  | _ :: r => contains sub r
  end.

(** [x in l] for a list of strings. *)
Definition mem (x : pystr) (l : list pystr) : bool := existsb (str_eqb x) l.

(** [sep.join(l)] *)
Fixpoint join (sep : pystr) (l : list pystr) : pystr :=
  match l with
  | [] => []
  | [x] => x
  | x :: r => x ++ sep ++ join sep r
  end.

(** [s[:n]] *)
Definition slice_to (n : nat) (s : pystr) : pystr := firstn n s.

(** [str(n)] for a non-negative integer: its decimal digits. *)
Fixpoint digits_aux (fuel : nat) (n : N) (acc : pystr) : pystr :=
  match fuel with
  | O => acc
  | S f =>
      let acc' := (48 + n mod 10)%N :: acc in
      if (n / 10 =? 0)%N then acc' else digits_aux f (n / 10)%N acc'
  end.
Definition str_of_nat (n : nat) : pystr :=
  digits_aux (S n) (N.of_nat n) [].

End PyStr.
Export PyStr.

(** ** Regular expressions (the fragment of [re] the source uses) *)

Module Regex.

(** Patterns: a character class, sequence, alternation, greedy star,
    the group whose text [findall] returns, and the assertion [\b]. *)
Inductive re : Type :=
| Eps : re
| Cls : (char -> bool) -> re
| Seq : re -> re -> re
| Alt : re -> re -> re
| Star : re -> re
| Grp : re -> re
| WordB : re.

Definition Plus (r : re) : re := Seq r (Star r).
Definition Opt (r : re) : re := Alt r Eps.
Definition Chr (c : char) : re := Cls (N.eqb c).
(** A literal letter under [re.IGNORECASE]. *)
Definition ChrI (c : char) : re := Cls (fun x => N.eqb (lower_char x) (lower_char c)).
Definition OneOf (s : string) : re := Cls (fun x => existsb (N.eqb x) (str_of s)).
Fixpoint Lit (s : pystr) : re :=
  match s with
  | [] => Eps
  | [c] => Chr c
  | c :: r => Seq (Chr c) (Lit r)
  end.
Fixpoint LitI (s : pystr) : re :=
  match s with
  | [] => Eps
  | [c] => ChrI c
  | c :: r => Seq (ChrI c) (LitI r)
  end.
Fixpoint Alts (l : list re) : re :=
  match l with
  | [] => Cls (fun _ => false)
  | [r] => r
  | r :: l' => Alt r (Alts l')
  end.

(** The state of a match attempt: the character before the position (for
    [\b]), the rest of the subject, and the text of the group. *)
Record mstate : Type := MState {
  ms_prev : option char;
  ms_rest : pystr;
  ms_group : option pystr
}.

Definition at_word_boundary (st : mstate) : bool :=
  let before := match ms_prev st with Some c => isword c | None => false end in
  let after := match ms_rest st with c :: _ => isword c | [] => false end in
  xorb before after.

(** Backtracking matcher in continuation-passing style, alternatives tried
    in the order of the pattern and the star greedy, as [re] does.  The
    continuation receives the state after the match; its first [Some]
    answer is the result. *)
Fixpoint run {A : Type} (r : re) (st : mstate)
    (k : mstate -> option A) {struct r} : option A :=
  match r with
  | Eps => k st
  | Cls p =>
      match ms_rest st with
      | c :: t => if p c then k (MState (Some c) t (ms_group st)) else None
      | [] => None
      end
  | Seq a b => run a st (fun st' => run b st' k)
  | Alt a b =>
      match run a st k with
      | Some x => Some x
      | None => run b st k
      end
  | Star a =>
      (fix star (n : nat) (st0 : mstate) {struct n} : option A :=
         match n with
         | O => k st0
         | S n' =>
             match run a st0 (fun st' =>
                     if (length (ms_rest st') <? length (ms_rest st0))%nat
                     then star n' st' else None) with
             | Some x => Some x
             | None => k st0
             end
         end) (length (ms_rest st)) st
  | Grp a =>
      run a st (fun st' =>
        let n := (length (ms_rest st) - length (ms_rest st'))%nat in
        k (MState (ms_prev st') (ms_rest st') (Some (firstn n (ms_rest st)))))
  | WordB => if at_word_boundary st then k st else None
  end.

(** One match attempt at a position: the state after the match. *)
Definition match_here (r : re) (prev : option char) (s : pystr) : option mstate :=
  run r (MState prev s None) Some.

(** [re.search(r, s)] as a truth value: some position has a match. *)
Fixpoint search_from (r : re) (prev : option char) (s : pystr) : bool :=
  match match_here r prev s with
  | Some _ => true
  | None =>
      match s with
      | [] => false
      | c :: t => search_from r (Some c) t
      end
  end.
Definition search (r : re) (s : pystr) : bool := search_from r None s.

(** The scan shared by [re.split] and [re.findall]: the successive
    leftmost matches that consume text, as (text before the match, matched
    text, text of the group), and the text after the last match. *)
Fixpoint scan (fuel : nat) (r : re) (prev : option char) (cur : pystr)
    (s : pystr) : list (pystr * pystr * option pystr) * pystr :=
  match fuel with
  | O => ([], rev cur ++ s)
  | S f =>
      match match_here r prev s with
      | Some st =>
          let n := (length s - length (ms_rest st))%nat in
          match n with
          | O =>
              match s with
              | [] => ([], rev cur)
              | c :: t => scan f r (Some c) (c :: cur) t
              end
          | S _ =>
              let '(ms, last) := scan f r (ms_prev st) [] (ms_rest st) in
              ((rev cur, firstn n s, ms_group st) :: ms, last)
          end
      | None =>
          match s with
          | [] => ([], rev cur)
          | c :: t => scan f r (Some c) (c :: cur) t
          end
      end
  end.

(** [re.split(r, s)] for a pattern without a group. *)
Definition split (r : re) (s : pystr) : list pystr :=
  let '(ms, last) := scan (S (length s)) r None [] s in
  map (fun m => fst (fst m)) ms ++ [last].

(** [re.findall(r, s)]: the matched texts for a pattern without a group,
    and for a pattern with one group the text of the group, which is the
    empty string when the group took no part in the match. *)
Definition findall (r : re) (s : pystr) : list pystr :=
  map (fun m => snd (fst m)) (fst (scan (S (length s)) r None [] s)).
Definition findall_group (r : re) (s : pystr) : list pystr :=
  map (fun m => default [] (snd m)) (fst (scan (S (length s)) r None [] s)).

Definition digit : re := Cls isdigit.
Definition space : re := Cls isspace.

End Regex.

(** ** Floats as rationals *)

Module PyNum.
Local Open Scope Q_scope.

Definition Qltb (a b : Q) : bool :=
  match a ?= b with Lt => true | _ => false end.
Definition Qleb (a b : Q) : bool :=
  match a ?= b with Gt => false | _ => true end.
Definition Qeqb (a b : Q) : bool :=
  match a ?= b with Eq => true | _ => false end.

(** [min(a, b)] and [max(a, b)]: the first argument unless the second is
    strictly smaller (larger). *)
Definition py_min (a b : Q) : Q := if Qltb b a then b else a.
Definition py_max (a b : Q) : Q := if Qltb a b then b else a.

Definition py_abs (a : Q) : Q := Qabs a.

(** Rounding of a rational to the nearest integer, ties to even. *)
Definition round_half_even (q : Q) : Z :=
  let n := Qnum q in
  let d := Z.pos (Qden q) in
  let fl := (n / d)%Z in
  let r2 := (2 * (n mod d))%Z in
  match (r2 ?= d)%Z with
  | Lt => fl
  | Gt => (fl + 1)%Z
  | Eq => if Z.even fl then fl else (fl + 1)%Z
  end.

(** [round(x, 2)] *)
Definition round2 (q : Q) : Q := inject_Z (round_half_even (q * 100)) / 100.

End PyNum.
Export PyNum.

(** ** Dynamically typed values and the parsed inputs
    (src/services/parsing/parsing_types.py) *)

Module Parsing.

(** A value of type [Any]: the values of a JSON document, as the requests
    of the API carry them - null, a boolean, a number, a string, a list, or
    a dictionary with strings as keys, whose items are kept in the order of
    insertion, the order in which Python iterates over it.  The entries of
    [work_experience] and [education] are dictionaries, as their type
    [List[Dict[str, Any]]] says, so a test [isinstance(exp, dict)] on them
    succeeds. *)
#[warnings="-register-all"]
Inductive pyval : Type :=
| VNone : pyval
| VBool : bool -> pyval
| VNum : Q -> pyval
| VStr : pystr -> pyval
| VList : list pyval -> pyval
| VDict : list (pystr * pyval) -> pyval.

(** Truth value of a Python object. *)
Definition truthy (v : pyval) : bool :=
  match v with
  | VNone => false
  | VBool b => b
  | VNum q => negb (Qeqb q 0)
  | VStr s => match s with [] => false | _ => true end
  | VList l => match l with [] => false | _ => true end
  | VDict items => match items with [] => false | _ => true end
  end.

Definition nonempty {A : Type} (l : list A) : bool :=
  match l with [] => false | _ => true end.

(** [d.get(key)] and [d.get(key, dflt)] *)
Definition get (d : gmap string pyval) (key : string) : pyval :=
  default VNone (d !! key).
Definition get_or (d : gmap string pyval) (key : string) (dflt : pyval) : pyval :=
  default dflt (d !! key).

Record ParsedResumeInternal : Type := {
  name : option pystr;
  email : option pystr;
  phone : option pystr;
  location : option pystr;
  work_experience : list (gmap string pyval);
  education : list (gmap string pyval);
  skills : list pystr
}.

Record ParsedJobDescriptionInternal : Type := {
  title : option pystr;
  company : option pystr;
  required_skills : list pystr;
  preferred_skills : list pystr;
  required_education : option pystr;
  keywords : list pystr
}.

End Parsing.
Export Parsing.

(** ** Feature extraction (src/services/features) *)

Module Features.

Record QuantitativeFeatures : Type := {
  years_experience : option Q;
  skills_count : option Z;
  keyword_match_count : option Z;
  resume_length_words : option Z
}.

Record CategoricalFeatures : Type := {
  has_required_skills : option bool;
  has_required_degree : option bool
}.

Record FeatureVectorInternal : Type := {
  quantitative : QuantitativeFeatures;
  categorical : CategoricalFeatures;
  missing_features : list string;
  computation_method : gmap string string
}.

(** [FeatureVectorInternal()] *)
Definition empty_features : FeatureVectorInternal :=
  {| quantitative := Build_QuantitativeFeatures None None None None;
     categorical := Build_CategoricalFeatures None None;
     missing_features := [];
     computation_method := ∅ |}.

(** [features.missing_features.append(f)] *)
Definition mark_missing (f : string) (fv : FeatureVectorInternal) : FeatureVectorInternal :=
  {| quantitative := quantitative fv; categorical := categorical fv;
     missing_features := missing_features fv ++ [f];
     computation_method := computation_method fv |}.

(** [features.computation_method[f] = m] *)
Definition mark_computed (f m : string) (fv : FeatureVectorInternal) : FeatureVectorInternal :=
  {| quantitative := quantitative fv; categorical := categorical fv;
     missing_features := missing_features fv;
     computation_method := <[f := m]> (computation_method fv) |}.

Definition set_quantitative (q : QuantitativeFeatures) (fv : FeatureVectorInternal) :=
  {| quantitative := q; categorical := categorical fv;
     missing_features := missing_features fv;
     computation_method := computation_method fv |}.
Definition set_categorical (c : CategoricalFeatures) (fv : FeatureVectorInternal) :=
  {| quantitative := quantitative fv; categorical := c;
     missing_features := missing_features fv;
     computation_method := computation_method fv |}.

Definition set_skills_count (v : Z) (fv : FeatureVectorInternal) :=
  let q := quantitative fv in
  set_quantitative (Build_QuantitativeFeatures (years_experience q) (Some v)
                      (keyword_match_count q) (resume_length_words q)) fv.
Definition set_keyword_match_count (v : Z) (fv : FeatureVectorInternal) :=
  let q := quantitative fv in
  set_quantitative (Build_QuantitativeFeatures (years_experience q) (skills_count q)
                      (Some v) (resume_length_words q)) fv.
Definition set_resume_length_words (v : Z) (fv : FeatureVectorInternal) :=
  let q := quantitative fv in
  set_quantitative (Build_QuantitativeFeatures (years_experience q) (skills_count q)
                      (keyword_match_count q) (Some v)) fv.
Definition set_years_experience (v : Q) (fv : FeatureVectorInternal) :=
  let q := quantitative fv in
  set_quantitative (Build_QuantitativeFeatures (Some v) (skills_count q)
                      (keyword_match_count q) (resume_length_words q)) fv.
Definition set_has_required_skills (v : bool) (fv : FeatureVectorInternal) :=
  set_categorical (Build_CategoricalFeatures (Some v)
                     (has_required_degree (categorical fv))) fv.
Definition set_has_required_degree (v : bool) (fv : FeatureVectorInternal) :=
  set_categorical (Build_CategoricalFeatures
                     (has_required_skills (categorical fv)) (Some v)) fv.

Definition zlen {A : Type} (l : list A) : Z := Z.of_nat (length l).

(** Each [_compute_*] returns its value and the feature vector with the
    bookkeeping it did on it. *)

(** [parsed_resume.skills] is a [List[str]]: the test [is not None]
    succeeds on every value of that type, so the branch that records
    "skills_count" as missing is never taken. *)
Definition _compute_skills_count (r : ParsedResumeInternal)
    (fv : FeatureVectorInternal) : Z * FeatureVectorInternal :=
  (zlen (skills r), mark_computed "skills_count" "deterministic_rule" fv).

Definition _compute_keyword_match_count (r : ParsedResumeInternal)
    (jd : ParsedJobDescriptionInternal) (fv : FeatureVectorInternal)
    : Z * FeatureVectorInternal :=
  if negb (nonempty (skills r)) || negb (nonempty (required_skills jd))
  then (0, mark_missing "keyword_match_count" fv)
  else
    let resume_skills_lower := map lower (skills r) in
    let required_skills_lower := map lower (required_skills jd) in
    let matches :=
      zlen (List.filter (fun skill => mem skill resume_skills_lower)
              required_skills_lower) in
    (matches, mark_computed "keyword_match_count" "deterministic_rule" fv).

(** The words of one entry: [len(description.split())] when the
    description is a string. *)
Definition description_words (exp : gmap string pyval) : Z :=
  match get_or exp "description" (VStr []) with
  | VStr d => zlen (split_ws d)
  | _ => 0
  end.

Definition _compute_resume_length_words (r : ParsedResumeInternal)
    (fv : FeatureVectorInternal) : Z * FeatureVectorInternal :=
  let word_count :=
    fold_left (fun acc exp => acc + description_words exp) (work_experience r) 0 in
  if nonempty (work_experience r)
  then if 0 <? word_count
       then (word_count, mark_computed "resume_length_words" "deterministic_rule" fv)
       else (0, mark_missing "resume_length_words" fv)
  else (0, mark_missing "resume_length_words" fv).

Definition months_of_entry (exp : gmap string pyval) : Z :=
  if truthy (get exp "start_date") && truthy (get exp "end_date") then 12 else 0.

Definition _compute_years_experience (r : ParsedResumeInternal)
    (fv : FeatureVectorInternal) : Q * FeatureVectorInternal :=
  if negb (nonempty (work_experience r))
  then (0%Q, mark_missing "years_experience" fv)
  else
    let total_months :=
      fold_left (fun acc exp => acc + months_of_entry exp) (work_experience r) 0 in
    let years := if 0 <? total_months then (inject_Z total_months / 12)%Q else 0%Q in
    (years, mark_computed "years_experience" "deterministic_heuristic" fv).

Definition _compute_has_required_skills (r : ParsedResumeInternal)
    (jd : ParsedJobDescriptionInternal) (fv : FeatureVectorInternal)
    : bool * FeatureVectorInternal :=
  if negb (nonempty (skills r)) || negb (nonempty (required_skills jd))
  then (false, mark_missing "has_required_skills" fv)
  else
    let resume_skills_lower := map lower (skills r) in
    let required_skills_lower := map lower (required_skills jd) in
    let has_all := forallb (fun skill => mem skill resume_skills_lower)
                     required_skills_lower in
    (has_all, mark_computed "has_required_skills" "deterministic_rule" fv).

(** Does this education entry carry the required degree? *)
Definition degree_matches (required_edu_lower : pystr) (edu : gmap string pyval) : bool :=
  match get_or edu "degree" (VStr []) with
  | VStr degree => contains required_edu_lower (lower degree)
  | _ => false
  end.

Definition _compute_has_required_degree (r : ParsedResumeInternal)
    (jd : ParsedJobDescriptionInternal) (fv : FeatureVectorInternal)
    : bool * FeatureVectorInternal :=
  match required_education jd with
  | None | Some [] => (false, mark_missing "has_required_degree" fv)
  | Some req =>
      if negb (nonempty (education r))
      then (false, fv)
      else
        let required_edu_lower := lower req in
        if existsb (degree_matches required_edu_lower) (education r)
        then (true, mark_computed "has_required_degree" "deterministic_rule" fv)
        else (false, mark_computed "has_required_degree" "deterministic_rule" fv)
  end.

Definition extract (r : ParsedResumeInternal) (jd : ParsedJobDescriptionInternal)
    : FeatureVectorInternal :=
  let features := empty_features in
  let '(v, features) := _compute_skills_count r features in
  let features := set_skills_count v features in
  let '(v, features) := _compute_keyword_match_count r jd features in
  let features := set_keyword_match_count v features in
  let '(v, features) := _compute_resume_length_words r features in
  let features := set_resume_length_words v features in
  let '(v, features) := _compute_years_experience r features in
  let features := set_years_experience v features in
  let '(v, features) := _compute_has_required_skills r jd features in
  let features := set_has_required_skills v features in
  let '(v, features) := _compute_has_required_degree r jd features in
  let features := set_has_required_degree v features in
  features.

(** The six features of the vector, by name, and whether the field of a
    feature holds a value. *)
Definition feature_names : list string :=
  ["years_experience"; "skills_count"; "keyword_match_count";
   "resume_length_words"; "has_required_skills"; "has_required_degree"]%string.

Definition field_is_set (fv : FeatureVectorInternal) (f : string) : bool :=
  if String.eqb f "years_experience" then bool_decide (is_Some (years_experience (quantitative fv)))
  else if String.eqb f "skills_count" then bool_decide (is_Some (skills_count (quantitative fv)))
  else if String.eqb f "keyword_match_count" then bool_decide (is_Some (keyword_match_count (quantitative fv)))
  else if String.eqb f "resume_length_words" then bool_decide (is_Some (resume_length_words (quantitative fv)))
  else if String.eqb f "has_required_skills" then bool_decide (is_Some (has_required_skills (categorical fv)))
  else if String.eqb f "has_required_degree" then bool_decide (is_Some (has_required_degree (categorical fv)))
  else false.

(** A feature counts as computed when [computation_method] has an entry
    for it, and as missing when [missing_features] names it. *)
Definition is_computed (fv : FeatureVectorInternal) (f : string) : bool :=
  bool_decide (is_Some (computation_method fv !! f)).
Definition is_missing (fv : FeatureVectorInternal) (f : string) : bool :=
  existsb (String.eqb f) (missing_features fv).

(** *** Predicates of the properties *)

(** The feature is recorded on exactly one side of the bookkeeping. *)
Definition exactly_one (fv : FeatureVectorInternal) (f : string) : Prop :=
  xorb (is_computed fv f) (is_missing fv f) = true.

(** The invariant in the words of the specification: every feature is
    recorded on exactly one side, and a missing one is left unset. *)
Definition computed_xor_missing_and_unset (fv : FeatureVectorInternal) : Prop :=
  forall f, In f feature_names ->
    exactly_one fv f /\ (is_missing fv f = true -> field_is_set fv f = false).

(** The field of a feature holds the value the extractor returns when it
    cannot compute it: 0, 0.0 or False. *)
Definition holds_default (fv : FeatureVectorInternal) (f : string) : Prop :=
  if String.eqb f "years_experience"
  then exists q, years_experience (quantitative fv) = Some q /\ (q == 0)%Q
  else if String.eqb f "skills_count" then skills_count (quantitative fv) = Some 0
  else if String.eqb f "keyword_match_count" then keyword_match_count (quantitative fv) = Some 0
  else if String.eqb f "resume_length_words" then resume_length_words (quantitative fv) = Some 0
  else if String.eqb f "has_required_skills" then has_required_skills (categorical fv) = Some false
  else if String.eqb f "has_required_degree" then has_required_degree (categorical fv) = Some false
  else False.

(** What the bookkeeping of a vector extracted from [r] and [jd] says
    about the feature [f]. *)
Definition bookkeeping_of (r : ParsedResumeInternal) (jd : ParsedJobDescriptionInternal)
    (fv : FeatureVectorInternal) (f : string) : Prop :=
  (is_computed fv f && is_missing fv f = false)
  /\ (f <> "has_required_degree"%string -> exactly_one fv f)
  /\ (nonempty (education r) = true -> exactly_one fv f)
  /\ (required_education jd = None \/ required_education jd = Some [] -> exactly_one fv f)
  /\ field_is_set fv f = true
  /\ (is_missing fv f = true -> holds_default fv f).

(** A work-experience entry whose start and end date are both given. *)
Definition dated (exp : gmap string pyval) : bool :=
  truthy (get exp "start_date") && truthy (get exp "end_date").

End Features.

(** ** ATS simulation (src/services/ats) *)

Module ATS.
Import Features.

Record ATSRequiredFieldsStatus : Type := {
  rf_email : bool;
  rf_phone : bool;
  rf_work_history : bool;
  rf_education : bool;
  all_present : bool
}.

Record ATSHardFilters : Type := {
  experience_met : option bool;
  education_met : option bool;
  certifications_met : option bool;
  all_met : option bool
}.

Record MatchedKeyword : Type := {
  keyword : pystr;
  mk_location : pystr;
  weight : Q
}.

Record ATSKeywordBreakdown : Type := {
  matched_keywords : list MatchedKeyword;
  missing_keywords : list pystr;
  total_required : Z;
  total_matched : Z
}.

Record ATSResultInternal : Type := {
  keyword_match_percentage : Q;
  compatibility_score : Q;
  required_fields_status : ATSRequiredFieldsStatus;
  hard_filters : option ATSHardFilters;
  keyword_breakdown : ATSKeywordBreakdown;
  rejection_reasons : list pystr;
  ats_type : option pystr
}.

(** [ATSResultInternal()] *)
Definition empty_result : ATSResultInternal :=
  {| keyword_match_percentage := 0; compatibility_score := 0;
     required_fields_status := Build_ATSRequiredFieldsStatus false false false false false;
     hard_filters := None;
     keyword_breakdown := Build_ATSKeywordBreakdown [] [] 0 0;
     rejection_reasons := []; ats_type := None |}.

(** [result.rejection_reasons.append(msg)] *)
Definition reject (msg : pystr) (res : ATSResultInternal) : ATSResultInternal :=
  {| keyword_match_percentage := keyword_match_percentage res;
     compatibility_score := compatibility_score res;
     required_fields_status := required_fields_status res;
     hard_filters := hard_filters res;
     keyword_breakdown := keyword_breakdown res;
     rejection_reasons := rejection_reasons res ++ [msg];
     ats_type := ats_type res |}.

Definition reject_if (b : bool) (msg : string) (res : ATSResultInternal) :=
  if b then reject (str_of msg) res else res.

(** [field is not None and field.strip() != ""] *)
Definition field_present (field : option pystr) : bool :=
  match field with
  | None => false
  | Some s => nonempty (strip s)
  end.

Definition _check_required_fields (r : ParsedResumeInternal)
    (res : ATSResultInternal) : ATSRequiredFieldsStatus * ATSResultInternal :=
  let e := field_present (email r) in
  let p := field_present (phone r) in
  let w := 0 <? zlen (work_experience r) in
  let ed := 0 <? zlen (education r) in
  let status := Build_ATSRequiredFieldsStatus e p w ed (e && p && w) in
  let res := reject_if (negb e) "Missing required field: email" res in
  let res := reject_if (negb p) "Missing required field: phone" res in
  let res := reject_if (negb w) "Missing required field: work history" res in
  (status, res).

Definition _check_hard_filters (fv : FeatureVectorInternal)
    (res : ATSResultInternal) : ATSHardFilters * ATSResultInternal :=
  let '(exp_met, res) :=
    match has_required_skills (categorical fv) with
    | Some b =>
        (Some b, reject_if (negb b) "Hard filter failed: missing required skills" res)
    | None => (None, res)
    end in
  let '(edu_met, res) :=
    match has_required_degree (categorical fv) with
    | Some b =>
        (Some b, reject_if (negb b) "Hard filter failed: missing required education" res)
    | None => (None, res)
    end in
  let all :=
    match exp_met, edu_met with
    | Some a, Some b => Some (a && b)
    | Some a, None => Some a
    | None, Some b => Some b
    | None, None => None
    end in
  (Build_ATSHardFilters exp_met edu_met None all, res).

(** [str(n)] for an integer. *)
Definition str_of_int (z : Z) : pystr :=
  if z <? 0 then str_of "-" ++ str_of_nat (Z.to_nat (- z)) else str_of_nat (Z.to_nat z).

Definition _compute_keyword_matching (r : ParsedResumeInternal)
    (jd : ParsedJobDescriptionInternal) (fv : FeatureVectorInternal)
    (res : ATSResultInternal) : ATSKeywordBreakdown * ATSResultInternal :=
  let required_keywords := required_skills jd in
  let total_req := zlen required_keywords in
  if total_req =? 0
  then (Build_ATSKeywordBreakdown [] [] total_req 0, res)
  else
    let resume_skills_lower := map lower (skills r) in
    let is_matched := fun kw => mem (lower kw) resume_skills_lower in
    let matched :=
      map (fun kw => Build_MatchedKeyword kw (str_of "skills") 1)
        (List.filter is_matched required_keywords) in
    let missing := List.filter (fun kw => negb (is_matched kw)) required_keywords in
    let total :=
      match keyword_match_count (quantitative fv) with
      | Some c => c
      | None => zlen matched
      end in
    let res :=
      if total <? total_req
      then
        let missing_count := total_req - total in
        reject (str_of "Missing " ++ str_of_int missing_count
                ++ str_of " required keyword(s): "
                ++ join (str_of ", ") (firstn 5 missing)) res
      else res in
    (Build_ATSKeywordBreakdown matched missing total_req total, res).

Definition _calculate_keyword_match_percentage (b : ATSKeywordBreakdown) : Q :=
  if total_required b =? 0 then 100%Q
  else round2 (inject_Z (total_matched b) / inject_Z (total_required b) * 100)%Q.

Definition _calculate_compatibility_score (res : ATSResultInternal) : Q :=
  let score := 100%Q in
  let score := if negb (rf_email (required_fields_status res)) then (score - 25)%Q else score in
  let score := if negb (rf_phone (required_fields_status res)) then (score - 25)%Q else score in
  let score := if negb (rf_work_history (required_fields_status res)) then (score - 30)%Q else score in
  let score :=
    match hard_filters res with
    | Some hf =>
        let score :=
          match experience_met hf with Some false => (score - 20)%Q | _ => score end in
        match education_met hf with Some false => (score - 15)%Q | _ => score end
    | None => score
    end in
  let score :=
    if Qltb (keyword_match_percentage res) 60
    then
      let penalty := (60 - keyword_match_percentage res)%Q in
      (score - py_min penalty 20)%Q
    else score in
  py_max 0 (round2 score).

Definition set_required_fields_status v (res : ATSResultInternal) :=
  {| keyword_match_percentage := keyword_match_percentage res;
     compatibility_score := compatibility_score res;
     required_fields_status := v; hard_filters := hard_filters res;
     keyword_breakdown := keyword_breakdown res;
     rejection_reasons := rejection_reasons res; ats_type := ats_type res |}.
Definition set_hard_filters v (res : ATSResultInternal) :=
  {| keyword_match_percentage := keyword_match_percentage res;
     compatibility_score := compatibility_score res;
     required_fields_status := required_fields_status res; hard_filters := Some v;
     keyword_breakdown := keyword_breakdown res;
     rejection_reasons := rejection_reasons res; ats_type := ats_type res |}.
Definition set_keyword_breakdown v (res : ATSResultInternal) :=
  {| keyword_match_percentage := keyword_match_percentage res;
     compatibility_score := compatibility_score res;
     required_fields_status := required_fields_status res;
     hard_filters := hard_filters res; keyword_breakdown := v;
     rejection_reasons := rejection_reasons res; ats_type := ats_type res |}.
Definition set_keyword_match_percentage v (res : ATSResultInternal) :=
  {| keyword_match_percentage := v;
     compatibility_score := compatibility_score res;
     required_fields_status := required_fields_status res;
     hard_filters := hard_filters res; keyword_breakdown := keyword_breakdown res;
     rejection_reasons := rejection_reasons res; ats_type := ats_type res |}.
Definition set_compatibility_score v (res : ATSResultInternal) :=
  {| keyword_match_percentage := keyword_match_percentage res;
     compatibility_score := v;
     required_fields_status := required_fields_status res;
     hard_filters := hard_filters res; keyword_breakdown := keyword_breakdown res;
     rejection_reasons := rejection_reasons res; ats_type := ats_type res |}.
Definition set_ats_type v (res : ATSResultInternal) :=
  {| keyword_match_percentage := keyword_match_percentage res;
     compatibility_score := compatibility_score res;
     required_fields_status := required_fields_status res;
     hard_filters := hard_filters res; keyword_breakdown := keyword_breakdown res;
     rejection_reasons := rejection_reasons res; ats_type := Some v |}.

Definition simulate (r : ParsedResumeInternal) (jd : ParsedJobDescriptionInternal)
    (fv : FeatureVectorInternal) (ats_type : pystr) : ATSResultInternal :=
  let result := set_ats_type ats_type empty_result in
  let '(status, result) := _check_required_fields r result in
  let result := set_required_fields_status status result in
  let '(filters, result) := _check_hard_filters fv result in
  let result := set_hard_filters filters result in
  let '(breakdown, result) := _compute_keyword_matching r jd fv result in
  let result := set_keyword_breakdown breakdown result in
  let result := set_keyword_match_percentage
                  (_calculate_keyword_match_percentage (keyword_breakdown result)) result in
  set_compatibility_score (_calculate_compatibility_score result) result.

(** The deductions of the compatibility score, as the specification lists
    them, on the facts of one simulation. *)
Definition deduction (b : bool) (points : Q) : Q := if b then points else 0%Q.

(** *** The score in the words of the specification

    100, minus 25, 25 and 30 for a missing email, phone and work history,
    minus 20 and 15 for a failed experience and education hard filter,
    minus min(20, 60 - percentage) when the keyword match percentage is
    below 60; floored at 0 and rounded to two decimals. *)
Definition spec_compatibility_score
    (missing_email missing_phone missing_work_history : bool)
    (failed_experience failed_education : bool) (percentage : Q) : Q :=
  py_max 0
    (round2 (100 - deduction missing_email 25 - deduction missing_phone 25
             - deduction missing_work_history 30
             - deduction failed_experience 20 - deduction failed_education 15
             - (if Qltb percentage 60 then py_min 20 (60 - percentage) else 0))%Q).

(** A hard filter that is defined and not met. *)
Definition failed (filter : option bool) : bool :=
  match filter with Some false => true | _ => false end.

(** Two results that differ at most in their rejection reasons. *)
Definition same_facts (a b : ATSResultInternal) : Prop :=
  required_fields_status a = required_fields_status b
  /\ hard_filters a = hard_filters b
  /\ keyword_breakdown a = keyword_breakdown b
  /\ keyword_match_percentage a = keyword_match_percentage b
  /\ compatibility_score a = compatibility_score b
  /\ ats_type a = ats_type b.

(** The rejection reasons of [a] are still among those of [b]. *)
Definition keeps_reasons (a b : ATSResultInternal) : Prop :=
  forall msg, In msg (rejection_reasons a) -> In msg (rejection_reasons b).

(** *** Rejection reasons *)

(** The reason a check leaves when it fails. *)
Definition reasons_if (b : bool) (msg : string) : list pystr :=
  if b then [str_of msg] else [].

(** The reason the keyword matching leaves for a breakdown that falls
    short of the required count. *)
Definition shortfall_reason (b : ATSKeywordBreakdown) : list pystr :=
  if total_matched b <? total_required b
  then [str_of "Missing " ++ str_of_int (total_required b - total_matched b)
        ++ str_of " required keyword(s): "
        ++ join (str_of ", ") (firstn 5 (missing_keywords b))]
  else [].

End ATS.

(** ** Interview readiness (src/services/interview) *)

Module Interview.
Import Regex Features.

Record ResumeClaim : Type := {
  claim_text : pystr;
  claim_type : pystr;
  defensibility_score : Q;
  depth_indicator : pystr;
  consistency_risk : option pystr;
  supporting_evidence : list pystr
}.

Record PredictedInterviewQuestion : Type := {
  question : pystr;
  likelihood : Q;
  question_type : pystr;
  q_related_claim : option pystr;
  reasoning : option pystr
}.

Record ConsistencyRisk : Type := {
  risk_type : pystr;
  severity : pystr;
  description : pystr;
  related_claim : option pystr;
  mitigation_suggestion : option pystr
}.

Record InterviewReadinessResultInternal : Type := {
  readiness_score : Q;
  resume_claims : list ResumeClaim;
  predicted_questions : list PredictedInterviewQuestion;
  consistency_risks : list ConsistencyRisk
}.

(** An exception leaving a call. *)
Inductive exn : Type := TypeError.
Inductive outcome (A : Type) : Type :=
| Ok : A -> outcome A
| Raise : exn -> outcome A.
Arguments Ok {A} _.
Arguments Raise {A} _.

Definition bind {A B : Type} (m : outcome A) (f : A -> outcome B) : outcome B :=
  match m with
  | Ok a => f a
  | Raise e => Raise e
  end.
Notation "'let*' x ':=' m 'in' k" := (bind m (fun x => k))
  (at level 10, x name, m at level 100, k at level 200).

Definition lit (s : string) : re := Lit (str_of s).
Definition liti (s : string) : re := LitI (str_of s).
(** [[KMB]] under [re.IGNORECASE] *)
Definition kmb : re := Cls (fun c => existsb (N.eqb (lower_char c)) (str_of "kmb")).

(** [\d+%|\d+\.\d+%|\$\d+[KMB]?|\d+\s*(million|thousand|k|m|b)\b|\d+\s*(years?|months?|days?)\b]
    with [re.IGNORECASE]; the pattern is only searched, so its groups
    are written as plain alternations. *)
Definition metrics_re : re :=
  Alts [
    Seq (Plus digit) (lit "%");
    Seq (Plus digit) (Seq (lit ".") (Seq (Plus digit) (lit "%")));
    Seq (lit "$") (Seq (Plus digit) (Opt kmb));
    Seq (Plus digit) (Seq (Star space)
      (Seq (Alts [liti "million"; liti "thousand"; liti "k"; liti "m"; liti "b"]) WordB));
    Seq (Plus digit) (Seq (Star space)
      (Seq (Alts [Seq (liti "year") (Opt (liti "s"));
                  Seq (liti "month") (Opt (liti "s"));
                  Seq (liti "day") (Opt (liti "s"))]) WordB))
  ].

(** [\b(built|developed|...|delivered)\b] *)
Definition actions_re : re :=
  Seq WordB (Seq
    (Alts (map lit ["built"; "developed"; "created"; "implemented"; "designed";
                    "optimized"; "reduced"; "increased"; "improved"; "managed";
                    "led"; "achieved"; "delivered"]%string))
    WordB).

Definition vague_indicators : list pystr :=
  map str_of ["helped"; "assisted"; "worked on"; "involved in"; "contributed to";
              "part of"; "responsible for"]%string.

Definition _evaluate_defensibility (text : pystr) : Q * pystr :=
  let text_lower := lower text in
  let has_metrics := search metrics_re text in
  let has_specific_actions := search actions_re text_lower in
  let is_vague := existsb (fun indicator => contains indicator text_lower) vague_indicators in
  if has_metrics then (9 # 10, str_of "deep")
  else if has_specific_actions && negb is_vague then (7 # 10, str_of "moderate")
  else if is_vague || (length (split_ws text) <? 5)%nat then (3 # 10, str_of "surface")
  else (5 # 10, str_of "moderate").

Definition _assess_consistency_risk (text : pystr) (defensibility : Q) : option pystr :=
  if Qltb defensibility (4 # 10) then Some (str_of "high")
  else if Qltb defensibility (6 # 10) then Some (str_of "medium")
  else None.

(** [\d+\.?\d*%] *)
Definition percent_re : re :=
  Seq (Plus digit) (Seq (Opt (lit ".")) (Seq (Star digit) (lit "%"))).

(** [\d+[KMB]?|\d+\s*(million|thousand|k|m|b|years?|months?|days?)\b]
    with [re.IGNORECASE] *)
Definition units_re : re :=
  Alt (Seq (Plus digit) (Opt kmb))
      (Seq (Plus digit) (Seq (Star space)
         (Seq (Grp (Alts [liti "million"; liti "thousand"; liti "k"; liti "m"; liti "b";
                          Seq (liti "year") (Opt (liti "s"));
                          Seq (liti "month") (Opt (liti "s"));
                          Seq (liti "day") (Opt (liti "s"))])) WordB))).

Definition _extract_supporting_evidence (text : pystr) : list pystr :=
  let percentages := findall percent_re text in
  let numbers_with_units := findall_group units_re text in
  percentages ++ numbers_with_units.

Definition _create_claim_from_text (text : pystr) (claim_type : pystr)
    (job : gmap string pyval) : ResumeClaim :=
  let '(defensibility, depth) := _evaluate_defensibility text in
  let risk := _assess_consistency_risk text defensibility in
  let evidence := _extract_supporting_evidence text in
  {| claim_text := text; claim_type := claim_type;
     defensibility_score := defensibility; depth_indicator := depth;
     consistency_risk := risk; supporting_evidence := evidence |}.

(** [[•\-\*]\s*|\n\s*[-•*]\s*]; the bullet is U+2022. *)
Definition bullet_class : re :=
  Cls (fun c => (c =? 8226)%N || (c =? 45)%N || (c =? 42)%N).
Definition bullet_re : re :=
  Alt (Seq bullet_class (Star space))
      (Seq (Chr 10%N) (Seq (Star space) (Seq bullet_class (Star space)))).

(** The claims of one job: its achievements, then the bullets of its
    description. *)
Definition achievement_claims (job : gmap string pyval) : list ResumeClaim :=
  match get_or job "achievements" (VList []) with
  | VList achievements =>
      flat_map (fun achievement =>
        match achievement with
        | VStr a =>
            if nonempty (strip a)
            then [_create_claim_from_text (strip a) (str_of "achievement") job]
            else []
        | _ => []
        end) achievements
  | _ => []
  end.

Definition description_claims (job : gmap string pyval) : list ResumeClaim :=
  match get_or job "description" (VStr []) with
  | VStr description =>
      if nonempty (strip description)
      then
        let bullets := split bullet_re description in
        flat_map (fun bullet =>
          let bullet := strip bullet in
          if nonempty bullet && (10 <? length bullet)%nat
          then [_create_claim_from_text bullet (str_of "achievement") job]
          else []) bullets
      else []
  | _ => []
  end.

Definition skill_claim (skill : pystr) : ResumeClaim :=
  {| claim_text := str_of "Proficient in " ++ skill;
     claim_type := str_of "skill";
     defensibility_score := 5 # 10;
     depth_indicator := str_of "surface";
     consistency_risk := Some (str_of "medium");
     supporting_evidence := [] |}.

Definition _extract_resume_claims (r : ParsedResumeInternal) : list ResumeClaim :=
  let claims :=
    flat_map (fun job => achievement_claims job ++ description_claims job)
      (work_experience r) in
  if negb (nonempty claims) && nonempty (skills r)
  then
    claims ++
    flat_map (fun skill =>
      if nonempty skill && nonempty (strip skill) then [skill_claim skill] else [])
      (firstn 5 (skills r))
  else claims.

Definition risk_is (c : ResumeClaim) (level : string) : bool :=
  match consistency_risk c with
  | Some s => str_eqb s (str_of level)
  | None => false
  end.

(** The questions one claim gives rise to. *)
Definition questions_of_claim (claim : ResumeClaim) : list PredictedInterviewQuestion :=
  if risk_is claim "high" || risk_is claim "medium"
  then
    [ {| question := str_of "Can you explain how you achieved: '"
                       ++ slice_to 50 (claim_text claim) ++ str_of "...'?";
         likelihood := if risk_is claim "high" then 8 # 10 else 6 # 10;
         question_type := str_of "resume_deep_dive";
         q_related_claim := Some (slice_to 100 (claim_text claim));
         reasoning := Some (str_of "Claim has " ++ default [] (consistency_risk claim)
                              ++ str_of " consistency risk and may need clarification.") |} ]
    ++ (if Qltb (defensibility_score claim) (5 # 10)
        then [ {| question := str_of "What challenges did you face while working on this?";
                  likelihood := 7 # 10;
                  question_type := str_of "behavioral";
                  q_related_claim := Some (slice_to 100 (claim_text claim));
                  reasoning := Some (str_of "Vague or low-defensibility claims often prompt challenge questions.") |} ]
        else [])
    ++ (if negb (nonempty (supporting_evidence claim))
        then [ {| question := str_of "How did you measure the success of this achievement?";
                  likelihood := 7 # 10;
                  question_type := str_of "situational";
                  q_related_claim := Some (slice_to 100 (claim_text claim));
                  reasoning := Some (str_of "Claims without metrics often prompt measurement questions.") |} ]
        else [])
  else [].

Definition _predict_interview_questions (claims : list ResumeClaim)
    : list PredictedInterviewQuestion :=
  firstn 10 (flat_map questions_of_claim claims).

(** The order in which a [set] of strings is iterated.  It is fixed by the
    hash values of the strings, which the interpreter draws per process;
    the evaluator receives it from its environment.  The argument is the
    content of the set and the result lists the same elements. *)
Definition iteration_order : Type := list pystr -> list pystr.
Definition admissible (order : iteration_order) : Prop :=
  forall l : list pystr, Permutation (order l) l.

(** [description + " " + " ".join(str(a) for a in achievements if isinstance(a, str))] *)
Definition combined_text (job : gmap string pyval) : outcome pystr :=
  match get_or job "description" (VStr []) with
  | VStr description =>
      match get_or job "achievements" (VList []) with
      | VList achievements =>
          Ok (description ++ str_of " " ++
              join (str_of " ")
                (flat_map (fun a => match a with VStr s => [s] | _ => [] end) achievements))
      | VStr chars =>
          Ok (description ++ str_of " " ++ join (str_of " ") (map (fun c => [c]) chars))
      | VDict items =>
          Ok (description ++ str_of " " ++ join (str_of " ") (map fst items))
      | _ => Raise TypeError
      end
  | _ => Raise TypeError
  end.

(** The lowered skills that occur in the text of some job. *)
Fixpoint skills_used (skills : list pystr) (jobs : list (gmap string pyval))
    (acc : gset pystr) : outcome (gset pystr) :=
  match jobs with
  | [] => Ok acc
  | job :: rest =>
      let* text := combined_text job in
      skills_used skills rest
        (fold_left (fun acc skill =>
           if contains (lower skill) (lower text) then acc ∪ {[ lower skill ]} else acc)
           skills acc)
  end.

Definition broad_indicators : list pystr :=
  map str_of ["significant"; "major"; "huge"; "massive"; "dramatic"; "revolutionary"]%string.

Definition _identify_consistency_risks (order : iteration_order)
    (r : ParsedResumeInternal) (claims : list ResumeClaim)
    : outcome (list ConsistencyRisk) :=
  let skills_in_resume : gset pystr := list_to_set (map lower (skills r)) in
  let* skills_in_experience := skills_used (skills r) (work_experience r) ∅ in
  let unused_skills := skills_in_resume ∖ skills_in_experience in
  let risks :=
    if nonempty (elements unused_skills)
    then [ {| risk_type := str_of "skill_depth_mismatch";
              severity := str_of "medium";
              description :=
                str_of "Skills listed but not mentioned in work experience: "
                ++ join (str_of ", ") (firstn 3 (order (elements unused_skills)));
              related_claim := None;
              mitigation_suggestion :=
                Some (str_of "Be prepared to explain how you used these skills in your work.") |} ]
    else [] in
  let risks := risks ++
    flat_map (fun claim =>
      if negb (nonempty (supporting_evidence claim)) && Qltb (defensibility_score claim) (5 # 10)
      then [ {| risk_type := str_of "vague_claim";
                severity := if Qltb (defensibility_score claim) (4 # 10)
                            then str_of "high" else str_of "medium";
                description := str_of "Claim lacks specific evidence: '"
                                 ++ slice_to 60 (claim_text claim) ++ str_of "...'";
                related_claim := Some (slice_to 100 (claim_text claim));
                mitigation_suggestion :=
                  Some (str_of "Prepare specific examples and metrics to support this claim.") |} ]
      else []) claims in
  let risks := risks ++
    flat_map (fun claim =>
      if existsb (fun indicator => contains indicator (lower (claim_text claim))) broad_indicators
         && negb (nonempty (supporting_evidence claim))
      then [ {| risk_type := str_of "overstated_achievement";
                severity := str_of "medium";
                description := str_of "Broad impact statement without metrics: '"
                                 ++ slice_to 60 (claim_text claim) ++ str_of "...'";
                related_claim := Some (slice_to 100 (claim_text claim));
                mitigation_suggestion :=
                  Some (str_of "Be ready to quantify the impact with specific numbers.") |} ]
      else []) claims in
  Ok risks.

(** One round of the loop over the claims, and of the loop over the
    risks, on the running score. *)
Definition deduct_claim (score : Q) (claim : ResumeClaim) : Q :=
  let score :=
    if risk_is claim "high" then (score - 8)%Q
    else if risk_is claim "medium" then (score - 4)%Q
    else score in
  if Qltb (defensibility_score claim) (4 # 10) then (score - 5)%Q
  else if Qltb (defensibility_score claim) (6 # 10) then (score - 2)%Q
  else score.

Definition deduct_risk (score : Q) (risk : ConsistencyRisk) : Q :=
  if str_eqb (severity risk) (str_of "high") then (score - 10)%Q
  else if str_eqb (severity risk) (str_of "medium") then (score - 5)%Q
  else if str_eqb (severity risk) (str_of "low") then (score - 2)%Q
  else score.

Definition _compute_readiness_score (claims : list ResumeClaim)
    (risks : list ConsistencyRisk) : Q :=
  let score := fold_left deduct_claim claims 100%Q in
  let score := fold_left deduct_risk risks score in
  py_max 0 (py_min 100 (round2 score)).

Definition evaluate (order : iteration_order) (r : ParsedResumeInternal)
    (fv : FeatureVectorInternal) : outcome InterviewReadinessResultInternal :=
  let claims := _extract_resume_claims r in
  let questions := _predict_interview_questions claims in
  let* risks := _identify_consistency_risks order r claims in
  Ok {| readiness_score := _compute_readiness_score claims risks;
        resume_claims := claims;
        predicted_questions := questions;
        consistency_risks := risks |}.

(** *** Claim extraction in the words of the specification

    Per job the achievements are preferred, and the description is split
    only when they yield nothing. *)
Definition spec_job_claims (job : gmap string pyval) : list ResumeClaim :=
  match achievement_claims job with
  | [] => description_claims job
  | claims => claims
  end.

Definition nonblank (skill : pystr) : bool :=
  nonempty skill && nonempty (strip skill).

Definition spec_extract_resume_claims (r : ParsedResumeInternal) : list ResumeClaim :=
  match flat_map spec_job_claims (work_experience r) with
  | [] => map skill_claim (List.filter nonblank (firstn 5 (skills r)))
  | claims => claims
  end.

(** The claim made from a text found in a job. *)
Definition achievement_of (text : pystr) (job : gmap string pyval) : ResumeClaim :=
  _create_claim_from_text (strip text) (str_of "achievement") job.

(** *** Claim extraction in the words of the amended claim

    The texts a job gives: the strings of its achievements list, stripped,
    that are not blank, and then the fragments that the bullet delimiters
    cut from its description, stripped, that are longer than ten
    characters; a description that is not a string or is blank gives
    none.  Each text makes an "achievement" claim.  When no job gives a
    text, the non-blank ones of the first five skills make "skill" claims
    with the defensibility 0.5 and the risk "medium". *)
Definition achievement_texts (job : gmap string pyval) : list pystr :=
  match job !! "achievements" with
  | Some (VList entries) =>
      List.filter nonempty
        (map strip (flat_map (fun entry => match entry with
                                           | VStr text => [text]
                                           | _ => []
                                           end) entries))
  | _ => []
  end.

Definition description_fragments (job : gmap string pyval) : list pystr :=
  match job !! "description" with
  | Some (VStr description) =>
      if nonempty (strip description)
      then List.filter (fun fragment => (10 <? length fragment)%nat)
             (map strip (split bullet_re description))
      else []
  | _ => []
  end.

Definition amended_job_claims (job : gmap string pyval) : list ResumeClaim :=
  map (fun text => _create_claim_from_text text (str_of "achievement") job)
    (achievement_texts job ++ description_fragments job).

Definition fallback_claim (skill : pystr) : ResumeClaim :=
  {| claim_text := str_of "Proficient in " ++ skill;
     claim_type := str_of "skill";
     defensibility_score := 5 # 10;
     depth_indicator := str_of "surface";
     consistency_risk := Some (str_of "medium");
     supporting_evidence := [] |}.

Definition amended_extract_resume_claims (r : ParsedResumeInternal) : list ResumeClaim :=
  match flat_map amended_job_claims (work_experience r) with
  | [] => map fallback_claim (List.filter nonblank (firstn 5 (skills r)))
  | claims => claims
  end.

(** *** Two runs of the evaluator

    The parts of a result that carry no text made from a set. *)
Definition scored_part (res : InterviewReadinessResultInternal)
    : Q * list ResumeClaim * list PredictedInterviewQuestion * list (pystr * pystr) :=
  (readiness_score res, resume_claims res, predicted_questions res,
   map (fun risk => (risk_type risk, severity risk)) (consistency_risks res)).

Definition outcome_map {A B : Type} (f : A -> B) (o : outcome A) : outcome B :=
  match o with
  | Ok a => Ok (f a)
  | Raise e => Raise e
  end.

(** *** Predicates of further properties *)



(** The five profiles a claim can have: defensibility, depth and risk. *)
Definition claim_profiles : list (Q * pystr * option pystr) :=
  [ (9 # 10, str_of "deep", None);
    (7 # 10, str_of "moderate", None);
    (5 # 10, str_of "moderate", Some (str_of "medium"));
    (3 # 10, str_of "surface", Some (str_of "high"));
    (5 # 10, str_of "surface", Some (str_of "medium")) ].

Definition profile_of (c : ResumeClaim) : Q * pystr * option pystr :=
  (defensibility_score c, depth_indicator c, consistency_risk c).

(** A claim that carries the risk "high" or "medium". *)
Definition risky (c : ResumeClaim) : bool := risk_is c "high" || risk_is c "medium".

(** The points a claim and a consistency risk take off the readiness
    score. *)
Definition claim_points (c : ResumeClaim) : Z :=
  ((if risk_is c "high" then 8 else if risk_is c "medium" then 4 else 0)
   + (if Qltb (defensibility_score c) (4 # 10) then 5
      else if Qltb (defensibility_score c) (6 # 10) then 2 else 0))%Z.

Definition risk_points (k : ConsistencyRisk) : Z :=
  if str_eqb (severity k) (str_of "high") then 10%Z
  else if str_eqb (severity k) (str_of "medium") then 5%Z
  else if str_eqb (severity k) (str_of "low") then 2%Z
  else 0%Z.

Definition total_points (claims : list ResumeClaim) (risks : list ConsistencyRisk) : Z :=
  (fold_right (fun c n => claim_points c + n) 0 claims
   + fold_right (fun k n => risk_points k + n) 0 risks)%Z.

End Interview.

(** ** Recruiter results (src/services/recruiter/recruiter_types.py) *)

Module Recruiter.

(** The result of the recruiter stage, without its two analysis records,
    which no later stage reads. *)
Record RecruiterRedFlag : Type := {
  flag_type : pystr;
  severity : pystr;
  description : pystr;
  evidence : option pystr
}.

Record RecruiterResultInternal : Type := {
  evaluation_score : Q;
  career_progression_score : Q;
  job_stability_score : Q;
  red_flags : list RecruiterRedFlag;
  recruiter_persona : option pystr
}.

End Recruiter.

(** ** Signal compounding and score aggregation (src/services/scoring) *)

Module Scoring.
Local Open Scope Q_scope.

Record StageProbabilities : Type := {
  ats_pass : Q;
  recruiter_pass : Q;
  interview_pass : Q;
  offer : Q
}.

Record SignalImpact : Type := {
  signal : pystr;
  stages_affected : list pystr;
  compound_effect : option Q
}.

Record ComponentContributions : Type := {
  ats_contribution : option Q;
  recruiter_contribution : option Q;
  interview_contribution : option Q
}.

Record SignalCompoundingSummary : Type := {
  positive_signals : list SignalImpact;
  negative_signals : list SignalImpact
}.

(** The aggregated score.  The ranked [risk_factors] are left out of the
    embedding: their descriptions print floats with one decimal. *)
Record AggregatedScoreInternal : Type := {
  overall_score : Q;
  stage_probabilities : StageProbabilities;
  component_contributions : ComponentContributions;
  signal_compounding_summary : SignalCompoundingSummary
}.

Definition stages (l : list string) : list pystr := map str_of l.

(** *** SignalCompoundingEngine *)

Definition _analyze_ats_influence (ats : ATS.ATSResultInternal)
    (rec : Recruiter.RecruiterResultInternal) : SignalImpact :=
  let ats_score := ATS.compatibility_score ats in
  if Qleb 80 ats_score
  then {| signal := str_of "Strong ATS compatibility";
          stages_affected := stages ["ats"; "recruiter"]%string;
          compound_effect := Some (5 # 100) |}
  else if Qltb ats_score 50
  then {| signal := str_of "Weak ATS compatibility";
          stages_affected := stages ["ats"; "recruiter"]%string;
          compound_effect := Some (- (15 # 100)) |}
  else {| signal := str_of "Moderate ATS compatibility";
          stages_affected := stages ["ats"; "recruiter"]%string;
          compound_effect := Some (- (5 # 100)) |}.

Definition count_severity (level : string) (risks : list Interview.ConsistencyRisk) : nat :=
  length (List.filter (fun risk => str_eqb (Interview.severity risk) (str_of level)) risks).

Definition _analyze_interview_dominance (int : Interview.InterviewReadinessResultInternal)
    : option SignalImpact :=
  let readiness_score := Interview.readiness_score int in
  let consistency_risks := Interview.consistency_risks int in
  let high_risk_count := count_severity "high" consistency_risks in
  let critical_risk_count := count_severity "critical" consistency_risks in
  let impact := fun (name : string) (effect : Q) =>
    Some {| signal := str_of name;
            stages_affected := stages ["interview"; "offer"]%string;
            compound_effect := Some effect |} in
  if (0 <? critical_risk_count)%nat
  then impact "Critical interview consistency risks detected" (- (40 # 100))%Q
  else if (2 <=? high_risk_count)%nat
  then impact "Multiple high-severity interview consistency risks" (- (25 # 100))%Q
  else if (high_risk_count =? 1)%nat
  then impact "High-severity interview consistency risk detected" (- (15 # 100))%Q
  else if Qltb readiness_score 50
  then impact "Low interview readiness score" (- (20 # 100))%Q
  else if Qleb 80 readiness_score
  then impact "High interview readiness score" (10 # 100)%Q
  else None.

(** The risks collected by severity: (critical, high, medium). *)
Definition collect_risks (ats : ATS.ATSResultInternal)
    (rec : Recruiter.RecruiterResultInternal)
    (int : Interview.InterviewReadinessResultInternal)
    : list pystr * list pystr * list pystr :=
  let critical :=
    if Qltb (ATS.compatibility_score ats) 40
    then [str_of "ATS compatibility score below 40"] else [] in
  let '(critical, high) :=
    fold_left (fun '(critical, high) red_flag =>
      let label := str_of "Recruiter red flag: " ++ Recruiter.flag_type red_flag in
      if str_eqb (Recruiter.severity red_flag) (str_of "critical")
      then (critical ++ [label], high)
      else if str_eqb (Recruiter.severity red_flag) (str_of "high")
      then (critical, high ++ [label])
      else (critical, high))
      (Recruiter.red_flags rec) (critical, []) in
  fold_left (fun '(critical, high, medium) risk =>
    let label := str_of "Interview risk: " ++ Interview.risk_type risk in
    if str_eqb (Interview.severity risk) (str_of "critical")
    then (critical ++ [label], high, medium)
    else if str_eqb (Interview.severity risk) (str_of "high")
    then (critical, high ++ [label], medium)
    else if str_eqb (Interview.severity risk) (str_of "medium")
    then (critical, high, medium ++ [label])
    else (critical, high, medium))
    (Interview.consistency_risks int) (critical, high, []).

Definition _analyze_risk_compounding (ats : ATS.ATSResultInternal)
    (rec : Recruiter.RecruiterResultInternal)
    (int : Interview.InterviewReadinessResultInternal) : list SignalImpact :=
  let '(critical_risks, high_risks, medium_risks) := collect_risks ats rec int in
  (if nonempty critical_risks
   then [ {| signal := str_of "Critical risks detected: "
                         ++ join (str_of ", ") (firstn 2 critical_risks);
             stages_affected := stages ["ats"; "recruiter"; "interview"; "offer"]%string;
             compound_effect := Some (- (35 # 100)) |} ]
   else [])
  ++ (if (3 <=? length medium_risks)%nat
      then [ {| signal := str_of "Multiple medium risks compound to high overall risk ("
                            ++ str_of_nat (length medium_risks) ++ str_of " risks)";
                stages_affected := stages ["recruiter"; "interview"; "offer"]%string;
                compound_effect := Some (- (20 # 100)) |} ]
      else [])
  ++ (if (2 <=? length high_risks)%nat
      then [ {| signal := str_of "Multiple high-severity risks compound ("
                            ++ str_of_nat (length high_risks) ++ str_of " risks)";
                stages_affected := stages ["recruiter"; "interview"; "offer"]%string;
                compound_effect := Some (- (25 # 100)) |} ]
      else []).

(** [x and x > 0] and [x and x < 0] for an optional float. *)
Definition is_positive (e : option Q) : bool :=
  match e with Some q => negb (Qeqb q 0) && Qltb 0 q | None => false end.
Definition is_negative (e : option Q) : bool :=
  match e with Some q => negb (Qeqb q 0) && Qltb q 0 | None => false end.
(** [if signal.compound_effect:] *)
Definition effect_of (s : SignalImpact) : option Q :=
  match compound_effect s with
  | Some q => if Qeqb q 0 then None else Some q
  | None => None
  end.

(** [SignalCompoundingEngine.apply] *)
Definition apply (ats : ATS.ATSResultInternal)
    (rec : Recruiter.RecruiterResultInternal)
    (int : Interview.InterviewReadinessResultInternal) : SignalCompoundingSummary :=
  let ats_impact := _analyze_ats_influence ats rec in
  let '(pos, neg) :=
    if is_positive (compound_effect ats_impact)
    then ([ats_impact], []) else ([], [ats_impact]) in
  let '(pos, neg) :=
    match _analyze_interview_dominance int with
    | Some interview_impact =>
        if is_negative (compound_effect interview_impact)
        then (pos, neg ++ [interview_impact])
        else (pos ++ [interview_impact], neg)
    | None => (pos, neg)
    end in
  let risk_impacts := _analyze_risk_compounding ats rec int in
  {| positive_signals := pos; negative_signals := neg ++ risk_impacts |}.

(** *** ScoreAggregator *)

Definition _calculate_base_probabilities (ats : ATS.ATSResultInternal)
    (rec : Recruiter.RecruiterResultInternal)
    (int : Interview.InterviewReadinessResultInternal) : StageProbabilities :=
  let ats_p := py_max 0 (py_min 1 (ATS.compatibility_score ats / 100)) in
  let rec_p := py_max 0 (py_min 1 (Recruiter.evaluation_score rec / 100)) in
  let int_p := py_max 0 (py_min 1 (Interview.readiness_score int / 100)) in
  let off :=
    if Qltb (5 # 10) int_p
    then ((7 # 10) + (int_p - (5 # 10)) * (4 # 10))%Q
    else (int_p * (5 # 10))%Q in
  {| ats_pass := ats_p; recruiter_pass := rec_p; interview_pass := int_p;
     offer := py_max 0 (py_min 1 off) |}.

Definition names (stage : string) (s : SignalImpact) : bool :=
  mem (str_of stage) (stages_affected s).

(** One round of the loop over the positive signals, and of the loop over
    the negative ones. *)
Definition apply_positive (adjusted : StageProbabilities) (s : SignalImpact)
    : StageProbabilities :=
  match effect_of s with
  | Some e =>
      {| ats_pass := ats_pass adjusted;
         recruiter_pass :=
           if names "recruiter" s then py_min 1 (recruiter_pass adjusted + e)
           else recruiter_pass adjusted;
         interview_pass :=
           if names "interview" s then py_min 1 (interview_pass adjusted + e)
           else interview_pass adjusted;
         offer :=
           if names "offer" s then py_min 1 (offer adjusted + e)
           else offer adjusted |}
  | None => adjusted
  end.

Definition apply_negative (adjusted : StageProbabilities) (s : SignalImpact)
    : StageProbabilities :=
  match effect_of s with
  | Some e =>
      {| ats_pass := ats_pass adjusted;
         recruiter_pass :=
           if names "recruiter" s then py_max 0 (recruiter_pass adjusted + e)
           else recruiter_pass adjusted;
         interview_pass :=
           if names "interview" s then py_max 0 (interview_pass adjusted + e)
           else interview_pass adjusted;
         offer :=
           if names "offer" s then py_max 0 (offer adjusted + e)
           else offer adjusted |}
  | None => adjusted
  end.

(** The two loops of [_apply_compounding_effects] ... *)
Definition compound_signals (base : StageProbabilities)
    (summary : SignalCompoundingSummary) : StageProbabilities :=
  let adjusted := base in
  let adjusted := fold_left apply_positive (positive_signals summary) adjusted in
  fold_left apply_negative (negative_signals summary) adjusted.

(** ... and its last three assignments, the funnel. *)
Definition enforce_funnel (adjusted : StageProbabilities) : StageProbabilities :=
  let rec_p := py_min (recruiter_pass adjusted) (ats_pass adjusted) in
  let int_p := py_min (interview_pass adjusted) rec_p in
  let off := py_min (offer adjusted) int_p in
  {| ats_pass := ats_pass adjusted; recruiter_pass := rec_p;
     interview_pass := int_p; offer := off |}.

Definition _apply_compounding_effects (base : StageProbabilities)
    (summary : SignalCompoundingSummary) : StageProbabilities :=
  enforce_funnel (compound_signals base summary).

Definition _compute_overall_score (ats : ATS.ATSResultInternal)
    (rec : Recruiter.RecruiterResultInternal)
    (int : Interview.InterviewReadinessResultInternal) : Q :=
  let overall :=
    (ATS.compatibility_score ats * (30 # 100)
     + Recruiter.evaluation_score rec * (30 # 100)
     + Interview.readiness_score int * (40 # 100))%Q in
  round2 (py_max 0 (py_min 100 overall)).

Definition _compute_component_contributions (ats : ATS.ATSResultInternal)
    (rec : Recruiter.RecruiterResultInternal)
    (int : Interview.InterviewReadinessResultInternal) : ComponentContributions :=
  {| ats_contribution := Some (round2 (ATS.compatibility_score ats * (30 # 100)));
     recruiter_contribution := Some (round2 (Recruiter.evaluation_score rec * (30 # 100)));
     interview_contribution := Some (round2 (Interview.readiness_score int * (40 # 100))) |}.

Definition aggregate (ats : ATS.ATSResultInternal)
    (rec : Recruiter.RecruiterResultInternal)
    (int : Interview.InterviewReadinessResultInternal) : AggregatedScoreInternal :=
  let base_probabilities := _calculate_base_probabilities ats rec int in
  let signal_summary := apply ats rec int in
  let final_probabilities := _apply_compounding_effects base_probabilities signal_summary in
  {| overall_score := _compute_overall_score ats rec int;
     stage_probabilities := final_probabilities;
     component_contributions := _compute_component_contributions ats rec int;
     signal_compounding_summary := signal_summary |}.

(** *** The rule of the specification for one stage

    What the specification says a signal does to the probability of a
    stage: the effect is added when the signal names the stage, and the
    sum is clamped to [0,1]. *)
Definition clamp01 (x : Q) : Q := py_max 0 (py_min 1 x).

Definition spec_apply_signal (stage : string) (p : Q) (s : SignalImpact) : Q :=
  match effect_of s with
  | Some e => if names stage s then clamp01 (p + e) else p
  | None => p
  end.

Definition spec_compound (stage : string) (p : Q) (summary : SignalCompoundingSummary) : Q :=
  fold_left (spec_apply_signal stage)
    (positive_signals summary ++ negative_signals summary) p.

(** *** Predicates of the properties *)

Definition in_unit (x : Q) : Prop := 0 <= x <= 1.

Definition probabilities_in_unit (p : StageProbabilities) : Prop :=
  in_unit (ats_pass p) /\ in_unit (recruiter_pass p)
  /\ in_unit (interview_pass p) /\ in_unit (offer p).

Definition funnel (p : StageProbabilities) : Prop :=
  offer p <= interview_pass p
  /\ interview_pass p <= recruiter_pass p
  /\ recruiter_pass p <= ats_pass p.

(** A signal whose effect, when it has one, is a boost (a penalty). *)
Definition boosts (s : SignalImpact) : Prop :=
  forall e, effect_of s = Some e -> 0 <= e.
Definition penalises (s : SignalImpact) : Prop :=
  forall e, effect_of s = Some e -> e <= 0.

(** The probability of a stage, by the name signals use for it. *)
Definition stage_probability (stage : string) (p : StageProbabilities) : Q :=
  if String.eqb stage "ats" then ats_pass p
  else if String.eqb stage "recruiter" then recruiter_pass p
  else if String.eqb stage "interview" then interview_pass p
  else offer p.

(** The reading of the specification under which every named stage,
    "ats" included, receives the effect of a signal. *)
Definition every_named_stage_adjusted (ats : ATS.ATSResultInternal)
    (rec : Recruiter.RecruiterResultInternal)
    (int : Interview.InterviewReadinessResultInternal) : Prop :=
  let base := _calculate_base_probabilities ats rec int in
  let summary := apply ats rec int in
  forall stage, In stage ["ats"; "recruiter"; "interview"; "offer"]%string ->
    stage_probability stage (compound_signals base summary)
    == spec_compound stage (stage_probability stage base) summary.

(** The running values of the three later stages next to the values the
    rule of the specification gives. *)
Definition tracks (p : StageProbabilities) (r i o : Q) : Prop :=
  probabilities_in_unit p
  /\ recruiter_pass p == r /\ interview_pass p == i /\ offer p == o.

(** A summary without signals. *)
Definition no_signals : SignalCompoundingSummary :=
  {| positive_signals := []; negative_signals := [] |}.

(** A signal whose effect is set, passes the test [if signal.compound_effect]
    and is a boost (a penalty). *)
Definition strict_boost (s : SignalImpact) : Prop :=
  exists e, compound_effect s = Some e /\ effect_of s = Some e /\ 0 < e.
Definition strict_penalty (s : SignalImpact) : Prop :=
  exists e, compound_effect s = Some e /\ effect_of s = Some e /\ e < 0.



End Scoring.

(** ** Recommendation ranking (src/services/explainability) *)

Module Recommendations.
Local Open Scope Q_scope.

Record Recommendation : Type := {
  priority : pystr;
  category : pystr;
  action : pystr;
  impact : pystr;
  reasoning : pystr;
  stage_affected : pystr;
  impact_score_delta : option Q;
  impact_probability_delta : option Q;
  referenced_risk : option pystr;
  referenced_signal : option pystr
}.

Definition priority_order : gmap pystr Z :=
  {[ str_of "critical" := 0%Z; str_of "high" := 1%Z;
     str_of "medium" := 2%Z; str_of "low" := 3%Z ]}.

(** [sort_key]: the rank of the priority and the negated size of the
    score delta. *)
Definition priority_score (rec : Recommendation) : Z :=
  default 3%Z (priority_order !! priority rec).
Definition impact_score (rec : Recommendation) : Q :=
  match impact_score_delta rec with
  | Some d => if Qeqb d 0 then 0 else py_abs d
  | None => 0
  end.
Definition sort_key (rec : Recommendation) : Z * Q :=
  (priority_score rec, - impact_score rec).

(** Comparison of two keys, as Python compares tuples. *)
Definition key_lt (a b : Z * Q) : bool :=
  (fst a <? fst b)%Z || ((fst a =? fst b)%Z && Qltb (snd a) (snd b)).
Definition key_eq (a b : Z * Q) : bool :=
  (fst a =? fst b)%Z && Qeqb (snd a) (snd b).

(** [sorted(l, key=key)]: a stable sort.  Every stable sort gives the
    same list; it is written here as an insertion sort that puts an
    element in front of the first one whose key is not smaller. *)
Section Sorted.
Context {A : Type} (key : A -> Z * Q).

Fixpoint insert (x : A) (l : list A) : list A :=
  match l with
  | [] => [x]
  | y :: l' =>
      if key_lt (key y) (key x) then y :: insert x l' else x :: y :: l'
  end.

Fixpoint sorted (l : list A) : list A :=
  match l with
  | [] => []
  | x :: l' => insert x (sorted l')
  end.

(** [x] is not after [y] in the order of the keys. *)
Definition key_le (x y : A) : Prop := key_lt (key y) (key x) = false.
End Sorted.

Definition _rank_recommendations (recommendations : list Recommendation)
    : list Recommendation :=
  sorted sort_key recommendations.

(** The order of the ranking: [a] may stand before [b]. *)
Definition ranks_before (a b : Recommendation) : Prop :=
  (priority_score a < priority_score b)%Z
  \/ (priority_score a = priority_score b /\ impact_score b <= impact_score a).

(** Same priority rank and same size of the score delta. *)
Definition same_rank (a b : Recommendation) : bool :=
  key_eq (sort_key a) (sort_key b).

(** *** The order of the ranking in the words of the specification

    The priorities in the order critical, high, medium, low; a priority
    outside these four ranks with low.  Within a priority the larger
    absolute score delta comes first, a missing delta counting as 0. *)
Definition priority_rank (p : pystr) : Z :=
  if str_eqb p (str_of "critical") then 0%Z
  else if str_eqb p (str_of "high") then 1%Z
  else if str_eqb p (str_of "medium") then 2%Z
  else 3%Z.

Definition absolute_delta (rec : Recommendation) : Q :=
  match impact_score_delta rec with
  | Some d => Qabs d
  | None => 0
  end.

Definition ranked_before (a b : Recommendation) : Prop :=
  (priority_rank (priority a) < priority_rank (priority b))%Z
  \/ (priority_rank (priority a) = priority_rank (priority b)
      /\ absolute_delta b <= absolute_delta a).

(** The recommendations of one priority rank and one absolute score
    delta. *)
Definition same_class (rank : Z) (delta : Q) (rec : Recommendation) : bool :=
  (priority_rank (priority rec) =? rank)%Z && Qeqb (absolute_delta rec) delta.

End Recommendations.

(** ** The orchestrator (src/core) *)

Module Orchestrator.
Local Open Scope Q_scope.

Section Run.
(** The inputs and intermediate results the context carries. *)
Variable Data : Type.

Record AnalysisContext : Type := {
  analysis_id : pystr;
  data : Data;
  start_time : option Q;
  stage_timings : gmap string Q;
  stage_statuses : gmap string string
}.

(** How a call of a stage method ends: it returns, or an [Exception]
    leaves it.  Either way the context is as the method left it. *)
Inductive ending : Type := Returns | RaisesException.
Definition stage_method : Type := AnalysisContext -> AnalysisContext * ending.

(** The seven methods [_run_*] of the orchestrator. *)
Record StageMethods : Type := {
  _run_parsing : stage_method;
  _run_feature_extraction : stage_method;
  _run_ats_simulation : stage_method;
  _run_recruiter_evaluation : stage_method;
  _run_interview_readiness : stage_method;
  _run_scoring : stage_method;
  _run_explainability : stage_method
}.

(** In the source every one of them raises [NotImplementedError]. *)
Definition not_implemented : stage_method := fun ctx => (ctx, RaisesException).
Definition source_methods : StageMethods :=
  {| _run_parsing := not_implemented;
     _run_feature_extraction := not_implemented;
     _run_ats_simulation := not_implemented;
     _run_recruiter_evaluation := not_implemented;
     _run_interview_readiness := not_implemented;
     _run_scoring := not_implemented;
     _run_explainability := not_implemented |}.

Definition stages (self : StageMethods) : list (string * stage_method) :=
  [ ("parsing", _run_parsing self);
    ("feature_extraction", _run_feature_extraction self);
    ("ats_simulation", _run_ats_simulation self);
    ("recruiter_evaluation", _run_recruiter_evaluation self);
    ("interview_readiness", _run_interview_readiness self);
    ("scoring", _run_scoring self);
    ("explainability", _run_explainability self) ]%string.

Definition stage_names : list string :=
  [ "parsing"; "feature_extraction"; "ats_simulation"; "recruiter_evaluation";
    "interview_readiness"; "scoring"; "explainability" ]%string.

Definition set_status (name status : string) (ctx : AnalysisContext) : AnalysisContext :=
  {| analysis_id := analysis_id ctx; data := data ctx; start_time := start_time ctx;
     stage_timings := stage_timings ctx;
     stage_statuses := <[name := status]> (stage_statuses ctx) |}.
Definition set_timing (name : string) (t : Q) (ctx : AnalysisContext) : AnalysisContext :=
  {| analysis_id := analysis_id ctx; data := data ctx; start_time := start_time ctx;
     stage_timings := <[name := t]> (stage_timings ctx);
     stage_statuses := stage_statuses ctx |}.
Definition set_start_time (t : Q) (ctx : AnalysisContext) : AnalysisContext :=
  {| analysis_id := analysis_id ctx; data := data ctx; start_time := Some t;
     stage_timings := stage_timings ctx; stage_statuses := stage_statuses ctx |}.

(** The clock: [time.time()] returns [clock n] at its [n]-th call. *)
Variable clock : nat -> Q.

(** One round of the loop, on the number of clock readings so far and
    the context. *)
Definition run_stage (st : nat * AnalysisContext) (stage : string * stage_method)
    : nat * AnalysisContext :=
  let '(tick, context) := st in
  let '(stage_name, method) := stage in
  let stage_start := clock tick in
  let context := set_status stage_name "running" context in
  let context :=
    match method context with
    | (context, Returns) => set_status stage_name "success" context
    | (context, RaisesException) => set_status stage_name "failed" context
    end in
  let stage_end := clock (S tick) in
  (S (S tick), set_timing stage_name (stage_end - stage_start) context).

Definition run_stages (l : list (string * stage_method)) (st : nat * AnalysisContext)
    : nat * AnalysisContext :=
  fold_left run_stage l st.

(** [if context.start_time is None: context.start_time = datetime.utcnow()] *)
Definition ensure_start_time (utcnow : Q) (context : AnalysisContext) : AnalysisContext :=
  match start_time context with
  | None => set_start_time utcnow context
  | Some _ => context
  end.

(** [run], with the reading [utcnow] of the calendar clock. *)
Definition run (self : StageMethods) (utcnow : Q) (context : AnalysisContext)
    : AnalysisContext :=
  let context := ensure_start_time utcnow context in
  snd (run_stages (stages self) (O, context)).

(** A stage method that leaves the two bookkeeping maps of the context
    to the orchestrator. *)
Definition keeps_bookkeeping (m : stage_method) : Prop :=
  forall ctx,
    stage_statuses (fst (m ctx)) = stage_statuses ctx
    /\ stage_timings (fst (m ctx)) = stage_timings ctx.

(** The status the orchestrator records for an ending. *)
Definition status_of (e : ending) : string :=
  match e with Returns => "success" | RaisesException => "failed" end.

End Run.

Arguments analysis_id {Data}.
Arguments data {Data}.
Arguments start_time {Data}.
Arguments stage_timings {Data}.
Arguments stage_statuses {Data}.
Arguments stages {Data}.
Arguments source_methods {Data}.
Arguments run_stage {Data}.
Arguments run_stages {Data}.
Arguments run {Data}.
Arguments keeps_bookkeeping {Data}.
Arguments set_status {Data}.
Arguments set_timing {Data}.
Arguments ensure_start_time {Data}.
Arguments not_implemented {Data}.
Arguments stage_method : clear implicits.

End Orchestrator.

(** ** Recruiter evaluation (src/services/recruiter/recruiter_evaluator.py) *)

Module RecruiterEvaluator.
Import Features Recruiter.
Local Open Scope Q_scope.

Record EmploymentGap : Type := {
  start_date : pystr;
  end_date : pystr;
  duration_months : Q
}.

Record CareerProgressionAnalysis : Type := {
  trajectory : pystr;
  promotions_count : option Z;
  responsibility_increase : option bool;
  title_progression : list pyval
}.

Record JobStabilityAnalysis : Type := {
  average_tenure_months : Q;
  short_tenure_jobs_count : Z;
  employment_gaps : list EmploymentGap
}.

(** The result object of [evaluate]: the fields later stages read, and the
    two analysis records. *)
Record Evaluation : Type := {
  result : RecruiterResultInternal;
  career_progression_analysis : option CareerProgressionAnalysis;
  job_stability_analysis : option JobStabilityAnalysis
}.

(** The exceptions the evaluator can end in on values of type [Any]. *)
Inductive error : Type := TypeError | AttributeError.
Inductive outcome (A : Type) : Type :=
| Ok (a : A)
| Raise (e : error).
Arguments Ok {A} a.
Arguments Raise {A} e.

Definition bind {A B : Type} (m : outcome A) (f : A -> outcome B) : outcome B :=
  match m with
  | Ok a => f a
  | Raise e => Raise e
  end.
Notation "'let*' x ':=' m 'in' k" := (bind m (fun x => k))
  (at level 10, x name, m at level 100, k at level 200).

(** [f"{x:.1f}"]: one decimal, the last digit rounded half to even. *)
Definition format_1f (x : Q) : pystr :=
  let n := round_half_even (Qabs x * 10) in
  (if Qltb x 0 then str_of "-" else [])
  ++ str_of_nat (Z.to_nat (n / 10)) ++ str_of "." ++ str_of_nat (Z.to_nat (n mod 10)).

(** [job.get("title") or job.get("position") or ""] *)
Definition title_of (job : gmap string pyval) : pyval :=
  if truthy (get job "title") then get job "title"
  else if truthy (get job "position") then get job "position"
  else VStr [].

(** [hash(v)] succeeds: lists and dictionaries are not hashable. *)
Definition hashable (v : pyval) : bool :=
  match v with
  | VList _ | VDict _ => false
  | VNone | VBool _ | VNum _ | VStr _ => true
  end.

(** [a == b] on hashable values; [True] equals [1]. *)
Definition as_number (v : pyval) : option Q :=
  match v with
  | VBool b => Some (if b then 1 else 0)
  | VNum q => Some q
  | _ => None
  end.
Definition py_eq (a b : pyval) : bool :=
  match a, b with
  | VNone, VNone => true
  | VStr s, VStr t => str_eqb s t
  | _, _ =>
      match as_number a, as_number b with
      | Some p, Some q => Qeqb p q
      | _, _ => false
      end
  end.

(** The elements of [set(l)]: one of each class of equal values. *)
Fixpoint distinct (l : list pyval) : list pyval :=
  match l with
  | [] => []
  | v :: r => if existsb (py_eq v) r then distinct r else v :: distinct r
  end.

(** [len(set(l))] *)
Definition len_set (l : list pyval) : outcome nat :=
  if forallb hashable l then Ok (length (distinct l)) else Raise TypeError.

Definition insufficient_data : CareerProgressionAnalysis :=
  {| trajectory := str_of "insufficient_data"; promotions_count := None;
     responsibility_increase := None; title_progression := [] |}.

Definition _analyze_career_progression (r : ParsedResumeInternal)
    : outcome CareerProgressionAnalysis :=
  let work_experience := work_experience r in
  if negb (nonempty work_experience) || (length work_experience <? 2)%nat
  then Ok insufficient_data
  else
    let titles := List.filter truthy (map title_of work_experience) in
    let promotions :=
      if (2 <=? length titles)%nat then (zlen titles - 1)%Z else 0%Z in
    let promotions_count := if (0 <? promotions)%Z then Some promotions else None in
    let* trajectory :=
      (if (2 <=? length titles)%nat
       then
         let* unique_titles := len_set titles in
         if (unique_titles =? length titles)%nat then Ok (str_of "upward")
         else if (unique_titles =? 1)%nat then Ok (str_of "lateral")
         else Ok (str_of "mixed")
       else Ok (str_of "insufficient_data")) in
    Ok {| trajectory := trajectory;
          promotions_count := promotions_count;
          responsibility_increase := Some (1 <? length work_experience)%nat;
          title_progression := titles |}.

Definition _compute_career_progression_score (analysis : CareerProgressionAnalysis) : Q :=
  if str_eqb (trajectory analysis) (str_of "insufficient_data") then 5 # 10
  else
    let score := 5 # 10 in
    let score :=
      if str_eqb (trajectory analysis) (str_of "upward") then score + (3 # 10)
      else if str_eqb (trajectory analysis) (str_of "mixed") then score + (1 # 10)
      else if str_eqb (trajectory analysis) (str_of "lateral") then score + 0
      else if str_eqb (trajectory analysis) (str_of "downward") then score - (2 # 10)
      else score in
    let score :=
      match promotions_count analysis with
      | Some n =>
          if negb (n =? 0)%Z && (0 <? n)%Z
          then score + py_min (2 # 10) (inject_Z n * (5 # 100))
          else score
      | None => score
      end in
    let score :=
      match responsibility_increase analysis with
      | Some true => score + (1 # 10)
      | _ => score
      end in
    py_max 0 (py_min 1 score).

Definition _analyze_job_stability (r : ParsedResumeInternal) : JobStabilityAnalysis :=
  let work_experience := work_experience r in
  if negb (nonempty work_experience)
  then {| average_tenure_months := 0; short_tenure_jobs_count := 0%Z;
          employment_gaps := [] |}
  else
    let total_jobs := length work_experience in
    {| average_tenure_months := if (0 <? total_jobs)%nat then 24 else 0;
       short_tenure_jobs_count := 0%Z;
       employment_gaps := [] |}.

(** The score, and the red flags appended to the result. *)
Definition _compute_job_stability_score (analysis : JobStabilityAnalysis)
    : Q * list RecruiterRedFlag :=
  let score := 1 in
  let '(score, flags) :=
    if Qltb (average_tenure_months analysis) 12
    then
      let penalty := (12 - average_tenure_months analysis) / 12 in
      (score - py_min (4 # 10) (penalty * (4 # 10)),
       [ {| flag_type := str_of "job_hopping";
            severity := if Qltb (average_tenure_months analysis) 6
                        then str_of "high" else str_of "medium";
            description := str_of "Average job tenure is "
                             ++ format_1f (average_tenure_months analysis)
                             ++ str_of " months, indicating potential job hopping pattern.";
            evidence := Some (str_of "Average tenure: "
                                ++ format_1f (average_tenure_months analysis)
                                ++ str_of " months") |} ])
    else (score, []) in
  let '(score, flags) :=
    if (0 <? short_tenure_jobs_count analysis)%Z
    then
      (score - py_min (3 # 10) (inject_Z (short_tenure_jobs_count analysis) * (1 # 10)),
       flags ++
       [ {| flag_type := str_of "job_hopping";
            severity := if (short_tenure_jobs_count analysis =? 1)%Z
                        then str_of "medium" else str_of "high";
            description := ATS.str_of_int (short_tenure_jobs_count analysis)
                             ++ str_of " job(s) with tenure less than 12 months.";
            evidence := Some (str_of "Short tenure jobs: "
                                ++ ATS.str_of_int (short_tenure_jobs_count analysis)) |} ])
    else (score, flags) in
  let '(score, flags) :=
    if nonempty (employment_gaps analysis)
    then
      let total_gap_months :=
        fold_left (fun acc gap => acc + duration_months gap) (employment_gaps analysis) 0 in
      if Qltb 6 total_gap_months
      then
        (score - py_min (3 # 10) ((total_gap_months - 6) / 12),
         flags ++
         [ {| flag_type := str_of "employment_gap";
              severity := if Qltb 12 total_gap_months
                          then str_of "high" else str_of "medium";
              description := str_of "Employment gap(s) totaling "
                               ++ format_1f total_gap_months
                               ++ str_of " months detected.";
              evidence := Some (str_of "Total gap duration: "
                                  ++ format_1f total_gap_months
                                  ++ str_of " months") |} ])
      else (score, flags)
    else (score, flags) in
  (py_max 0 (py_min 1 score), flags).

(** [len(v)] *)
Definition py_len (v : pyval) : outcome Z :=
  match v with
  | VList l => Ok (zlen l)
  | VStr s => Ok (zlen s)
  | VDict items => Ok (zlen items)
  | VNone | VBool _ | VNum _ => Raise TypeError
  end.

(** [s.isdigit()] on a string: it is not empty and all its characters are
    digits. *)
Definition str_isdigit (s : pystr) : bool := nonempty s && forallb isdigit s.

(** [any(char.isdigit() for char in desc)] *)
Fixpoint any_isdigit_items (l : list pyval) : outcome bool :=
  match l with
  | [] => Ok false
  | VStr s :: rest => if str_isdigit s then Ok true else any_isdigit_items rest
  | _ :: _ => Raise AttributeError
  end.
Definition any_isdigit (desc : pyval) : outcome bool :=
  match desc with
  | VStr s => Ok (existsb isdigit s)
  | VList l => any_isdigit_items l
  | VDict items => Ok (existsb str_isdigit (map fst items))
  | VNone | VBool _ | VNum _ => Raise TypeError
  end.

(** One round of the loop over the jobs, on [achievements_count]. *)
Definition count_job (achievements_count : Z) (job : gmap string pyval) : outcome Z :=
  let* achievements_count :=
    match job !! "achievements" with
    | Some _ =>
        let* n := py_len (get_or job "achievements" (VList [])) in
        Ok (achievements_count + n)%Z
    | None => Ok achievements_count
    end in
  match job !! "description" with
  | Some _ =>
      if truthy (get job "description")
      then
        let desc := get job "description" in
        let* found := any_isdigit desc in
        if found then Ok (achievements_count + 1)%Z else Ok achievements_count
      else Ok achievements_count
  | None => Ok achievements_count
  end.

Fixpoint count_achievements (jobs : list (gmap string pyval)) (achievements_count : Z)
    : outcome Z :=
  match jobs with
  | [] => Ok achievements_count
  | job :: rest =>
      let* achievements_count := count_job achievements_count job in
      count_achievements rest achievements_count
  end.

Definition length_flags (resume_length : Z) : list RecruiterRedFlag :=
  if (resume_length <? 200)%Z
  then [ {| flag_type := str_of "generic_resume";
            severity := str_of "medium";
            description := str_of "Resume is very short, may lack detail or appear generic.";
            evidence := Some (str_of "Resume length: " ++ ATS.str_of_int resume_length
                                ++ str_of " words") |} ]
  else if (1500 <? resume_length)%Z
  then [ {| flag_type := str_of "formatting_issues";
            severity := str_of "low";
            description := str_of "Resume is very long, may be difficult to scan quickly.";
            evidence := Some (str_of "Resume length: " ++ ATS.str_of_int resume_length
                                ++ str_of " words") |} ]
  else [].

Definition no_achievements_flag : RecruiterRedFlag :=
  {| flag_type := str_of "generic_resume";
     severity := str_of "medium";
     description := str_of "Resume lacks quantifiable achievements or metrics.";
     evidence := Some (str_of "No achievements with metrics detected") |}.

(** The red flags [_check_resume_quality] appends to the result. *)
Definition _check_resume_quality (r : ParsedResumeInternal) (fv : FeatureVectorInternal)
    : outcome (list RecruiterRedFlag) :=
  let resume_length :=
    match resume_length_words (quantitative fv) with
    | Some n => if (n =? 0)%Z then 0%Z else n
    | None => 0%Z
    end in
  let flags := length_flags resume_length in
  let* achievements_count := count_achievements (work_experience r) 0%Z in
  if (achievements_count =? 0)%Z
  then Ok (flags ++ [no_achievements_flag])
  else Ok flags.

(** One round of the loop over the red flags, on the running score. *)
Definition deduct_flag (score : Q) (red_flag : RecruiterRedFlag) : Q :=
  if str_eqb (severity red_flag) (str_of "critical") then score - 20
  else if str_eqb (severity red_flag) (str_of "high") then score - 10
  else if str_eqb (severity red_flag) (str_of "medium") then score - 5
  else if str_eqb (severity red_flag) (str_of "low") then score - 2
  else score.

Definition _compute_evaluation_score (career_progression_score job_stability_score : Q)
    (red_flags : list RecruiterRedFlag) : Q :=
  let score := 100 in
  let score :=
    if Qltb career_progression_score (5 # 10)
    then score - ((5 # 10) - career_progression_score) * 30 else score in
  let score :=
    if Qltb job_stability_score (5 # 10)
    then score - ((5 # 10) - job_stability_score) * 40 else score in
  let score := fold_left deduct_flag red_flags score in
  py_max 0 (py_min 100 (round2 score)).

Definition evaluate (r : ParsedResumeInternal) (fv : FeatureVectorInternal)
    (recruiter_persona : pystr) : outcome Evaluation :=
  let* career_analysis := _analyze_career_progression r in
  let career_score := _compute_career_progression_score career_analysis in
  let stability_analysis := _analyze_job_stability r in
  let '(stability_score, red_flags) := _compute_job_stability_score stability_analysis in
  let* quality_flags := _check_resume_quality r fv in
  let red_flags := red_flags ++ quality_flags in
  Ok {| result :=
          {| evaluation_score :=
               _compute_evaluation_score career_score stability_score red_flags;
             career_progression_score := career_score;
             job_stability_score := stability_score;
             red_flags := red_flags;
             Recruiter.recruiter_persona := Some recruiter_persona |};
        career_progression_analysis := Some career_analysis;
        job_stability_analysis := Some stability_analysis |}.

(** *** Predicates of the properties *)

(** The points a red flag takes off the evaluation score. *)
Definition flag_points (red_flag : RecruiterRedFlag) : Z :=
  if str_eqb (severity red_flag) (str_of "critical") then 20%Z
  else if str_eqb (severity red_flag) (str_of "high") then 10%Z
  else if str_eqb (severity red_flag) (str_of "medium") then 5%Z
  else if str_eqb (severity red_flag) (str_of "low") then 2%Z
  else 0%Z.

Definition total_flag_points (red_flags : list RecruiterRedFlag) : Z :=
  fold_right (fun f n => flag_points f + n)%Z 0%Z red_flags.


(** The flag of an empty work history. *)
Definition no_tenure_flag : RecruiterRedFlag :=
  {| flag_type := str_of "job_hopping";
     severity := str_of "high";
     description :=
       str_of "Average job tenure is 0.0 months, indicating potential job hopping pattern.";
     evidence := Some (str_of "Average tenure: 0.0 months") |}.

End RecruiterEvaluator.

(** ** Ranked risk factors (src/services/scoring/score_aggregator.py) *)

Module RiskFactors.
Import Scoring.
Local Open Scope Q_scope.

Record RiskFactor : Type := {
  factor : pystr;
  stage : pystr;
  impact_on_overall_probability : Q;
  severity : pystr;
  description : pystr
}.

(** [severity_to_impact.get(severity, dflt)] for the red flags of the
    recruiter and for the consistency risks of the interview. *)
Definition recruiter_impact (severity : pystr) : Q :=
  if str_eqb severity (str_of "critical") then - (25 # 100)
  else if str_eqb severity (str_of "high") then - (15 # 100)
  else if str_eqb severity (str_of "medium") then - (8 # 100)
  else if str_eqb severity (str_of "low") then - (3 # 100)
  else - (5 # 100).
Definition interview_impact (severity : pystr) : Q :=
  if str_eqb severity (str_of "critical") then - (30 # 100)
  else if str_eqb severity (str_of "high") then - (20 # 100)
  else if str_eqb severity (str_of "medium") then - (10 # 100)
  else if str_eqb severity (str_of "low") then - (5 # 100)
  else - (10 # 100).

Definition ats_risk_factors (ats : ATS.ATSResultInternal) : list RiskFactor :=
  if Qltb (ATS.compatibility_score ats) 50
  then [ {| factor := str_of "Low ATS compatibility score";
            stage := str_of "ats";
            impact_on_overall_probability :=
              (50 - ATS.compatibility_score ats) / 100 * - (3 # 10);
            severity := if Qltb (ATS.compatibility_score ats) 40
                        then str_of "high" else str_of "medium";
            description := str_of "ATS compatibility score is "
                             ++ RecruiterEvaluator.format_1f (ATS.compatibility_score ats)
                             ++ str_of "/100" |} ]
  else [].

Definition recruiter_risk_factor (red_flag : Recruiter.RecruiterRedFlag) : RiskFactor :=
  {| factor := Recruiter.flag_type red_flag;
     stage := str_of "recruiter";
     impact_on_overall_probability := recruiter_impact (Recruiter.severity red_flag);
     severity := Recruiter.severity red_flag;
     description := Recruiter.description red_flag |}.

Definition interview_risk_factor (risk : Interview.ConsistencyRisk) : RiskFactor :=
  {| factor := Interview.risk_type risk;
     stage := str_of "interview";
     impact_on_overall_probability := interview_impact (Interview.severity risk);
     severity := Interview.severity risk;
     description := Interview.description risk |}.

Definition signal_risk_factors (signal : SignalImpact) : list RiskFactor :=
  match effect_of signal with
  | Some compound_effect =>
      let impact := compound_effect * (8 # 10) in
      [ {| factor := Scoring.signal signal;
           stage := join (str_of ",") (stages_affected signal);
           impact_on_overall_probability := impact;
           severity := if Qltb (15 # 100) (py_abs impact)
                       then str_of "high" else str_of "medium";
           description := str_of "Signal compounding effect: " ++ Scoring.signal signal |} ]
  | None => []
  end.

(** The risk factors in the order in which they are collected. *)
Definition collected_risk_factors (ats : ATS.ATSResultInternal)
    (rec : Recruiter.RecruiterResultInternal)
    (int : Interview.InterviewReadinessResultInternal)
    (signal_summary : SignalCompoundingSummary) : list RiskFactor :=
  ats_risk_factors ats
  ++ map recruiter_risk_factor (Recruiter.red_flags rec)
  ++ map interview_risk_factor (Interview.consistency_risks int)
  ++ flat_map signal_risk_factors (negative_signals signal_summary).

(** [risk_factors.sort(key=lambda x: x.impact_on_overall_probability)]: a
    stable sort on the impact alone. *)
Definition impact_key (x : RiskFactor) : Z * Q := (0%Z, impact_on_overall_probability x).

Definition _rank_risk_factors (ats : ATS.ATSResultInternal)
    (rec : Recruiter.RecruiterResultInternal)
    (int : Interview.InterviewReadinessResultInternal)
    (signal_summary : SignalCompoundingSummary) : list RiskFactor :=
  Recommendations.sorted impact_key (collected_risk_factors ats rec int signal_summary).

(** The aggregated score with its ranked risk factors, as [aggregate]
    fills it. *)
Record AggregatedScore : Type := {
  score : AggregatedScoreInternal;
  risk_factors : list RiskFactor
}.

Definition aggregate (ats : ATS.ATSResultInternal)
    (rec : Recruiter.RecruiterResultInternal)
    (int : Interview.InterviewReadinessResultInternal) : AggregatedScore :=
  {| score := Scoring.aggregate ats rec int;
     risk_factors := _rank_risk_factors ats rec int (Scoring.apply ats rec int) |}.

(** [a] does not reduce the probability less than [b]. *)
Definition at_least_as_severe (a b : RiskFactor) : Prop :=
  impact_on_overall_probability a <= impact_on_overall_probability b.

End RiskFactors.

(** ** Recommendation generation
    (src/services/explainability/recommendation_engine.py) *)

Module RecommendationEngine.
Import Recommendations RiskFactors.
Local Open Scope Q_scope.

(** [Recommendation(...)] as the engine calls it: both deltas and the
    referenced risk are given, the referenced signal is not. *)
Definition recommend (priority category action impact reasoning stage_affected : pystr)
    (impact_score_delta impact_probability_delta : Q) (referenced_risk : pystr)
    : Recommendation :=
  {| priority := priority; category := category; action := action; impact := impact;
     reasoning := reasoning; stage_affected := stage_affected;
     impact_score_delta := Some impact_score_delta;
     impact_probability_delta := Some impact_probability_delta;
     referenced_risk := Some referenced_risk;
     referenced_signal := None |}.

(** [s.split(sep)] for a separator of one character. *)
Fixpoint split_char_aux (sep : char) (cur : pystr) (s : pystr) : list pystr :=
  match s with
  | [] => [rev cur]
  | c :: r =>
      if char_eqb c sep then rev cur :: split_char_aux sep [] r
      else split_char_aux sep (c :: cur) r
  end.
Definition split_char (sep : char) (s : pystr) : list pystr := split_char_aux sep [] s.

Definition colon : char := 58%N.
Definition comma : char := 44%N.

(** [f"{x:.1%}"] *)
Definition format_1pct (x : Q) : pystr :=
  RecruiterEvaluator.format_1f (x * 100) ++ str_of "%".

Definition keyword_recommendation (ats : ATS.ATSResultInternal) : Recommendation :=
  let percentage := ATS.keyword_match_percentage ats in
  let missing_keywords := firstn 5 (ATS.missing_keywords (ATS.keyword_breakdown ats)) in
  recommend
    (if Qltb percentage 40 then str_of "high" else str_of "medium")
    (str_of "keyword_optimization")
    (str_of "Incorporate missing keywords naturally: "
       ++ join (str_of ", ") missing_keywords)
    (str_of "Keyword match is " ++ RecruiterEvaluator.format_1f percentage
       ++ str_of "%. Increasing to 70%+ would significantly improve ATS compatibility.")
    (str_of "ATS systems rank candidates by keyword match. Missing "
       ++ str_of_nat (length (ATS.missing_keywords (ATS.keyword_breakdown ats)))
       ++ str_of " required keywords reduces visibility.")
    (str_of "ats")
    (py_min 20 ((70 - percentage) * (5 # 10)))
    (py_min (20 # 100) ((70 - percentage) / 100))
    (str_of "Low keyword match: " ++ RecruiterEvaluator.format_1f percentage ++ str_of "%").

Definition _generate_ats_recommendations (ats : ATS.ATSResultInternal)
    : list Recommendation :=
  let status := ATS.required_fields_status ats in
  (if negb (ATS.rf_email status)
   then [ recommend (str_of "high") (str_of "formatting")
            (str_of "Add email address to resume header")
            (str_of "ATS systems require email for contact. Missing email will cause immediate rejection.")
            (str_of "ATS requires email field for candidate contact and tracking.")
            (str_of "ats") 25 (25 # 100)
            (str_of "Missing required field: email") ]
   else [])
  ++ (if negb (ATS.rf_phone status)
      then [ recommend (str_of "high") (str_of "formatting")
               (str_of "Add phone number to resume header")
               (str_of "ATS systems require phone for contact. Missing phone will cause immediate rejection.")
               (str_of "ATS requires phone field for candidate contact and tracking.")
               (str_of "ats") 25 (25 # 100)
               (str_of "Missing required field: phone") ]
      else [])
  ++ (if negb (ATS.rf_work_history status)
      then [ recommend (str_of "critical") (str_of "content_improvement")
               (str_of "Add work experience section with at least one job entry")
               (str_of "ATS requires work history. Missing work history will cause immediate rejection.")
               (str_of "ATS systems filter out resumes without work experience.")
               (str_of "ats") 30 (30 # 100)
               (str_of "Missing required field: work history") ]
      else [])
  ++ (if Qltb (ATS.keyword_match_percentage ats) 60
      then [keyword_recommendation ats]
      else [])
  ++ match ATS.hard_filters ats with
     | Some hard_filters =>
         (match ATS.experience_met hard_filters with
          | Some false =>
              [ recommend (str_of "high") (str_of "content_improvement")
                  (str_of "Highlight required skills more prominently in work experience descriptions")
                  (str_of "Hard filter failure for required skills causes immediate ATS rejection.")
                  (str_of "ATS hard filters reject candidates who don't meet minimum skill requirements.")
                  (str_of "ats") 20 (20 # 100)
                  (str_of "Hard filter failed: missing required skills") ]
          | _ => []
          end)
         ++ (match ATS.education_met hard_filters with
             | Some false =>
                 [ recommend (str_of "high") (str_of "content_improvement")
                     (str_of "Ensure education section clearly states required degree level")
                     (str_of "Hard filter failure for required education causes immediate ATS rejection.")
                     (str_of "ATS hard filters reject candidates who don't meet minimum education requirements.")
                     (str_of "ats") 15 (15 # 100)
                     (str_of "Hard filter failed: missing required education") ]
             | _ => []
             end)
     | None => []
     end.

(** The recommendation for one red flag, if its type is a known one. *)
Definition red_flag_recommendation (red_flag : Recruiter.RecruiterRedFlag)
    : list Recommendation :=
  let type := Recruiter.flag_type red_flag in
  let is_high := str_eqb (Recruiter.severity red_flag) (str_of "high") in
  if str_eqb type (str_of "job_hopping")
  then [ recommend (if is_high then str_of "high" else str_of "medium")
           (str_of "gap_explanation")
           (str_of "Add brief explanation for short tenures or job changes in cover letter or resume summary")
           (str_of "Job hopping pattern raises recruiter concerns about stability. Explanation can mitigate concerns.")
           (Recruiter.description red_flag)
           (str_of "recruiter")
           (if is_high then 10 else 5)
           (if is_high then 10 # 100 else 5 # 100)
           type ]
  else if str_eqb type (str_of "employment_gap")
  then [ recommend (str_of "medium") (str_of "gap_explanation")
           (str_of "Add brief explanation for employment gap (e.g., 'Career break for family reasons' or 'Pursuing additional education')")
           (str_of "Unexplained employment gaps raise recruiter concerns. Brief explanation can address concerns.")
           (Recruiter.description red_flag)
           (str_of "recruiter") 8 (8 # 100) type ]
  else if str_eqb type (str_of "generic_resume")
  then [ recommend (str_of "medium") (str_of "achievement_enhancement")
           (str_of "Add specific, quantifiable achievements with metrics (e.g., 'Increased revenue by 25%' or 'Reduced processing time by 40%')")
           (str_of "Generic resume lacks impact. Quantifiable achievements demonstrate value and results.")
           (Recruiter.description red_flag)
           (str_of "recruiter") 12 (12 # 100) type ]
  else if str_eqb type (str_of "formatting_issues")
  then [ recommend (str_of "low") (str_of "formatting")
           (str_of "Condense resume to 1-2 pages by removing less relevant information")
           (str_of "Very long resumes are difficult for recruiters to scan quickly.")
           (Recruiter.description red_flag)
           (str_of "recruiter") 3 (3 # 100) type ]
  else [].

Definition _generate_recruiter_recommendations (rec : Recruiter.RecruiterResultInternal)
    : list Recommendation :=
  flat_map red_flag_recommendation (Recruiter.red_flags rec).

(** The recommendation for one consistency risk, if its type is a known
    one. *)
Definition risk_recommendation (risk : Interview.ConsistencyRisk) : list Recommendation :=
  let type := Interview.risk_type risk in
  let is_high := str_eqb (Interview.severity risk) (str_of "high") in
  if str_eqb type (str_of "vague_claim")
  then [ recommend (if is_high then str_of "high" else str_of "medium")
           (str_of "achievement_enhancement")
           (str_of "Add specific details and metrics to support claim: '"
              ++ match Interview.related_claim risk with
                 | Some (c :: claim) => slice_to 50 (c :: claim)
                 | _ => str_of "claim"
                 end
              ++ str_of "...'")
           (str_of "Vague claims will be probed in interviews. Specific details with metrics make claims defensible.")
           (Interview.description risk)
           (str_of "interview")
           (if is_high then 15 else 8)
           (if is_high then 15 # 100 else 8 # 100)
           type ]
  else if str_eqb type (str_of "overstated_achievement")
  then [ recommend (str_of "high") (str_of "achievement_enhancement")
           (str_of "Add quantifiable metrics to support impact statement (e.g., specific numbers, percentages, timeframes)")
           (str_of "Overstated claims without metrics will be challenged in interviews. Quantifiable evidence supports claims.")
           (Interview.description risk)
           (str_of "interview") 12 (12 # 100) type ]
  else if str_eqb type (str_of "skill_depth_mismatch")
  then [ recommend (str_of "medium") (str_of "skill_addition")
           (str_of "Demonstrate listed skills in work experience descriptions: "
              ++ (if existsb (char_eqb colon) (Interview.description risk)
                  then strip (nth 1 (split_char colon (Interview.description risk)) [])
                  else str_of "listed skills"))
           (str_of "Skills listed but not demonstrated raise interview questions. Show skill usage in context.")
           (Interview.description risk)
           (str_of "interview") 10 (10 # 100) type ]
  else if str_eqb type (str_of "missing_context")
  then [ recommend (str_of "medium") (str_of "content_improvement")
           (str_of "Add context to claims (team size, project scope, business impact, constraints faced)")
           (str_of "Claims without context are difficult to defend in interviews. Context demonstrates understanding.")
           (Interview.description risk)
           (str_of "interview") 8 (8 # 100) type ]
  else [].

Definition _generate_interview_recommendations
    (int : Interview.InterviewReadinessResultInternal) : list Recommendation :=
  flat_map risk_recommendation (Interview.consistency_risks int).

(** [{rec.referenced_risk for rec in existing_recommendations if rec.referenced_risk}] *)
Definition existing_risk_types (existing_recommendations : list Recommendation)
    : list pystr :=
  flat_map (fun rec => match referenced_risk rec with
                       | Some (c :: risk) => [c :: risk]
                       | _ => []
                       end) existing_recommendations.

(** The recommendation for one ranked risk factor, unless it is covered
    already or its impact is small. *)
Definition risk_factor_recommendation (existing : list pystr) (risk_factor : RiskFactor)
    : list Recommendation :=
  let size := py_abs (impact_on_overall_probability risk_factor) in
  if mem (factor risk_factor) existing then []
  else if Qltb size (10 # 100) then []
  else
    [ recommend
        (if mem (RiskFactors.severity risk_factor) [str_of "critical"; str_of "high"]
         then str_of "high" else str_of "medium")
        (str_of "content_improvement")
        (str_of "Address " ++ lower (factor risk_factor)
           ++ str_of " to improve overall hiring probability")
        (str_of "This risk factor reduces overall hiring probability by "
           ++ format_1pct size ++ str_of ".")
        (RiskFactors.description risk_factor)
        (if negb (existsb (char_eqb comma) (stage risk_factor))
         then stage risk_factor else str_of "overall")
        (size * 100)
        size
        (factor risk_factor) ].

Definition _generate_aggregated_recommendations (aggregated_score : AggregatedScore)
    (existing_recommendations : list Recommendation) : list Recommendation :=
  flat_map (risk_factor_recommendation (existing_risk_types existing_recommendations))
    (risk_factors aggregated_score).

Definition generate (ats : ATS.ATSResultInternal)
    (rec : Recruiter.RecruiterResultInternal)
    (int : Interview.InterviewReadinessResultInternal)
    (aggregated_score : AggregatedScore) : list Recommendation :=
  let recommendations := [] in
  let recommendations := recommendations ++ _generate_ats_recommendations ats in
  let recommendations := recommendations ++ _generate_recruiter_recommendations rec in
  let recommendations := recommendations ++ _generate_interview_recommendations int in
  let recommendations :=
    recommendations ++ _generate_aggregated_recommendations aggregated_score recommendations in
  _rank_recommendations recommendations.

(** *** Predicates of the properties *)

(** The four priorities the ranking knows. *)
Definition known_priority (rec : Recommendation) : bool :=
  mem (priority rec) (map str_of ["critical"; "high"; "medium"; "low"]%string).

(** A recommendation with a positive score delta and a positive
    probability delta. *)
Definition improves (rec : Recommendation) : Prop :=
  (exists d, impact_score_delta rec = Some d /\ 0 < d)
  /\ (exists d, impact_probability_delta rec = Some d /\ 0 < d).

(** The risks a list of recommendations refers to. *)
Definition referenced_risks (l : list Recommendation) : list (option pystr) :=
  map referenced_risk l.

(** The red flags and consistency risks whose type the engine knows. *)
Definition known_flag (red_flag : Recruiter.RecruiterRedFlag) : bool :=
  mem (Recruiter.flag_type red_flag)
    (map str_of ["job_hopping"; "employment_gap"; "generic_resume";
                 "formatting_issues"]%string).
Definition known_risk (risk : Interview.ConsistencyRisk) : bool :=
  mem (Interview.risk_type risk)
    (map str_of ["vague_claim"; "overstated_achievement"; "skill_depth_mismatch";
                 "missing_context"]%string).

(** What a recommendation says about its origin, and what a red flag and
    a consistency risk offer for it. *)
Definition reference (rec : Recommendation) : option pystr * pystr * pystr :=
  (referenced_risk rec, reasoning rec, stage_affected rec).
Definition flag_reference (red_flag : Recruiter.RecruiterRedFlag)
    : option pystr * pystr * pystr :=
  (Some (Recruiter.flag_type red_flag), Recruiter.description red_flag, str_of "recruiter").
Definition risk_reference (risk : Interview.ConsistencyRisk)
    : option pystr * pystr * pystr :=
  (Some (Interview.risk_type risk), Interview.description risk, str_of "interview").

(** A string without a colon. *)
Definition colon_free (s : pystr) : bool := negb (existsb (char_eqb colon) s).

(** The action recommended for the skills named in a description. *)
Definition demonstrate (names : pystr) : pystr :=
  str_of "Demonstrate listed skills in work experience descriptions: " ++ strip names.

(** The priority "critical", which only the recommendation for a missing
    work history has. *)
Definition critical (rec : Recommendation) : bool :=
  str_eqb (priority rec) (str_of "critical").
Definition work_history_risk : pystr := str_of "Missing required field: work history".

(** The risk factor of a low ATS score. *)
Definition low_ats_factor : pystr := str_of "Low ATS compatibility score".

(** A recommendation as the ranking expects it: a known priority and
    positive deltas. *)
Definition well_formed (rec : Recommendation) : Prop :=
  known_priority rec = true /\ improves rec.

(** The recommendations of the three stages, before those for the
    aggregated risk factors are added. *)
Definition stage_recommendations (ats : ATS.ATSResultInternal)
    (rec : Recruiter.RecruiterResultInternal)
    (int : Interview.InterviewReadinessResultInternal) : list Recommendation :=
  _generate_ats_recommendations ats ++ _generate_recruiter_recommendations rec
  ++ _generate_interview_recommendations int.

End RecommendationEngine.

(** ** The resume parser (src/services/parsing/resume_parser.py) *)

Module ResumeParser.
Import Regex.
Local Open Scope Q_scope.

Record ParsingWarning : Type := {
  warning_type : pystr;
  field : pystr;
  message : pystr;
  severity : pystr
}.

(** The parsed resume with the two fields the parser alone fills. *)
Record ParsedResume : Type := {
  resume : ParsedResumeInternal;
  confidence_scores : gmap string Q;
  warnings : list ParsingWarning
}.

Fixpoint seqs (l : list re) : re :=
  match l with
  | [] => Eps
  | [r] => r
  | r :: l' => Seq r (seqs l')
  end.

Definition lit (s : string) : re := Lit (str_of s).
Definition liti (s : string) : re := LitI (str_of s).
Definition among (s : string) (c : char) : bool := existsb (N.eqb c) (str_of s).
Definition alnum (c : char) : bool := isupper c || islower c || isdigit c.

(** [\b[A-Za-z0-9._%+-]+@[A-Za-z0-9.-]+\.[A-Z|a-z]{2,}\b] *)
Definition EMAIL_PATTERN : re :=
  let tld := Cls (fun c => isupper c || among "|" c || islower c) in
  seqs [ WordB;
         Plus (Cls (fun c => alnum c || among "._%+-" c));
         lit "@";
         Plus (Cls (fun c => alnum c || among ".-" c));
         lit ".";
         tld; tld; Star tld;
         WordB ].

(** [[-.\s]?], [\d{3}] and [\d{4}] *)
Definition separator : re := Opt (Cls (fun c => among "-." c || isspace c)).
Definition digits3 : re := seqs [digit; digit; digit].
Definition digits4 : re := seqs [digit; digit; digit; digit].

(** [\b\d{3}[-.\s]?\d{3}[-.\s]?\d{4}\b], [\(\d{3}\)\s?\d{3}[-.\s]?\d{4}] and
    [\b\d{10}\b] *)
Definition PHONE_PATTERNS : list re :=
  [ seqs [WordB; digits3; separator; digits3; separator; digits4; WordB];
    seqs [lit "("; digits3; lit ")"; Opt space; digits3; separator; digits4];
    seqs [WordB; digits3; digits3; digits4; WordB] ].

(** The section headers, searched with [re.IGNORECASE]. *)
Definition SECTION_PATTERNS : list (string * re) :=
  let spaces := Plus space in
  [ ("experience",
     seqs [WordB;
           Alts [liti "experience";
                 seqs [liti "work"; spaces; liti "experience"];
                 liti "employment";
                 seqs [liti "work"; spaces; liti "history"];
                 seqs [liti "professional"; spaces; liti "experience"]];
           WordB]);
    ("education",
     seqs [WordB;
           Alts [liti "education"; liti "academic"; liti "qualifications";
                 seqs [liti "degree"; Opt (liti "s")]];
           WordB]);
    ("skills",
     seqs [WordB;
           Alts [seqs [liti "skill"; Opt (liti "s")];
                 seqs [liti "technical"; spaces; liti "skill"; Opt (liti "s")];
                 seqs [liti "competencie"; Opt (liti "s")];
                 liti "expertise"];
           WordB]);
    ("projects",
     seqs [WordB;
           Alts [seqs [liti "project"; Opt (liti "s")];
                 liti "portfolio";
                 seqs [liti "selected"; spaces; liti "project"; Opt (liti "s")]];
           WordB]) ]%string.

(** [pattern.search(text)] followed by [match.group(0)]: the text of the
    leftmost match. *)
Fixpoint find_from (r : re) (prev : option char) (s : pystr) : option pystr :=
  match match_here r prev s with
  | Some st => Some (firstn (length s - length (ms_rest st)) s)
  | None =>
      match s with
      | [] => None
      | c :: t => find_from r (Some c) t
      end
  end.
Definition find (r : re) (s : pystr) : option pystr := find_from r None s.

Definition _extract_email (text : pystr) : option pystr := find EMAIL_PATTERN text.

Fixpoint first_found (patterns : list re) (text : pystr) : option pystr :=
  match patterns with
  | [] => None
  | pattern :: rest =>
      match find pattern text with
      | Some m => Some m
      | None => first_found rest text
      end
  end.
Definition _extract_phone (text : pystr) : option pystr := first_found PHONE_PATTERNS text.

Definition _detect_sections (text : pystr) : list string :=
  flat_map (fun '(section_name, pattern) =>
              if search pattern text then [section_name] else [])
    SECTION_PATTERNS.

Definition has_section (name : string) (sections : list string) : bool :=
  existsb (String.eqb name) sections.

Definition _calculate_section_confidence (sections : list string) : Q :=
  if negb (nonempty sections) then 0
  else if has_section "experience" sections && has_section "education" sections
  then 85 # 100
  else if has_section "experience" sections || has_section "education" sections
  then 70 # 100
  else 50 # 100.

Definition missing_email : ParsingWarning :=
  {| warning_type := str_of "missing_field"; field := str_of "email";
     message := str_of "Email address not found in resume";
     severity := str_of "high" |}.
Definition missing_phone : ParsingWarning :=
  {| warning_type := str_of "missing_field"; field := str_of "phone";
     message := str_of "Phone number not found in resume";
     severity := str_of "medium" |}.
Definition missing_experience : ParsingWarning :=
  {| warning_type := str_of "missing_section"; field := str_of "experience";
     message := str_of "No experience section detected";
     severity := str_of "high" |}.

(** [if email:] on the result of an extraction. *)
Definition found (m : option pystr) : option pystr :=
  match m with
  | Some (c :: s) => Some (c :: s)
  | _ => None
  end.
Definition is_found (m : option pystr) : bool :=
  match m with Some _ => true | None => false end.

Definition parse (text : pystr) : ParsedResume :=
  let email := found (_extract_email text) in
  let phone := found (_extract_phone text) in
  let sections := _detect_sections text in
  let scores : gmap string Q :=
    <["sections" := _calculate_section_confidence sections]>
      (<["phone" := if is_found phone then 90 # 100 else 0]>
         (<["email" := if is_found email then 95 # 100 else 0]> ∅)) in
  {| resume :=
       {| name := None; email := email; phone := phone; location := None;
          work_experience := []; education := []; skills := [] |};
     confidence_scores := scores;
     warnings :=
       (if is_found email then [] else [missing_email])
       ++ (if is_found phone then [] else [missing_phone])
       ++ (if has_section "experience" sections then [] else [missing_experience]) |}.

(** *** Predicates of the properties *)

(** [part] occurs in [text]. *)
Definition occurs_in (part text : pystr) : Prop :=
  exists before after, text = before ++ part ++ after.

End ResumeParser.

(** ** Concrete inputs *)

Module Inputs.
Local Open Scope Q_scope.

(** An ATS result with the given compatibility score. *)
Definition ats_with_score (score : Q) : ATS.ATSResultInternal :=
  ATS.set_compatibility_score score ATS.empty_result.

Definition clean_recruiter : Recruiter.RecruiterResultInternal :=
  {| Recruiter.evaluation_score := 100;
     Recruiter.career_progression_score := 1;
     Recruiter.job_stability_score := 1;
     Recruiter.red_flags := [];
     Recruiter.recruiter_persona := Some (str_of "generic") |}.

Definition clean_interview : Interview.InterviewReadinessResultInternal :=
  {| Interview.readiness_score := 100;
     Interview.resume_claims := [];
     Interview.predicted_questions := [];
     Interview.consistency_risks := [] |}.

(** A resume with nothing in it, and a job description that asks for a
    degree and nothing else. *)
Definition empty_resume : ParsedResumeInternal :=
  {| name := None; email := None; phone := None; location := None;
     work_experience := []; education := []; skills := [] |}.

Definition degree_only_job : ParsedJobDescriptionInternal :=
  {| title := None; company := None; required_skills := []; preferred_skills := [];
     required_education := Some (str_of "Bachelor"); keywords := [] |}.

(** A job description that requires one skill, and a resume that has an
    email, a phone and one job but lists no skills. *)
Definition python_job : ParsedJobDescriptionInternal :=
  {| title := None; company := None; required_skills := [str_of "python"];
     preferred_skills := []; required_education := None; keywords := [] |}.

Definition unskilled_resume : ParsedResumeInternal :=
  {| name := Some (str_of "A. Candidate");
     email := Some (str_of "a@example.org");
     phone := Some (str_of "555-0100");
     location := None;
     work_experience := [ {[ "title" := VStr (str_of "Clerk") ]} ];
     education := []; skills := [] |}.

(** A resume without email and phone, with one job. *)
Definition no_contact_resume : ParsedResumeInternal :=
  {| name := None; email := None; phone := Some (str_of "  "); location := None;
     work_experience := [ {[ "title" := VStr (str_of "Clerk") ]} ];
     education := []; skills := [str_of "python"] |}.

Definition open_job : ParsedJobDescriptionInternal :=
  {| title := None; company := None; required_skills := [];
     preferred_skills := []; required_education := None; keywords := [] |}.

(** A job with an achievements list and a description, and a resume made
    of it. *)
Definition billing_job : gmap string pyval :=
  {[ "achievements" := VList [VStr (str_of "Built the billing system")];
     "description" := VStr (str_of "Designed the service layer") ]}.

Definition billing_resume : ParsedResumeInternal :=
  {| name := None; email := None; phone := None; location := None;
     work_experience := [billing_job]; education := [];
     skills := [str_of "python"; str_of "sql"] |}.

(** The claim text of the scenario in the specification. *)
Definition sales_claim : pystr :=
  str_of "Increased sales by 30% through targeted outreach".

(** A clock that advances by one second per reading, and a context on
    which nothing has run. *)
Definition second_clock (n : nat) : Q := inject_Z (Z.of_nat n).

Definition fresh_context : Orchestrator.AnalysisContext unit :=
  {| Orchestrator.analysis_id := str_of "a-1"; Orchestrator.data := tt;
     Orchestrator.start_time := None;
     Orchestrator.stage_timings := ∅; Orchestrator.stage_statuses := ∅ |}.

(** Two iteration orders of a set: as the elements are listed, and the
    reverse. *)
Definition listed_order : Interview.iteration_order := fun l => l.
Definition reversed_order : Interview.iteration_order := fun l => rev l.

(** A resume and a job description with nothing to reject: contact data,
    one job, the required skill and the required degree. *)
Definition complete_resume : ParsedResumeInternal :=
  {| name := Some (str_of "A. Candidate");
     email := Some (str_of "a@example.org");
     phone := Some (str_of "555-0100");
     location := None;
     work_experience := [ {[ "title" := VStr (str_of "Engineer") ]} ];
     education := [ {[ "degree" := VStr (str_of "Bachelor of Science") ]} ];
     skills := [str_of "Python"] |}.

Definition python_degree_job : ParsedJobDescriptionInternal :=
  {| title := None; company := None; required_skills := [str_of "python"];
     preferred_skills := []; required_education := Some (str_of "bachelor");
     keywords := [] |}.

(** The complete resume with its skill in lower case, and a resume with
    two jobs of which one is dated. *)
Definition lowercase_resume : ParsedResumeInternal :=
  {| name := Some (str_of "A. Candidate");
     email := Some (str_of "a@example.org");
     phone := Some (str_of "555-0100");
     location := None;
     work_experience := [ {[ "title" := VStr (str_of "Engineer") ]} ];
     education := [ {[ "degree" := VStr (str_of "Bachelor of Science") ]} ];
     skills := [str_of "python"] |}.



(** The risk the interview evaluator reports for the two skills of the
    billing resume. *)
Definition skill_risk : Interview.ConsistencyRisk :=
  {| Interview.risk_type := str_of "skill_depth_mismatch";
     Interview.severity := str_of "medium";
     Interview.description :=
       str_of "Skills listed but not mentioned in work experience: python, sql";
     Interview.related_claim := None;
     Interview.mitigation_suggestion :=
       Some (str_of "Be prepared to explain how you used these skills in your work.") |}.

(** The recruiter result of an empty work history: the flag of the zero
    tenure and the flag of the missing achievements. *)
Definition flagged_recruiter : Recruiter.RecruiterResultInternal :=
  {| Recruiter.evaluation_score := 85;
     Recruiter.career_progression_score := 5 # 10;
     Recruiter.job_stability_score := 6 # 10;
     Recruiter.red_flags :=
       [RecruiterEvaluator.no_tenure_flag; RecruiterEvaluator.no_achievements_flag];
     Recruiter.recruiter_persona := Some (str_of "generic") |}.



End Inputs.

(** * Properties *)

(** ** Comparisons, [min] and [max] on rationals *)

Section Rationals.
Local Open Scope Q_scope.

Lemma Qltb_true (a b : Q) : Qltb a b = true <-> a < b.
Proof.
  unfold Qltb. rewrite Qlt_alt. destruct (a ?= b); split; congruence.
Qed.

Lemma Qltb_false (a b : Q) : Qltb a b = false <-> b <= a.
Proof.
  rewrite <- Bool.not_true_iff_false, Qltb_true. split; intros H.
  - apply Qnot_lt_le; exact H.
  - apply Qle_not_lt; exact H.
Qed.

Lemma Qleb_true (a b : Q) : Qleb a b = true <-> a <= b.
Proof.
  unfold Qleb. rewrite Qle_alt. destruct (a ?= b); split; congruence.
Qed.

Lemma Qleb_false (a b : Q) : Qleb a b = false <-> b < a.
Proof.
  rewrite <- Bool.not_true_iff_false, Qleb_true. split; intros H.
  - apply Qnot_le_lt; exact H.
  - apply Qlt_not_le; exact H.
Qed.

Lemma Qeqb_true (a b : Q) : Qeqb a b = true <-> a == b.
Proof.
  unfold Qeqb. rewrite Qeq_alt. destruct (a ?= b); split; congruence.
Qed.

Lemma py_min_cases (a b : Q) :
  (b < a /\ py_min a b = b) \/ (a <= b /\ py_min a b = a).
Proof.
  unfold py_min. destruct (Qltb b a) eqn:E.
  - left. split; [apply Qltb_true; exact E | reflexivity].
  - right. split; [apply Qltb_false; exact E | reflexivity].
Qed.

Lemma py_max_cases (a b : Q) :
  (a < b /\ py_max a b = b) \/ (b <= a /\ py_max a b = a).
Proof.
  unfold py_max. destruct (Qltb a b) eqn:E.
  - left. split; [apply Qltb_true; exact E | reflexivity].
  - right. split; [apply Qltb_false; exact E | reflexivity].
Qed.

Lemma py_min_le_l (a b : Q) : py_min a b <= a.
Proof. destruct (py_min_cases a b) as [[H ->] | [H ->]]; lra. Qed.

Lemma py_min_le_r (a b : Q) : py_min a b <= b.
Proof. destruct (py_min_cases a b) as [[H ->] | [H ->]]; lra. Qed.

Lemma py_min_glb (a b c : Q) : c <= a -> c <= b -> c <= py_min a b.
Proof. intros. destruct (py_min_cases a b) as [[H' ->] | [H' ->]]; lra. Qed.

Lemma py_max_ge_l (a b : Q) : a <= py_max a b.
Proof. destruct (py_max_cases a b) as [[H ->] | [H ->]]; lra. Qed.

Lemma py_max_lub (a b c : Q) : a <= c -> b <= c -> py_max a b <= c.
Proof. intros. destruct (py_max_cases a b) as [[H' ->] | [H' ->]]; lra. Qed.

(** [max(0.0, min(1.0, x))] lies in the unit interval. *)
Lemma clamp_unit (x : Q) : 0 <= py_max 0 (py_min 1 x) <= 1.
Proof.
  split.
  - apply py_max_ge_l.
  - apply py_max_lub; [lra | apply py_min_le_l].
Qed.

End Rationals.

(** ** The probability funnel of the aggregator *)

Section Funnel.
Import Scoring.
Local Open Scope Q_scope.

Lemma base_probabilities_in_unit ats rec int :
  probabilities_in_unit (_calculate_base_probabilities ats rec int).
Proof.
  unfold probabilities_in_unit, in_unit, _calculate_base_probabilities; simpl.
  repeat split; apply clamp_unit.
Qed.

Lemma effect_of_sign (s : SignalImpact) (e : Q) :
  effect_of s = Some e -> compound_effect s = Some e /\ ~ e == 0.
Proof.
  unfold effect_of. destruct (compound_effect s) as [q |]; [| discriminate].
  destruct (Qeqb q 0) eqn:E; [discriminate |].
  intros [= <-]. split; [reflexivity |].
  intros H. apply Qeqb_true in H. congruence.
Qed.

Lemma is_positive_boosts (s : SignalImpact) :
  is_positive (compound_effect s) = true -> boosts s.
Proof.
  intros H e He. apply effect_of_sign in He as [Hc _]. rewrite Hc in H.
  simpl in H. apply andb_prop in H as [_ H]. apply Qltb_true in H. lra.
Qed.

Lemma not_positive_penalises (s : SignalImpact) :
  is_positive (compound_effect s) = false -> penalises s.
Proof.
  intros H e He. apply effect_of_sign in He as [Hc Hz]. rewrite Hc in H.
  simpl in H. destruct (Qeqb e 0) eqn:E.
  - apply Qeqb_true in E. contradiction.
  - simpl in H. apply Qltb_false in H. exact H.
Qed.

Lemma is_negative_penalises (s : SignalImpact) :
  is_negative (compound_effect s) = true -> penalises s.
Proof.
  intros H e He. apply effect_of_sign in He as [Hc _]. rewrite Hc in H.
  simpl in H. apply andb_prop in H as [_ H]. apply Qltb_true in H. lra.
Qed.

Lemma not_negative_boosts (s : SignalImpact) :
  is_negative (compound_effect s) = false -> boosts s.
Proof.
  intros H e He. apply effect_of_sign in He as [Hc Hz]. rewrite Hc in H.
  simpl in H. destruct (Qeqb e 0) eqn:E.
  - apply Qeqb_true in E. contradiction.
  - simpl in H. apply Qltb_false in H. exact H.
Qed.

Lemma constant_penalises (n : pystr) (st : list pystr) (q : Q) :
  q <= 0 -> penalises {| signal := n; stages_affected := st; compound_effect := Some q |}.
Proof.
  intros Hq e He. apply effect_of_sign in He as [Hc _]. simpl in Hc.
  injection Hc as <-. exact Hq.
Qed.

Lemma risk_compounding_penalises ats rec int :
  Forall penalises (_analyze_risk_compounding ats rec int).
Proof.
  unfold _analyze_risk_compounding.
  destruct (collect_risks ats rec int) as [[critical high] medium].
  repeat apply Forall_app_2;
    match goal with
    | |- Forall _ (if ?b then _ else _) => destruct b
    end;
    repeat constructor; apply constant_penalises; lra.
Qed.

(** The engine files boosts under the positive signals and penalties
    under the negative ones. *)
Lemma apply_signs ats rec int :
  Forall boosts (positive_signals (apply ats rec int))
  /\ Forall penalises (negative_signals (apply ats rec int)).
Proof.
  unfold apply.
  pose proof (risk_compounding_penalises ats rec int) as Hrisk.
  set (risk := _analyze_risk_compounding ats rec int) in *. clearbody risk.
  set (a := _analyze_ats_influence ats rec). clearbody a.
  set (d := _analyze_interview_dominance int). clearbody d.
  destruct (is_positive (compound_effect a)) eqn:Hats;
    [apply is_positive_boosts in Hats | apply not_positive_penalises in Hats];
    (destruct d as [i |];
     [destruct (is_negative (compound_effect i)) eqn:Hint;
      [apply is_negative_penalises in Hint | apply not_negative_boosts in Hint] |]);
    cbn [positive_signals negative_signals app]; split;
    repeat first [ assumption | constructor ].
Qed.

Lemma apply_positive_in_unit (p : StageProbabilities) (s : SignalImpact) :
  boosts s -> probabilities_in_unit p -> probabilities_in_unit (apply_positive p s).
Proof.
  unfold probabilities_in_unit, in_unit, apply_positive. intros Hs Hp.
  destruct (effect_of s) as [e |] eqn:He; [| exact Hp].
  specialize (Hs e He). simpl.
  repeat split; try tauto;
    match goal with
    | |- context [if ?b then _ else _] => destruct b
    end; try tauto;
    first [ apply py_min_glb; lra | apply py_min_le_l ].
Qed.

Lemma apply_negative_in_unit (p : StageProbabilities) (s : SignalImpact) :
  penalises s -> probabilities_in_unit p -> probabilities_in_unit (apply_negative p s).
Proof.
  unfold probabilities_in_unit, in_unit, apply_negative. intros Hs Hp.
  destruct (effect_of s) as [e |] eqn:He; [| exact Hp].
  specialize (Hs e He). simpl.
  repeat split; try tauto;
    match goal with
    | |- context [if ?b then _ else _] => destruct b
    end; try tauto;
    first [ apply py_max_ge_l | apply py_max_lub; lra ].
Qed.

Lemma fold_in_unit (step : StageProbabilities -> SignalImpact -> StageProbabilities)
    (good : SignalImpact -> Prop) :
  (forall p s, good s -> probabilities_in_unit p -> probabilities_in_unit (step p s)) ->
  forall l p, Forall good l -> probabilities_in_unit p ->
    probabilities_in_unit (fold_left step l p).
Proof.
  intros Hstep l. induction l as [| s l IH]; intros p Hl Hp; simpl.
  - exact Hp.
  - inversion Hl; subst. apply IH; [assumption |]. apply Hstep; assumption.
Qed.

Lemma compound_signals_in_unit base summary :
  Forall boosts (positive_signals summary) ->
  Forall penalises (negative_signals summary) ->
  probabilities_in_unit base ->
  probabilities_in_unit (compound_signals base summary).
Proof.
  intros Hpos Hneg Hbase. unfold compound_signals.
  apply (fold_in_unit apply_negative penalises apply_negative_in_unit); [assumption |].
  apply (fold_in_unit apply_positive boosts apply_positive_in_unit); assumption.
Qed.

Lemma enforce_funnel_sound (p : StageProbabilities) :
  probabilities_in_unit p ->
  probabilities_in_unit (enforce_funnel p) /\ funnel (enforce_funnel p).
Proof.
  unfold probabilities_in_unit, in_unit, funnel, enforce_funnel; simpl.
  intros (Ha & Hr & Hi & Ho).
  set (r := py_min (recruiter_pass p) (ats_pass p)).
  set (i := py_min (interview_pass p) r).
  set (o := py_min (offer p) i).
  assert (Hr' : 0 <= r <= recruiter_pass p /\ r <= ats_pass p).
  { subst r. repeat split; [apply py_min_glb; lra | apply py_min_le_l | apply py_min_le_r]. }
  assert (Hi' : 0 <= i <= interview_pass p /\ i <= r).
  { subst i. repeat split; [apply py_min_glb; lra | apply py_min_le_l | apply py_min_le_r]. }
  assert (Ho' : 0 <= o <= offer p /\ o <= i).
  { subst o. repeat split; [apply py_min_glb; lra | apply py_min_le_l | apply py_min_le_r]. }
  repeat split; lra.
Qed.

(** C1. Whatever the three stage results are, the stage probabilities the
    aggregator returns all lie in [0,1] and form a funnel:
    offer <= interview_pass <= recruiter_pass <= ats_pass. *)
Theorem C1_stage_probabilities_funnel
    (ats : ATS.ATSResultInternal) (rec : Recruiter.RecruiterResultInternal)
    (int : Interview.InterviewReadinessResultInternal) :
  let p := stage_probabilities (aggregate ats rec int) in
  (0 <= ats_pass p <= 1) /\ (0 <= recruiter_pass p <= 1)
  /\ (0 <= interview_pass p <= 1) /\ (0 <= offer p <= 1)
  /\ offer p <= interview_pass p
  /\ interview_pass p <= recruiter_pass p
  /\ recruiter_pass p <= ats_pass p.
Proof.
  simpl. unfold _apply_compounding_effects.
  destruct (apply_signs ats rec int) as [Hpos Hneg].
  pose proof (compound_signals_in_unit _ _ Hpos Hneg
                (base_probabilities_in_unit ats rec int)) as Hunit.
  apply enforce_funnel_sound in Hunit as [(Ha & Hr & Hi & Ho) (Hf1 & Hf2 & Hf3)].
  unfold in_unit in *. tauto.
Qed.

End Funnel.

(** ** Which stages a compounding signal adjusts *)

Section Compounding.
Import Scoring.
Local Open Scope Q_scope.

Lemma boost_is_clamp (x r e : Q) :
  0 <= x <= 1 -> x == r -> 0 <= e -> py_min 1 (x + e) == clamp01 (r + e).
Proof.
  intros Hx Hr He. unfold clamp01.
  destruct (py_min_cases 1 (x + e)) as [[H1 ->] | [H1 ->]];
    destruct (py_min_cases 1 (r + e)) as [[H2 ->] | [H2 ->]];
    match goal with
    | |- _ == py_max 0 ?y => destruct (py_max_cases 0 y) as [[H3 ->] | [H3 ->]]
    end; lra.
Qed.

Lemma penalty_is_clamp (x r e : Q) :
  0 <= x <= 1 -> x == r -> e <= 0 -> py_max 0 (x + e) == clamp01 (r + e).
Proof.
  intros Hx Hr He. unfold clamp01.
  destruct (py_max_cases 0 (x + e)) as [[H1 ->] | [H1 ->]];
    destruct (py_min_cases 1 (r + e)) as [[H2 ->] | [H2 ->]];
    match goal with
    | |- _ == py_max 0 ?y => destruct (py_max_cases 0 y) as [[H3 ->] | [H3 ->]]
    end; lra.
Qed.

Lemma apply_positive_tracks (p : StageProbabilities) (r i o : Q) (s : SignalImpact) :
  boosts s -> tracks p r i o ->
  tracks (apply_positive p s)
    (spec_apply_signal "recruiter" r s) (spec_apply_signal "interview" i s)
    (spec_apply_signal "offer" o s).
Proof.
  intros Hs (Hp & Hr & Hi & Ho). split; [apply apply_positive_in_unit; assumption |].
  destruct Hp as (_ & Hpr & Hpi & Hpo). unfold in_unit in *.
  unfold apply_positive, spec_apply_signal.
  destruct (effect_of s) as [e |] eqn:He; [| tauto].
  specialize (Hs e He). cbn [recruiter_pass interview_pass offer].
  repeat split;
    match goal with
    | |- context [if ?b then _ else _] => destruct b
    end; try assumption; apply boost_is_clamp; assumption.
Qed.

Lemma apply_negative_tracks (p : StageProbabilities) (r i o : Q) (s : SignalImpact) :
  penalises s -> tracks p r i o ->
  tracks (apply_negative p s)
    (spec_apply_signal "recruiter" r s) (spec_apply_signal "interview" i s)
    (spec_apply_signal "offer" o s).
Proof.
  intros Hs (Hp & Hr & Hi & Ho). split; [apply apply_negative_in_unit; assumption |].
  destruct Hp as (_ & Hpr & Hpi & Hpo). unfold in_unit in *.
  unfold apply_negative, spec_apply_signal.
  destruct (effect_of s) as [e |] eqn:He; [| tauto].
  specialize (Hs e He). cbn [recruiter_pass interview_pass offer].
  repeat split;
    match goal with
    | |- context [if ?b then _ else _] => destruct b
    end; try assumption; apply penalty_is_clamp; assumption.
Qed.

Lemma fold_tracks (step : StageProbabilities -> SignalImpact -> StageProbabilities)
    (good : SignalImpact -> Prop) :
  (forall p r i o s, good s -> tracks p r i o ->
     tracks (step p s) (spec_apply_signal "recruiter" r s)
       (spec_apply_signal "interview" i s) (spec_apply_signal "offer" o s)) ->
  forall l p r i o, Forall good l -> tracks p r i o ->
    tracks (fold_left step l p)
      (fold_left (spec_apply_signal "recruiter") l r)
      (fold_left (spec_apply_signal "interview") l i)
      (fold_left (spec_apply_signal "offer") l o).
Proof.
  intros Hstep l. induction l as [| s l IH]; intros p r i o Hl Hp; simpl.
  - exact Hp.
  - inversion Hl; subst. apply IH; [assumption |]. apply Hstep; assumption.
Qed.

Lemma apply_positive_keeps_ats (l : list SignalImpact) (p : StageProbabilities) :
  ats_pass (fold_left apply_positive l p) = ats_pass p.
Proof.
  revert p. induction l as [| s l IH]; intros p; simpl; [reflexivity |].
  rewrite IH. unfold apply_positive. destruct (effect_of s); reflexivity.
Qed.

Lemma apply_negative_keeps_ats (l : list SignalImpact) (p : StageProbabilities) :
  ats_pass (fold_left apply_negative l p) = ats_pass p.
Proof.
  revert p. induction l as [| s l IH]; intros p; simpl; [reflexivity |].
  rewrite IH. unfold apply_negative. destruct (effect_of s); reflexivity.
Qed.

(** C3, as the code has it. The effect of every signal the engine produces
    is added, with the sum clamped to [0,1], to each of the recruiter,
    interview and offer probabilities its [stages_affected] names, positive
    signals first; the ATS probability keeps its base value also when a
    signal names "ats"; the funnel is enforced on the outcome. *)
Theorem C3_signals_adjust_later_stages
    (ats : ATS.ATSResultInternal) (rec : Recruiter.RecruiterResultInternal)
    (int : Interview.InterviewReadinessResultInternal) :
  let base := _calculate_base_probabilities ats rec int in
  let summary := apply ats rec int in
  let adjusted := compound_signals base summary in
  stage_probabilities (aggregate ats rec int) = enforce_funnel adjusted
  /\ recruiter_pass adjusted == spec_compound "recruiter" (recruiter_pass base) summary
  /\ interview_pass adjusted == spec_compound "interview" (interview_pass base) summary
  /\ offer adjusted == spec_compound "offer" (offer base) summary
  /\ ats_pass adjusted = ats_pass base.
Proof.
  intros base summary adjusted. split; [reflexivity |].
  destruct (apply_signs ats rec int) as [Hpos Hneg]. fold summary in Hpos, Hneg.
  assert (Hbase : tracks base (recruiter_pass base) (interview_pass base) (offer base)).
  { split; [apply base_probabilities_in_unit |]. repeat split; reflexivity. }
  pose proof (fold_tracks apply_positive boosts apply_positive_tracks
                _ _ _ _ _ Hpos Hbase) as Hp.
  pose proof (fold_tracks apply_negative penalises apply_negative_tracks
                _ _ _ _ _ Hneg Hp) as (_ & Hr & Hi & Ho).
  unfold spec_compound. rewrite !fold_left_app.
  subst adjusted. unfold compound_signals.
  repeat split; try assumption.
  rewrite apply_negative_keeps_ats, apply_positive_keeps_ats. reflexivity.
Qed.

(** C3, as the claim states it, fails. With an ATS score of 30 and
    otherwise clean results two negative signals name "ats" (-0.15 and
    -0.35); adding them would bring the ATS probability from 0.3 to 0,
    while the aggregator leaves it at 0.3. *)
Lemma C3_counterexample :
  let ats := Inputs.ats_with_score 30 in
  let base := _calculate_base_probabilities ats Inputs.clean_recruiter Inputs.clean_interview in
  let summary := apply ats Inputs.clean_recruiter Inputs.clean_interview in
  map (fun s => (names "ats" s, compound_effect s)) (negative_signals summary)
    = [(true, Some (- (15 # 100))); (true, Some (- (35 # 100)))]
  /\ ats_pass (compound_signals base summary) == 3 # 10
  /\ ats_pass (stage_probabilities
                 (aggregate ats Inputs.clean_recruiter Inputs.clean_interview)) == 3 # 10
  /\ spec_compound "ats" (ats_pass base) summary == 0
  /\ ~ every_named_stage_adjusted ats Inputs.clean_recruiter Inputs.clean_interview.
Proof.
  cbv zeta.
  split; [vm_compute; reflexivity |].
  split; [vm_compute; reflexivity |].
  split; [vm_compute; reflexivity |].
  split; [vm_compute; reflexivity |].
  intros H. specialize (H "ats"%string (or_introl eq_refl)).
  vm_compute in H. discriminate H.
Qed.

End Compounding.

(** ** The bookkeeping of the feature extractor *)

Section FeatureBookkeeping.
Import Features.

(** Case analysis on the tests the six [_compute_*] make. *)
Ltac extractor_cases r jd :=
  unfold extract, _compute_skills_count, _compute_keyword_match_count,
    _compute_resume_length_words, _compute_years_experience,
    _compute_has_required_skills, _compute_has_required_degree;
  generalize (zlen (skills r));
  generalize (fold_left (fun acc exp => acc + description_words exp) (work_experience r) 0);
  generalize (fold_left (fun acc exp => acc + months_of_entry exp) (work_experience r) 0);
  generalize (negb (nonempty (skills r)) || negb (nonempty (required_skills jd)));
  generalize (nonempty (work_experience r));
  intros we unskilled months words count;
  repeat match goal with
    | |- context [match required_education ?jd with _ => _ end] =>
        destruct (required_education jd) as [[| ? ?] |] eqn:?
    | |- context [if ?b then _ else _] => destruct b eqn:?; cbn [negb]
    end.

Lemma extract_bookkeeping (r : ParsedResumeInternal) (jd : ParsedJobDescriptionInternal)
    (f : string) :
  In f feature_names -> bookkeeping_of r jd (extract r jd) f.
Proof.
  intros Hf. simpl in Hf.
  extractor_cases r jd;
    (repeat destruct Hf as [<- | Hf]; [.. | destruct Hf]);
    unfold bookkeeping_of, exactly_one;
    (split; [reflexivity |]);
    (split; [first [reflexivity | intros Hne; exfalso; apply Hne; reflexivity] |]);
    (split; [first [reflexivity | intros He; rewrite He in *; discriminate] |]);
    (split; [first [reflexivity | intros [Hn | Hn]; congruence] |]);
    (split; [reflexivity |]);
    vm_compute; intros Hm;
    first [discriminate Hm | reflexivity | eexists; split; reflexivity].
Qed.

(** C2, as the code has it. Each of years_experience, skills_count,
    keyword_match_count, resume_length_words and has_required_skills is
    recorded on exactly one side (an entry of computation_method, or a
    name in missing_features); has_required_degree is never on both sides
    and is on exactly one when the job description names no education or
    the resume lists some; and a feature named in missing_features is
    not left unset: its field holds the default 0, 0.0 or False. *)
Theorem C2_features_computed_xor_missing
    (r : ParsedResumeInternal) (jd : ParsedJobDescriptionInternal) :
  let fv := extract r jd in
  (forall f, In f ["years_experience"; "skills_count"; "keyword_match_count";
                   "resume_length_words"; "has_required_skills"]%string ->
     exactly_one fv f)
  /\ (is_computed fv "has_required_degree" && is_missing fv "has_required_degree" = false)
  /\ ((required_education jd = None \/ required_education jd = Some []
       \/ education r <> []) -> exactly_one fv "has_required_degree")
  /\ (forall f, In f feature_names ->
        field_is_set fv f = true /\ (is_missing fv f = true -> holds_default fv f)).
Proof.
  cbv zeta.
  assert (Hdeg : In "has_required_degree"%string feature_names) by (simpl; tauto).
  destruct (extract_bookkeeping r jd _ Hdeg) as (Hboth & _ & Hedu & Hnone & _).
  split; [| split; [exact Hboth | split]].
  - intros f Hf.
    assert (Hin : In f feature_names) by (simpl in *; tauto).
    destruct (extract_bookkeeping r jd f Hin) as (_ & Hone & _).
    apply Hone. simpl in Hf. intros ->.
    repeat destruct Hf as [Hf | Hf]; discriminate || contradiction.
  - intros [Hn | [Hn | Hn]]; [apply Hnone; tauto | apply Hnone; tauto |].
    apply Hedu. destruct (education r); [congruence | reflexivity].
  - intros f Hf. destruct (extract_bookkeeping r jd f Hf) as (_ & _ & _ & _ & Hset & Hdef).
    split; assumption.
Qed.

(** C2, as the claim states it, fails. For an empty resume and a job
    description that only asks for a degree, has_required_degree is
    recorded on neither side, and keyword_match_count, which is named in
    missing_features, is not unset but holds 0. *)
Lemma C2_counterexample :
  let fv := extract Inputs.empty_resume Inputs.degree_only_job in
  is_computed fv "has_required_degree" = false
  /\ is_missing fv "has_required_degree" = false
  /\ is_missing fv "keyword_match_count" = true
  /\ keyword_match_count (quantitative fv) = Some 0
  /\ ~ computed_xor_missing_and_unset fv.
Proof.
  cbv zeta.
  split; [vm_compute; reflexivity |].
  split; [vm_compute; reflexivity |].
  split; [vm_compute; reflexivity |].
  split; [vm_compute; reflexivity |].
  intros H.
  destruct (H "has_required_degree"%string) as [Hone _]; [simpl; tauto |].
  vm_compute in Hone. discriminate Hone.
Qed.

End FeatureBookkeeping.

(** ** Rounding respects equality of rationals *)

Section Rounding.
Local Open Scope Q_scope.

Lemma floor_compat (n n' : Z) (d d' : positive) :
  (n * Z.pos d' = n' * Z.pos d)%Z -> (n / Z.pos d = n' / Z.pos d')%Z.
Proof.
  intros H.
  rewrite <- (Z.div_mul_cancel_r n (Z.pos d) (Z.pos d')) by lia.
  rewrite <- (Z.div_mul_cancel_r n' (Z.pos d') (Z.pos d)) by lia.
  rewrite H. f_equal. lia.
Qed.

Lemma round_half_even_compat (q q' : Q) :
  q == q' -> round_half_even q = round_half_even q'.
Proof.
  destruct q as [n d], q' as [n' d']. unfold Qeq, round_half_even. simpl.
  intros H. rewrite (floor_compat n n' d d' H).
  set (f := (n' / Z.pos d')%Z).
  assert (Hf : (n / Z.pos d)%Z = f) by (apply floor_compat; exact H).
  assert (Hc : (2 * (n mod Z.pos d) ?= Z.pos d)%Z
               = (2 * (n' mod Z.pos d') ?= Z.pos d')%Z).
  { rewrite (Z.mod_eq n (Z.pos d)), (Z.mod_eq n' (Z.pos d')) by lia.
    rewrite Hf. fold f.
    rewrite <- (Zcompare_mult_compat d' (2 * (n - Z.pos d * f)) (Z.pos d)).
    rewrite <- (Zcompare_mult_compat d (2 * (n' - Z.pos d' * f)) (Z.pos d')).
    f_equal; nia. }
  rewrite Hc. reflexivity.
Qed.

Lemma round2_compat (q q' : Q) : q == q' -> round2 q = round2 q'.
Proof.
  intros H. unfold round2.
  rewrite (round_half_even_compat (q * 100) (q' * 100)); [reflexivity |].
  rewrite H. reflexivity.
Qed.

Lemma py_max_compat (a b b' : Q) : b == b' -> py_max a b == py_max a b'.
Proof.
  intros H.
  destruct (py_max_cases a b) as [[H1 ->] | [H1 ->]];
    destruct (py_max_cases a b') as [[H2 ->] | [H2 ->]]; lra.
Qed.

Lemma py_min_comm (a b : Q) : py_min a b == py_min b a.
Proof.
  destruct (py_min_cases a b) as [[H1 ->] | [H1 ->]];
    destruct (py_min_cases b a) as [[H2 ->] | [H2 ->]]; lra.
Qed.

End Rounding.

(** ** The ATS compatibility score *)

Section Compatibility.
Import Features ATS.
Local Open Scope Q_scope.

Lemma same_facts_refl (res : ATSResultInternal) : same_facts res res.
Proof. repeat split. Qed.

Lemma reject_same (msg : pystr) (res : ATSResultInternal) :
  same_facts (reject msg res) res.
Proof. repeat split. Qed.

Lemma reject_if_same (b : bool) (msg : string) (res : ATSResultInternal) :
  same_facts (reject_if b msg res) res.
Proof. destruct b; [apply reject_same | apply same_facts_refl]. Qed.

Lemma same_facts_trans (a b c : ATSResultInternal) :
  same_facts a b -> same_facts b c -> same_facts a c.
Proof.
  unfold same_facts. intros (H1 & H2 & H3 & H4 & H5 & H6) (G1 & G2 & G3 & G4 & G5 & G6).
  repeat split; congruence.
Qed.

Lemma nonempty_zlen {A : Type} (l : list A) : (0 <? zlen l)%Z = nonempty l.
Proof. destruct l; [reflexivity |]. unfold zlen. simpl length. apply Z.ltb_lt. lia. Qed.

Lemma check_required_fields_spec (r : ParsedResumeInternal) (res : ATSResultInternal) :
  fst (_check_required_fields r res)
  = Build_ATSRequiredFieldsStatus (field_present (email r)) (field_present (phone r))
      (nonempty (work_experience r)) (nonempty (education r))
      (field_present (email r) && field_present (phone r) && nonempty (work_experience r))
  /\ same_facts (snd (_check_required_fields r res)) res.
Proof.
  unfold _check_required_fields. rewrite !nonempty_zlen. cbn [fst snd]. split; [reflexivity |].
  eapply same_facts_trans; [apply reject_if_same |].
  eapply same_facts_trans; [apply reject_if_same |].
  apply reject_if_same.
Qed.

Lemma check_hard_filters_spec (fv : FeatureVectorInternal) (res : ATSResultInternal) :
  experience_met (fst (_check_hard_filters fv res)) = has_required_skills (categorical fv)
  /\ education_met (fst (_check_hard_filters fv res)) = has_required_degree (categorical fv)
  /\ same_facts (snd (_check_hard_filters fv res)) res.
Proof.
  unfold _check_hard_filters.
  destruct (has_required_skills (categorical fv)) as [a |],
           (has_required_degree (categorical fv)) as [b |];
    cbn [fst snd experience_met education_met]; repeat split; try reflexivity;
    repeat first [ apply same_facts_refl
                 | eapply same_facts_trans; [apply reject_if_same |] ].
Qed.

Lemma compute_keyword_matching_same (r : ParsedResumeInternal)
    (jd : ParsedJobDescriptionInternal) (fv : FeatureVectorInternal)
    (res : ATSResultInternal) :
  same_facts (snd (_compute_keyword_matching r jd fv res)) res.
Proof.
  unfold _compute_keyword_matching.
  destruct (zlen (required_skills jd) =? 0)%Z; [apply same_facts_refl |].
  match goal with
  | |- context [if ?b then _ else _] => destruct b
  end; cbn [snd]; [apply reject_same | apply same_facts_refl].
Qed.

Lemma score_depends (a b : ATSResultInternal) :
  required_fields_status a = required_fields_status b ->
  hard_filters a = hard_filters b ->
  keyword_match_percentage a = keyword_match_percentage b ->
  _calculate_compatibility_score a = _calculate_compatibility_score b.
Proof.
  intros H1 H2 H3. unfold _calculate_compatibility_score. rewrite H1, H2, H3. reflexivity.
Qed.

(** The facts of a simulation that the score is computed from. *)
Lemma simulate_facts (r : ParsedResumeInternal) (jd : ParsedJobDescriptionInternal)
    (fv : FeatureVectorInternal) (t : pystr) :
  let res := simulate r jd fv t in
  rf_email (required_fields_status res) = field_present (email r)
  /\ rf_phone (required_fields_status res) = field_present (phone r)
  /\ rf_work_history (required_fields_status res) = nonempty (work_experience r)
  /\ (exists hf, hard_filters res = Some hf
        /\ experience_met hf = has_required_skills (categorical fv)
        /\ education_met hf = has_required_degree (categorical fv))
  /\ keyword_breakdown res
     = fst (_compute_keyword_matching r jd fv
              (set_hard_filters (fst (_check_hard_filters fv
                 (set_required_fields_status
                    (fst (_check_required_fields r (set_ats_type t empty_result)))
                    (snd (_check_required_fields r (set_ats_type t empty_result))))))
                 (snd (_check_hard_filters fv
                 (set_required_fields_status
                    (fst (_check_required_fields r (set_ats_type t empty_result)))
                    (snd (_check_required_fields r (set_ats_type t empty_result))))))))
  /\ keyword_match_percentage res
     = _calculate_keyword_match_percentage (keyword_breakdown res)
  /\ compatibility_score res
     = _calculate_compatibility_score (set_compatibility_score 0 res).
Proof.
  cbv zeta. unfold simulate.
  pose proof (check_required_fields_spec r (set_ats_type t empty_result)) as [Hst _].
  destruct (_check_required_fields r (set_ats_type t empty_result)) as [status res1].
  cbn [fst snd] in *.
  pose proof (check_hard_filters_spec fv (set_required_fields_status status res1))
    as (Hx & Hd & Hs2).
  destruct (_check_hard_filters fv (set_required_fields_status status res1))
    as [filters res2].
  cbn [fst snd] in *.
  pose proof (compute_keyword_matching_same r jd fv (set_hard_filters filters res2)) as Hs3.
  destruct (_compute_keyword_matching r jd fv (set_hard_filters filters res2))
    as [breakdown res3].
  cbn [fst snd] in *.
  destruct Hs3 as (Hrf3 & Hhf3 & _). destruct Hs2 as (Hrf2 & _).
  cbn [required_fields_status hard_filters set_hard_filters set_required_fields_status]
    in Hrf3, Hhf3, Hrf2.
  cbn [required_fields_status hard_filters keyword_match_percentage keyword_breakdown
       compatibility_score set_compatibility_score set_keyword_match_percentage
       set_keyword_breakdown].
  rewrite Hrf3, Hrf2, Hhf3, Hst. cbn [rf_email rf_phone rf_work_history].
  split; [reflexivity |]. split; [reflexivity |]. split; [reflexivity |].
  split; [exists filters; tauto |].
  split; [reflexivity |]. split; [reflexivity |].
  apply score_depends; reflexivity.
Qed.

(** The score of a result with the given facts, in the form of the
    specification. *)
Lemma score_formula (res : ATSResultInternal) (hf : ATSHardFilters) :
  hard_filters res = Some hf ->
  _calculate_compatibility_score res
  == spec_compatibility_score
       (negb (rf_email (required_fields_status res)))
       (negb (rf_phone (required_fields_status res)))
       (negb (rf_work_history (required_fields_status res)))
       (failed (experience_met hf)) (failed (education_met hf))
       (keyword_match_percentage res).
Proof.
  intros Hhf. unfold _calculate_compatibility_score, spec_compatibility_score.
  rewrite Hhf.
  set (k := keyword_match_percentage res).
  apply py_max_compat.
  match goal with
  | |- round2 ?a == round2 ?b => rewrite (round2_compat a b); [reflexivity |]
  end.
  pose proof (py_min_comm (60 - k) 20) as Hmin.
  unfold failed, deduction.
  destruct (rf_email (required_fields_status res)),
    (rf_phone (required_fields_status res)),
    (rf_work_history (required_fields_status res)),
    (experience_met hf) as [[|] |], (education_met hf) as [[|] |], (Qltb k 60);
    cbn [negb]; lra.
Qed.

(** C4. The compatibility score of every simulation is 100 minus 25, 25
    and 30 for a missing email, phone and work history, minus 20 and 15
    for a failed experience and education hard filter, minus
    min(20, 60 - keyword_match_percentage) when that percentage is below
    60, floored at 0 and rounded to two decimals. *)
Theorem C4_compatibility_score
    (r : ParsedResumeInternal) (jd : ParsedJobDescriptionInternal)
    (fv : FeatureVectorInternal) (t : pystr) :
  let res := simulate r jd fv t in
  compatibility_score res
  == spec_compatibility_score
       (negb (field_present (email r))) (negb (field_present (phone r)))
       (negb (nonempty (work_experience r)))
       (failed (has_required_skills (categorical fv)))
       (failed (has_required_degree (categorical fv)))
       (keyword_match_percentage res).
Proof.
  cbv zeta.
  destruct (simulate_facts r jd fv t)
    as (He & Hp & Hw & (hf & Hhf & Hx & Hd) & _ & _ & Hscore).
  rewrite Hscore, <- He, <- Hp, <- Hw, <- Hx, <- Hd.
  assert (Hhf' : hard_filters (set_compatibility_score 0 (simulate r jd fv t)) = Some hf)
    by exact Hhf.
  rewrite (score_formula _ hf Hhf'). reflexivity.
Qed.

(** The scenario of the specification: without email and phone, with one
    job and a feature vector that defines no hard filter, the score is 50
    and there are exactly two rejection reasons. *)
Example missing_email_and_phone :
  let res := simulate Inputs.no_contact_resume Inputs.open_job
               empty_features (str_of "generic") in
  compatibility_score res == 50
  /\ rejection_reasons res
     = [str_of "Missing required field: email"; str_of "Missing required field: phone"].
Proof. cbv zeta. split; vm_compute; reflexivity. Qed.

End Compatibility.

(** ** Extracted features in the ATS simulator *)

Section ExtractedFeatures.
Import Features ATS.
Local Open Scope Q_scope.

(** The fields the extractor sets hold the values its [_compute_*] return. *)
Lemma extract_fields (r : ParsedResumeInternal) (jd : ParsedJobDescriptionInternal) :
  keyword_match_count (quantitative (extract r jd))
  = Some (fst (_compute_keyword_match_count r jd empty_features))
  /\ has_required_skills (categorical (extract r jd))
     = Some (fst (_compute_has_required_skills r jd empty_features))
  /\ has_required_degree (categorical (extract r jd))
     = Some (fst (_compute_has_required_degree r jd empty_features)).
Proof.
  unfold extract, _compute_skills_count, _compute_keyword_match_count,
    _compute_resume_length_words, _compute_years_experience,
    _compute_has_required_skills, _compute_has_required_degree.
  repeat match goal with
    | |- context [match required_education ?jd with _ => _ end] =>
        destruct (required_education jd) as [[| ? ?] |]
    | |- context [if ?b then _ else _] => destruct b
    end; repeat split.
Qed.

Lemma keeps_reasons_refl (res : ATSResultInternal) : keeps_reasons res res.
Proof. intros msg H. exact H. Qed.

Lemma keeps_reasons_trans (a b c : ATSResultInternal) :
  keeps_reasons a b -> keeps_reasons b c -> keeps_reasons a c.
Proof. intros H1 H2 msg H. apply H2, H1, H. Qed.

Lemma reject_keeps (msg : pystr) (res : ATSResultInternal) :
  keeps_reasons res (reject msg res).
Proof. intros m H. simpl. apply in_or_app. left. exact H. Qed.

Lemma reject_if_keeps (b : bool) (msg : string) (res : ATSResultInternal) :
  keeps_reasons res (reject_if b msg res).
Proof. destruct b; [apply reject_keeps | apply keeps_reasons_refl]. Qed.

Lemma compute_keyword_matching_keeps (r : ParsedResumeInternal)
    (jd : ParsedJobDescriptionInternal) (fv : FeatureVectorInternal)
    (res : ATSResultInternal) :
  keeps_reasons res (snd (_compute_keyword_matching r jd fv res)).
Proof.
  unfold _compute_keyword_matching.
  destruct (zlen (required_skills jd) =? 0)%Z; [apply keeps_reasons_refl |].
  match goal with
  | |- context [if ?b then _ else _] => destruct b
  end; cbn [snd]; [apply reject_keeps | apply keeps_reasons_refl].
Qed.

(** A failed skills filter leaves its rejection reason. *)
Lemma check_hard_filters_rejects (fv : FeatureVectorInternal) (res : ATSResultInternal) :
  has_required_skills (categorical fv) = Some false ->
  In (str_of "Hard filter failed: missing required skills")
     (rejection_reasons (snd (_check_hard_filters fv res))).
Proof.
  intros H. unfold _check_hard_filters. rewrite H. cbn [negb reject_if].
  assert (Hin : In (str_of "Hard filter failed: missing required skills")
                  (rejection_reasons
                     (reject (str_of "Hard filter failed: missing required skills") res))).
  { simpl. apply in_or_app. right. left. reflexivity. }
  destruct (has_required_degree (categorical fv)) as [b |]; cbn [snd]; [| exact Hin].
  apply reject_if_keeps. exact Hin.
Qed.

Lemma simulate_rejects_skills (r : ParsedResumeInternal) (jd : ParsedJobDescriptionInternal)
    (fv : FeatureVectorInternal) (t : pystr) :
  has_required_skills (categorical fv) = Some false ->
  In (str_of "Hard filter failed: missing required skills")
     (rejection_reasons (simulate r jd fv t)).
Proof.
  intros H. unfold simulate.
  destruct (_check_required_fields r (set_ats_type t empty_result)) as [status res1].
  pose proof (check_hard_filters_rejects fv (set_required_fields_status status res1) H) as Hin.
  destruct (_check_hard_filters fv (set_required_fields_status status res1))
    as [filters res2].
  cbn [snd] in Hin.
  pose proof (compute_keyword_matching_keeps r jd fv (set_hard_filters filters res2)) as Hk.
  destruct (_compute_keyword_matching r jd fv (set_hard_filters filters res2))
    as [breakdown res3].
  cbn [snd] in Hk. cbn [rejection_reasons set_compatibility_score
    set_keyword_match_percentage set_keyword_breakdown].
  apply Hk. exact Hin.
Qed.

(** The count of the feature vector is the count of the breakdown. *)
Lemma keyword_matching_total (r : ParsedResumeInternal) (jd : ParsedJobDescriptionInternal)
    (fv : FeatureVectorInternal) (res : ATSResultInternal) (c : Z) :
  keyword_match_count (quantitative fv) = Some c ->
  (required_skills jd = [] -> c = 0%Z) ->
  total_matched (fst (_compute_keyword_matching r jd fv res)) = c.
Proof.
  intros Hc Hempty. unfold _compute_keyword_matching.
  destruct (zlen (required_skills jd) =? 0)%Z eqn:E.
  - cbn [fst total_matched]. symmetry. apply Hempty.
    apply Z.eqb_eq in E. unfold zlen in E.
    destruct (required_skills jd); [reflexivity | simpl in E; lia].
  - rewrite Hc. reflexivity.
Qed.

(** C10. The fields of an extracted vector always hold a value (0, 0.0 or
    False when the feature is missing), so the hard filters of the ATS
    simulator are always defined and its matched total is always the
    keyword_match_count of the vector; when the job description requires
    skills and the resume lists none, experience_met is False, the reason
    "Hard filter failed: missing required skills" is recorded and the score
    carries the deduction of 20. *)
Theorem C10_extracted_features_always_defined
    (r : ParsedResumeInternal) (jd : ParsedJobDescriptionInternal) (t : pystr) :
  let fv := extract r jd in
  let res := simulate r jd fv t in
  (forall f, In f feature_names ->
     field_is_set fv f = true /\ (is_missing fv f = true -> holds_default fv f))
  /\ (exists hf e d, hard_filters res = Some hf
        /\ experience_met hf = Some e /\ education_met hf = Some d)
  /\ keyword_match_count (quantitative fv) = Some (total_matched (keyword_breakdown res))
  /\ (required_skills jd <> [] -> skills r = [] ->
      (exists hf, hard_filters res = Some hf /\ experience_met hf = Some false)
      /\ In (str_of "Hard filter failed: missing required skills") (rejection_reasons res)
      /\ compatibility_score res
         == spec_compatibility_score
              (negb (field_present (email r))) (negb (field_present (phone r)))
              (negb (nonempty (work_experience r)))
              true (failed (has_required_degree (categorical fv)))
              (keyword_match_percentage res)).
Proof.
  cbv zeta.
  destruct (extract_fields r jd) as (Hkw & Hsk & Hdg).
  destruct (simulate_facts r jd (extract r jd) t)
    as (He & Hp & Hw & (hf & Hhf & Hx & Hd) & Hbd & _ & Hscore).
  split; [| split; [| split]].
  - intros f Hf.
    destruct (extract_bookkeeping r jd f Hf) as (_ & _ & _ & _ & Hset & Hdef).
    split; assumption.
  - exists hf, (fst (_compute_has_required_skills r jd empty_features)),
      (fst (_compute_has_required_degree r jd empty_features)).
    rewrite Hx, Hd, Hsk, Hdg. split; [exact Hhf | split; reflexivity].
  - rewrite Hbd, Hkw. f_equal. symmetry.
    apply keyword_matching_total; [exact Hkw |].
    intros Hreq. unfold _compute_keyword_match_count. rewrite Hreq.
    cbn [nonempty negb]. rewrite Bool.orb_true_r. reflexivity.
  - intros Hreq Hskills.
    assert (Hfalse : has_required_skills (categorical (extract r jd)) = Some false).
    { rewrite Hsk. unfold _compute_has_required_skills. rewrite Hskills. reflexivity. }
    split; [exists hf; rewrite Hx; tauto |].
    split; [apply simulate_rejects_skills; exact Hfalse |].
    rewrite Hscore, <- He, <- Hp, <- Hw, <- Hd.
    assert (Hhf' : hard_filters (set_compatibility_score 0
                                   (simulate r jd (extract r jd) t)) = Some hf)
      by exact Hhf.
    rewrite (score_formula _ hf Hhf'), Hx, Hfalse. reflexivity.
Qed.

(** C10 on a resume without skills and a job description requiring
    "python": the skills filter fails and costs 20 points. *)
Lemma C10_witness :
  let fv := extract Inputs.unskilled_resume Inputs.python_job in
  let res := simulate Inputs.unskilled_resume Inputs.python_job fv (str_of "generic") in
  (exists hf, hard_filters res = Some hf /\ experience_met hf = Some false)
  /\ In (str_of "Hard filter failed: missing required skills") (rejection_reasons res)
  /\ compatibility_score res
     == spec_compatibility_score false false false true
          (failed (has_required_degree (categorical fv)))
          (keyword_match_percentage res).
Proof.
  cbv zeta.
  apply (C10_extracted_features_always_defined
           Inputs.unskilled_resume Inputs.python_job (str_of "generic")).
  - discriminate.
  - reflexivity.
Defined.

End ExtractedFeatures.

(** ** Claims and questions of the interview evaluator *)

Section Claims.
Import Regex Interview.
Local Open Scope Q_scope.

Lemma in_flat_map_intro {A B : Type} (f : A -> list B) (l : list A) (a : A) (b : B) :
  In a l -> In b (f a) -> In b (flat_map f l).
Proof. intros Ha Hb. apply in_flat_map. exists a. split; assumption. Qed.

(** Every non-blank string of the achievements list of a job is a claim of
    that job. *)
Lemma achievement_claims_complete (job : gmap string pyval) (l : list pyval) (a : pystr) :
  job !! "achievements" = Some (VList l) -> In (VStr a) l -> strip a <> [] ->
  In (achievement_of a job) (achievement_claims job).
Proof.
  intros Hl Ha Hs. unfold achievement_claims, get_or. rewrite Hl.
  cbn [default from_option id].
  apply (in_flat_map_intro _ l (VStr a)); [exact Ha |].
  destruct (strip a) eqn:E; [congruence |]. cbn [nonempty].
  left. unfold achievement_of. rewrite E. reflexivity.
Qed.

(** Every fragment of the description of a job that is longer than ten
    characters is a claim of that job. *)
Lemma description_claims_complete (job : gmap string pyval) (d b : pystr) :
  job !! "description" = Some (VStr d) -> strip d <> [] ->
  In b (split bullet_re d) -> (10 < length (strip b))%nat ->
  In (achievement_of b job) (description_claims job).
Proof.
  intros Hd Hs Hb Hlen. unfold description_claims, get_or. rewrite Hd.
  cbn [default from_option id].
  destruct (strip d) eqn:E; [congruence |]. cbn [nonempty].
  apply (in_flat_map_intro _ (split bullet_re d) b); [exact Hb |].
  cbv beta. unfold achievement_of.
  assert (Hlt : (10 <? length (strip b))%nat = true) by (apply Nat.ltb_lt; exact Hlen).
  rewrite Hlt.
  assert (Hne : nonempty (strip b) = true).
  { destruct (strip b); [simpl in Hlen; lia | reflexivity]. }
  rewrite Hne. left. reflexivity.
Qed.

Lemma skill_fallback (l : list pystr) :
  flat_map (fun skill =>
    if nonempty skill && nonempty (strip skill) then [skill_claim skill] else []) l
  = map skill_claim (List.filter nonblank l).
Proof.
  induction l as [| s l IH]; [reflexivity |]. simpl. unfold nonblank at 1.
  destruct (nonempty s && nonempty (strip s)); simpl; rewrite IH; reflexivity.
Qed.

(** The claims the code makes of the achievements of a job are the claims
    of its non-blank achievement texts. *)
Lemma achievement_claims_texts (job : gmap string pyval) :
  achievement_claims job
  = map (fun text => _create_claim_from_text text (str_of "achievement") job)
      (achievement_texts job).
Proof.
  unfold achievement_claims, achievement_texts, get_or.
  destruct (job !! "achievements") as [v |]; [| reflexivity].
  cbn [default from_option id].
  destruct v as [| b | q | s | entries | items]; try reflexivity.
  induction entries as [| entry entries IH]; [reflexivity |].
  cbn [flat_map]. rewrite IH.
  destruct entry as [| b | q | text | l | items]; try reflexivity.
  cbn [app map List.filter]. destruct (nonempty (strip text)); reflexivity.
Qed.

(** The claims the code makes of the description of a job are the claims
    of its fragments of more than ten characters. *)
Lemma description_claims_fragments (job : gmap string pyval) :
  description_claims job
  = map (fun text => _create_claim_from_text text (str_of "achievement") job)
      (description_fragments job).
Proof.
  unfold description_claims, description_fragments, get_or.
  destruct (job !! "description") as [v |]; [| reflexivity].
  cbn [default from_option id].
  destruct v as [| b | q | description | l | items]; try reflexivity.
  destruct (nonempty (strip description)); [| reflexivity].
  induction (split bullet_re description) as [| bullet bullets IH]; [reflexivity |].
  cbn [flat_map map List.filter]. rewrite IH.
  destruct (10 <? length (strip bullet))%nat eqn:E.
  - assert (Hne : nonempty (strip bullet) = true).
    { apply Nat.ltb_lt in E. destruct (strip bullet); [simpl in E; lia | reflexivity]. }
    rewrite Hne. reflexivity.
  - rewrite Bool.andb_false_r. reflexivity.
Qed.

Lemma job_claims_amended (jobs : list (gmap string pyval)) :
  flat_map (fun job => achievement_claims job ++ description_claims job) jobs
  = flat_map amended_job_claims jobs.
Proof.
  induction jobs as [| job jobs IH]; [reflexivity |].
  cbn [flat_map]. rewrite IH. unfold amended_job_claims.
  rewrite map_app, achievement_claims_texts, description_claims_fragments. reflexivity.
Qed.

(** C5, as the code has it. The claims of a resume are, job by job and in
    this order, a claim of every non-blank string of the achievements list
    and, whether or not there are such strings, also of every fragment
    longer than ten characters that the bullet delimiters cut from a
    non-blank description: these and no others.  Only when no job gives a
    claim are they the non-blank ones of the first five skills as "skill"
    claims with defensibility 0.5 and risk "medium". *)
Theorem C5_claims_from_achievements_and_description (r : ParsedResumeInternal) :
  _extract_resume_claims r = amended_extract_resume_claims r
  /\ (forall job l a,
        In job (work_experience r) -> job !! "achievements" = Some (VList l) ->
        In (VStr a) l -> strip a <> [] ->
        In (achievement_of a job) (_extract_resume_claims r))
  /\ (forall job d b,
        In job (work_experience r) -> job !! "description" = Some (VStr d) ->
        strip d <> [] -> In b (split bullet_re d) -> (10 < length (strip b))%nat ->
        In (achievement_of b job) (_extract_resume_claims r))
  /\ (forall job text,
        In text (description_fragments job) -> (10 < length text)%nat)
  /\ (forall skill,
        claim_type (fallback_claim skill) = str_of "skill"
        /\ defensibility_score (fallback_claim skill) == 5 # 10
        /\ consistency_risk (fallback_claim skill) = Some (str_of "medium")).
Proof.
  assert (Hfound : forall c,
             In c (flat_map (fun job => achievement_claims job ++ description_claims job)
                     (work_experience r)) ->
             In c (_extract_resume_claims r)).
  { intros c Hc. unfold _extract_resume_claims.
    destruct (flat_map _ (work_experience r)) as [| c0 found]; [destruct Hc |].
    exact Hc. }
  split; [| split; [| split; [| split]]].
  - unfold _extract_resume_claims, amended_extract_resume_claims.
    rewrite <- job_claims_amended.
    destruct (flat_map (fun job => achievement_claims job ++ description_claims job)
                (work_experience r)) as [| c found]; [| reflexivity].
    cbn [nonempty negb andb app]. rewrite skill_fallback.
    destruct (skills r); reflexivity.
  - intros job l a Hjob Hl Ha Hs. apply Hfound.
    apply (in_flat_map_intro _ _ job); [exact Hjob |].
    apply in_or_app. left. apply (achievement_claims_complete job l a); assumption.
  - intros job d b Hjob Hd Hs Hb Hlen. apply Hfound.
    apply (in_flat_map_intro _ _ job); [exact Hjob |].
    apply in_or_app. right. apply (description_claims_complete job d b); assumption.
  - intros job text Hin. unfold description_fragments in Hin.
    destruct (job !! "description") as [[| | | description | |] |]; try destruct Hin.
    destruct (nonempty (strip description)); [| destruct Hin].
    apply filter_In in Hin as [_ Hlen]. apply Nat.ltb_lt in Hlen. exact Hlen.
  - intros skill. repeat split; reflexivity.
Qed.

(** C5, as the claim states it, fails. A job with the achievement "Built
    the billing system" and the description "Designed the service layer"
    gives two claims, one of them from the description, where splitting
    the description only otherwise would give one. *)
Lemma C5_counterexample :
  map claim_text (_extract_resume_claims Inputs.billing_resume)
    = [str_of "Built the billing system"; str_of "Designed the service layer"]
  /\ map claim_text (spec_extract_resume_claims Inputs.billing_resume)
     = [str_of "Built the billing system"]
  /\ _extract_resume_claims Inputs.billing_resume
     <> spec_extract_resume_claims Inputs.billing_resume.
Proof.
  split; [vm_compute; reflexivity |].
  split; [vm_compute; reflexivity |].
  intros H. apply (f_equal (@length _)) in H. vm_compute in H. discriminate H.
Qed.

(** A claim without a consistency risk raises no question. *)
Lemma no_risk_no_questions (c : ResumeClaim) :
  consistency_risk c = None -> questions_of_claim c = [].
Proof. intros H. unfold questions_of_claim, risk_is. rewrite H. reflexivity. Qed.

(** C7. A claim whose text matches the pattern of quantified metrics gets
    defensibility 0.9, depth "deep" and no consistency risk, and the
    predicted questions are the same with and without it: none is
    generated for it. *)
Theorem C7_quantified_claim_is_defensible
    (text claim_type : pystr) (job : gmap string pyval) :
  search metrics_re text = true ->
  let claim := _create_claim_from_text text claim_type job in
  defensibility_score claim == 9 # 10
  /\ depth_indicator claim = str_of "deep"
  /\ consistency_risk claim = None
  /\ (forall before after,
        _predict_interview_questions (before ++ claim :: after)
        = _predict_interview_questions (before ++ after)).
Proof.
  intros Hm. cbv zeta.
  assert (Hc : _create_claim_from_text text claim_type job
               = {| claim_text := text; claim_type := claim_type;
                    defensibility_score := 9 # 10; depth_indicator := str_of "deep";
                    consistency_risk := None;
                    supporting_evidence := _extract_supporting_evidence text |}).
  { unfold _create_claim_from_text, _evaluate_defensibility. rewrite Hm. reflexivity. }
  rewrite Hc. cbn [defensibility_score depth_indicator consistency_risk].
  split; [reflexivity |]. split; [reflexivity |]. split; [reflexivity |].
  intros before after. unfold _predict_interview_questions.
  rewrite !flat_map_app. cbn [flat_map].
  rewrite no_risk_no_questions by reflexivity. reflexivity.
Qed.

(** C7 on the claim text of the specification. *)
Lemma C7_witness :
  let claim := _create_claim_from_text Inputs.sales_claim (str_of "achievement") ∅ in
  defensibility_score claim == 9 # 10
  /\ depth_indicator claim = str_of "deep"
  /\ consistency_risk claim = None
  /\ (forall before after,
        _predict_interview_questions (before ++ claim :: after)
        = _predict_interview_questions (before ++ after)).
Proof.
  apply (C7_quantified_claim_is_defensible Inputs.sales_claim (str_of "achievement") ∅).
  vm_compute. reflexivity.
Defined.

End Claims.

(** ** The ranking of recommendations *)

Section Ranking.
Import Recommendations.
Local Open Scope Q_scope.

Lemma key_lt_spec (a b : Z * Q) :
  key_lt a b = true
  <-> (fst a < fst b)%Z \/ (fst a = fst b /\ snd a < snd b).
Proof.
  unfold key_lt. rewrite Bool.orb_true_iff, Bool.andb_true_iff.
  rewrite Z.ltb_lt, Z.eqb_eq, Qltb_true. tauto.
Qed.

Lemma key_le_spec (a b : Z * Q) :
  key_lt b a = false
  <-> (fst a < fst b)%Z \/ (fst a = fst b /\ snd a <= snd b).
Proof.
  rewrite <- Bool.not_true_iff_false, key_lt_spec. split.
  - intros H.
    destruct (Z.lt_trichotomy (fst a) (fst b)) as [Hlt | [Heq | Hgt]].
    + left. exact Hlt.
    + right. split; [exact Heq |]. apply Qnot_lt_le. intros Hs. apply H.
      right. split; [symmetry; exact Heq | exact Hs].
    + exfalso. apply H. left. exact Hgt.
  - intros [Hlt | [Heq Hle]] [Hgt | [Heq' Hs]]; try lia.
    apply (Qlt_not_le _ _ Hs). exact Hle.
Qed.

Lemma key_eq_spec (a b : Z * Q) :
  key_eq a b = true <-> fst a = fst b /\ snd a == snd b.
Proof.
  unfold key_eq. rewrite Bool.andb_true_iff, Z.eqb_eq, Qeqb_true. tauto.
Qed.

Lemma key_lt_asym (a b : Z * Q) : key_lt a b = true -> key_lt b a = false.
Proof.
  rewrite key_lt_spec, key_le_spec. intros [H | [H1 H2]]; [left; exact H |].
  right. split; [exact H1 | apply Qlt_le_weak; exact H2].
Qed.

Lemma key_le_trans (a b c : Z * Q) :
  key_lt b a = false -> key_lt c b = false -> key_lt c a = false.
Proof.
  rewrite !key_le_spec. intros [H1 | [H1 H2]] [G1 | [G1 G2]].
  - left. lia.
  - left. lia.
  - left. lia.
  - right. split; [lia | apply (Qle_trans _ (snd b)); assumption].
Qed.

(** Two keys of one class are not ordered strictly. *)
Lemma key_lt_same_class (a b k : Z * Q) :
  key_eq a k = true -> key_eq b k = true -> key_lt a b = false.
Proof.
  rewrite !key_eq_spec, key_le_spec. intros [H1 H2] [G1 G2].
  right. split; [congruence |]. rewrite G2, H2. apply Qle_refl.
Qed.

Section StableSort.
Context {A : Type} (key : A -> Z * Q).

Lemma insert_perm (x : A) (l : list A) : Permutation (insert key x l) (x :: l).
Proof.
  induction l as [| y l IH]; simpl; [reflexivity |].
  destruct (key_lt (key y) (key x)); [| reflexivity].
  rewrite IH. apply perm_swap.
Qed.

Lemma sorted_perm (l : list A) : Permutation (sorted key l) l.
Proof.
  induction l as [| x l IH]; simpl; [reflexivity |].
  rewrite insert_perm. apply perm_skip. exact IH.
Qed.

Lemma insert_hd (x y : A) (l : list A) :
  key_le key y x -> HdRel (key_le key) y l -> HdRel (key_le key) y (insert key x l).
Proof.
  intros Hyx Hl. destruct l as [| z l]; simpl.
  - constructor. exact Hyx.
  - destruct (key_lt (key z) (key x)); constructor; [| exact Hyx].
    inversion Hl; assumption.
Qed.

Lemma insert_sorted (x : A) (l : list A) :
  Sorted (key_le key) l -> Sorted (key_le key) (insert key x l).
Proof.
  induction l as [| y l IH]; intros Hl; simpl.
  - repeat constructor.
  - inversion Hl as [| ? ? Hs Hh]; subst.
    destruct (key_lt (key y) (key x)) eqn:E.
    + constructor; [apply IH; exact Hs |].
      apply insert_hd; [| exact Hh]. unfold key_le. apply key_lt_asym. exact E.
    + constructor; [exact Hl |]. constructor. exact E.
Qed.

Lemma sorted_sorted (l : list A) : Sorted (key_le key) (sorted key l).
Proof.
  induction l as [| x l IH]; simpl; [constructor |].
  apply insert_sorted. exact IH.
Qed.

Lemma key_le_transitive : Relations_1.Transitive (key_le key).
Proof. intros x y z Hxy Hyz. unfold key_le in *. eapply key_le_trans; eassumption. Qed.

(** The elements of one class keep their order: inserting puts [x] in
    front of the elements of its class. *)
Lemma insert_stable (k : Z * Q) (x : A) (l : list A) :
  List.filter (fun y => key_eq (key y) k) (insert key x l)
  = List.filter (fun y => key_eq (key y) k) (x :: l).
Proof.
  induction l as [| y l IH]; [reflexivity |]. simpl insert.
  destruct (key_lt (key y) (key x)) eqn:E; [| reflexivity].
  cbn [List.filter] in *. rewrite IH.
  destruct (key_eq (key y) k) eqn:Ey, (key_eq (key x) k) eqn:Ex; try reflexivity.
  rewrite (key_lt_same_class _ _ k Ey Ex) in E. discriminate E.
Qed.

Lemma sorted_stable (k : Z * Q) (l : list A) :
  List.filter (fun y => key_eq (key y) k) (sorted key l)
  = List.filter (fun y => key_eq (key y) k) l.
Proof.
  induction l as [| x l IH]; [reflexivity |]. simpl sorted.
  rewrite insert_stable. cbn [List.filter]. rewrite IH. reflexivity.
Qed.

End StableSort.

Lemma ranks_before_key_le (a b : Recommendation) :
  key_le sort_key a b <-> ranks_before a b.
Proof.
  unfold key_le, ranks_before. rewrite key_le_spec. unfold sort_key. cbn [fst snd].
  split; (intros [H | [H1 H2]]; [left; exact H | right; split; [exact H1 | lra]]).
Qed.

Lemma str_eqb_eq (a b : pystr) : str_eqb a b = true <-> a = b.
Proof.
  revert b. induction a as [| x a IH]; intros [| y b]; cbn [str_eqb];
    try (split; [discriminate | discriminate]); [split; reflexivity |].
  rewrite Bool.andb_true_iff, N.eqb_eq, IH. split.
  - intros [-> ->]. reflexivity.
  - intros [= -> ->]. split; reflexivity.
Qed.

Lemma str_eqb_neq (a b : pystr) : a <> b -> str_eqb a b = false.
Proof.
  intros H. destruct (str_eqb a b) eqn:E; [| reflexivity].
  apply str_eqb_eq in E. contradiction.
Qed.

(** The rank the code looks up in its table is the rank of the priority in
    the order critical, high, medium, low. *)
Lemma priority_score_rank (rec : Recommendation) :
  priority_score rec = priority_rank (priority rec).
Proof.
  unfold priority_score, priority_rank, priority_order.
  set (p := priority rec). clearbody p.
  destruct (decide (p = str_of "critical")) as [-> | H1].
  { rewrite lookup_insert. reflexivity. }
  rewrite lookup_insert_ne by congruence. rewrite (str_eqb_neq _ _ H1).
  destruct (decide (p = str_of "high")) as [-> | H2].
  { rewrite lookup_insert. reflexivity. }
  rewrite lookup_insert_ne by congruence. rewrite (str_eqb_neq _ _ H2).
  destruct (decide (p = str_of "medium")) as [-> | H3].
  { rewrite lookup_insert. reflexivity. }
  rewrite lookup_insert_ne by congruence. rewrite (str_eqb_neq _ _ H3).
  destruct (decide (p = str_of "low")) as [-> | H4].
  { rewrite lookup_singleton. reflexivity. }
  rewrite lookup_singleton_ne by congruence. reflexivity.
Qed.

(** The size the code sorts by is the absolute score delta. *)
Lemma impact_score_delta_abs (rec : Recommendation) :
  impact_score rec == absolute_delta rec.
Proof.
  unfold impact_score, absolute_delta, py_abs.
  destruct (impact_score_delta rec) as [d |]; [| reflexivity].
  destruct (Qeqb d 0) eqn:E; [| reflexivity].
  apply Qeqb_true in E. rewrite E. reflexivity.
Qed.

Lemma ranked_before_key_le (a b : Recommendation) :
  key_le sort_key a b <-> ranked_before a b.
Proof.
  rewrite ranks_before_key_le. unfold ranks_before, ranked_before.
  rewrite !priority_score_rank, !impact_score_delta_abs. reflexivity.
Qed.

Lemma same_class_key (rank : Z) (delta : Q) (rec : Recommendation) :
  key_eq (sort_key rec) (rank, - delta) = same_class rank delta rec.
Proof.
  unfold key_eq, sort_key, same_class. cbn [fst snd].
  rewrite priority_score_rank. f_equal.
  pose proof (impact_score_delta_abs rec) as Habs.
  destruct (Qeqb (absolute_delta rec) delta) eqn:E.
  - apply Qeqb_true in E. apply Qeqb_true. rewrite Habs, E. reflexivity.
  - destruct (Qeqb (- impact_score rec) (- delta)) eqn:E'; [| reflexivity].
    apply Qeqb_true in E'. rewrite Habs in E'.
    assert (Heq : absolute_delta rec == delta) by lra.
    apply Qeqb_true in Heq. congruence.
Qed.

Lemma filter_same (f g : Recommendation -> bool) (l : list Recommendation) :
  (forall x, f x = g x) -> List.filter f l = List.filter g l.
Proof.
  intros H. induction l as [| x l IH]; [reflexivity |].
  cbn [List.filter]. rewrite H, IH. reflexivity.
Qed.

(** C8. The ranking is a permutation of the generated recommendations,
    ordered by priority in the order critical, high, medium, low and,
    within one priority, by descending absolute impact_score_delta; and it
    is stable: the recommendations of one priority with one absolute delta
    stand in their generation order. *)
Theorem C8_ranking_is_a_stable_sort (recommendations : list Recommendation) :
  let ranked := _rank_recommendations recommendations in
  Permutation ranked recommendations
  /\ StronglySorted ranked_before ranked
  /\ (forall (rank : Z) (delta : Q),
        List.filter (same_class rank delta) ranked
        = List.filter (same_class rank delta) recommendations)
  /\ map priority_rank (map str_of ["critical"; "high"; "medium"; "low"]%string)
     = [0%Z; 1%Z; 2%Z; 3%Z].
Proof.
  cbv zeta. unfold _rank_recommendations.
  split; [apply sorted_perm |].
  split; [| split; [| vm_compute; reflexivity]].
  - assert (Hs : StronglySorted (key_le sort_key) (sorted sort_key recommendations)).
    { apply Sorted_StronglySorted; [apply key_le_transitive | apply sorted_sorted]. }
    induction Hs as [| a l Hl IH Hall]; constructor; [exact IH |].
    eapply List.Forall_impl; [| exact Hall].
    intros b Hb. apply ranked_before_key_le. exact Hb.
  - intros rank delta.
    rewrite <- (filter_same _ _ (sorted sort_key recommendations)
                  (same_class_key rank delta)).
    rewrite <- (filter_same _ _ recommendations (same_class_key rank delta)).
    apply (sorted_stable sort_key (rank, - delta)).
Qed.

End Ranking.

(** ** The orchestrator *)

Section Orchestration.
Import Orchestrator.
Local Open Scope Q_scope.

Context {Data : Type} (clock : nat -> Q).

(** What one round of the loop leaves in the AnalysisContext Data. *)
Lemma run_stage_spec (tick : nat) (ctx : AnalysisContext Data) (name : string)
    (m : stage_method Data) :
  keeps_bookkeeping m ->
  let running := set_status name "running" ctx in
  let st' := run_stage clock (tick, ctx) (name, m) in
  fst st' = S (S tick)
  /\ stage_statuses (snd st')
     = <[name := status_of (snd (m running))]> (<[name := "running"%string]> (stage_statuses ctx))
  /\ stage_timings (snd st')
     = <[name := clock (S tick) - clock tick]> (stage_timings ctx).
Proof.
  intros Hm. cbv zeta. unfold run_stage.
  destruct (Hm (set_status name "running" ctx)) as [Hs Ht].
  destruct (m (set_status name "running" ctx)) as [ctx' e].
  cbn [fst snd] in *. destruct e; cbn [fst snd stage_statuses stage_timings set_timing
    set_status status_of]; rewrite Hs, Ht; repeat split.
Qed.

(** The entries of the other stages are not touched by a round. *)
Lemma run_stage_frame (st : nat * AnalysisContext Data) (name other : string)
    (m : stage_method Data) :
  keeps_bookkeeping m -> name <> other ->
  stage_statuses (snd (run_stage clock st (name, m))) !! other
    = stage_statuses (snd st) !! other
  /\ stage_timings (snd (run_stage clock st (name, m))) !! other
     = stage_timings (snd st) !! other.
Proof.
  intros Hm Hne. destruct st as [tick ctx].
  destruct (run_stage_spec tick ctx name m Hm) as (_ & Hs & Ht).
  rewrite Hs, Ht. cbn [snd].
  rewrite !lookup_insert_ne by exact Hne. split; reflexivity.
Qed.

Lemma run_stages_frame (l : list (string * stage_method Data))
    (st : nat * AnalysisContext Data) (other : string) :
  (forall name m, In (name, m) l -> keeps_bookkeeping m) ->
  ~ In other (map fst l) ->
  stage_statuses (snd (run_stages clock l st)) !! other = stage_statuses (snd st) !! other
  /\ stage_timings (snd (run_stages clock l st)) !! other = stage_timings (snd st) !! other.
Proof.
  revert st. induction l as [| [name m] l IH]; intros st Hk Hnot; [split; reflexivity |].
  cbn [run_stages fold_left]. fold (run_stages clock l (run_stage clock st (name, m))).
  assert (Hne : name <> other) by (intros ->; apply Hnot; left; reflexivity).
  destruct (IH (run_stage clock st (name, m))) as [Hs Ht].
  - intros n' m' Hin. apply (Hk n' m'). right. exact Hin.
  - intros Hin. apply Hnot. right. exact Hin.
  - destruct (run_stage_frame st name other m) as [Hs' Ht']; [| exact Hne |].
    + apply (Hk name m). left. reflexivity.
    + rewrite Hs, Ht, Hs', Ht'. split; reflexivity.
Qed.

Lemma run_stages_ticks (l : list (string * stage_method Data))
    (st : nat * AnalysisContext Data) :
  fst (run_stages clock l st) = (fst st + 2 * length l)%nat.
Proof.
  revert st. induction l as [| [name m] l IH]; intros [tick ctx]; simpl; [lia |].
  fold (run_stages clock l). rewrite IH. unfold run_stage.
  destruct (m (set_status name "running" ctx)) as [ctx' e]. destruct e; simpl; lia.
Qed.

(** The [k]-th stage of a list of stages with distinct names: it is called
    on the context its predecessors left, whatever their endings, and its
    status and duration are those of that call at the end of the loop. *)
Lemma run_stages_spec (l : list (string * stage_method Data))
    (st : nat * AnalysisContext Data) (k : nat) (name : string) (m : stage_method Data) :
  List.NoDup (map fst l) ->
  (forall name m, In (name, m) l -> keeps_bookkeeping m) ->
  nth_error l k = Some (name, m) ->
  let before := run_stages clock (firstn k l) st in
  let final := snd (run_stages clock l st) in
  fst before = (fst st + 2 * k)%nat
  /\ stage_statuses final !! name
     = Some (status_of (snd (m (set_status name "running" (snd before)))))
  /\ stage_timings final !! name
     = Some (clock (S (fst before)) - clock (fst before)).
Proof.
  revert st k. induction l as [| [n0 m0] l IH]; intros st k Hnd Hk Hnth.
  - destruct k; discriminate Hnth.
  - cbn [map fst] in Hnd. inversion Hnd as [| ? ? Hnotin Hnd']; subst.
    destruct k as [| k].
    + injection Hnth as -> ->. cbv zeta. cbn [firstn run_stages fold_left].
      fold (run_stages clock l (run_stage clock st (name, m))).
      destruct (run_stages_frame l (run_stage clock st (name, m)) name) as [Hs Ht].
      * intros n' m' Hin. apply (Hk n' m'). right. exact Hin.
      * exact Hnotin.
      * destruct st as [tick ctx].
        destruct (run_stage_spec tick ctx name m) as (_ & Hs' & Ht').
        { apply (Hk name m). left. reflexivity. }
        rewrite Hs, Ht, Hs', Ht'. cbn [fst snd].
        rewrite !lookup_insert_eq. split; [lia | split; reflexivity].
    + cbn [nth_error] in Hnth. cbv zeta. cbn [firstn run_stages fold_left].
      fold (run_stages clock (firstn k l) (run_stage clock st (n0, m0))).
      fold (run_stages clock l (run_stage clock st (n0, m0))).
      destruct (IH (run_stage clock st (n0, m0)) k Hnd') as (Htick & Hs & Ht).
      * intros n' m' Hin. apply (Hk n' m'). right. exact Hin.
      * exact Hnth.
      * split; [| split; assumption].
        rewrite Htick. destruct st as [tick ctx]. unfold run_stage.
        destruct (m0 (set_status n0 "running" ctx)) as [ctx' e]. destruct e; simpl; lia.
Qed.

Lemma stages_distinct (self : StageMethods Data) : List.NoDup (map fst (stages self)).
Proof.
  cbn [stages map fst].
  repeat (apply List.NoDup_cons; [cbn [In]; intuition discriminate |]).
  apply List.NoDup_nil.
Qed.

(** C9. Every stage of the fixed list is called, on the context its
    predecessors left and whatever their endings were; after the run its
    status is "success" when its method returned and "failed" when an
    exception left it, and its duration, the difference of the two clock
    readings around the call, is recorded. *)
Theorem C9_every_stage_runs_and_is_timed
    (self : StageMethods Data) (utcnow : Q) (ctx : AnalysisContext Data)
    (k : nat) (name : string) (m : stage_method Data) :
  (forall name m, In (name, m) (stages self) -> keeps_bookkeeping m) ->
  nth_error (stages self) k = Some (name, m) ->
  let final := run clock self utcnow ctx in
  let before := run_stages clock (firstn k (stages self)) (O, ensure_start_time utcnow ctx) in
  let ending := snd (m (set_status name "running" (snd before))) in
  (stage_statuses final !! name = Some "success"%string
   \/ stage_statuses final !! name = Some "failed"%string)
  /\ (ending = RaisesException <-> stage_statuses final !! name = Some "failed"%string)
  /\ fst before = (2 * k)%nat
  /\ stage_timings final !! name = Some (clock (S (2 * k)) - clock (2 * k)).
Proof.
  intros Hk Hnth. cbv zeta. unfold run.
  destruct (run_stages_spec (stages self) (O, ensure_start_time utcnow ctx) k name m
              (stages_distinct self) Hk Hnth) as (Htick & Hs & Ht).
  cbn [fst] in Htick. rewrite Htick in Ht.
  change (0 + 2 * k)%nat with (2 * k)%nat in *.
  rewrite Hs, Ht, Htick.
  destruct (snd (m (set_status name "running"
                     (snd (run_stages clock (firstn k (stages self))
                             (O, ensure_start_time utcnow ctx))))));
    cbn [status_of].
  - split; [left; reflexivity |].
    split; [split; intros H; discriminate H |].
    split; reflexivity.
  - split; [right; reflexivity |].
    split; [split; reflexivity |].
    split; reflexivity.
Qed.

End Orchestration.

(** C9 on the methods of the source, which all raise: the sixth stage,
    "scoring", is still reached after five failures, fails as well and is
    timed. *)
Lemma C9_witness :
  let final := Orchestrator.run Inputs.second_clock Orchestrator.source_methods
                 0 Inputs.fresh_context in
  let before := Orchestrator.run_stages Inputs.second_clock
                  (firstn 5 (Orchestrator.stages Orchestrator.source_methods))
                  (O, Orchestrator.ensure_start_time 0 Inputs.fresh_context) in
  let ending := snd (Orchestrator.not_implemented
                       (Orchestrator.set_status "scoring" "running" (snd before))) in
  (Orchestrator.stage_statuses final !! "scoring"%string = Some "success"%string
   \/ Orchestrator.stage_statuses final !! "scoring"%string = Some "failed"%string)
  /\ (ending = Orchestrator.RaisesException
      <-> Orchestrator.stage_statuses final !! "scoring"%string = Some "failed"%string)
  /\ fst before = (2 * 5)%nat
  /\ Orchestrator.stage_timings final !! "scoring"%string
     = Some (Inputs.second_clock (S (2 * 5)) - Inputs.second_clock (2 * 5))%Q.
Proof.
  apply (C9_every_stage_runs_and_is_timed Inputs.second_clock Orchestrator.source_methods
           0 Inputs.fresh_context 5 "scoring" Orchestrator.not_implemented).
  - intros name m Hin. simpl in Hin.
    repeat destruct Hin as [Hin | Hin]; try contradiction;
      injection Hin as _ <-; intros c; split; reflexivity.
  - reflexivity.
Defined.

(** ** Two runs of the interview evaluator *)

Section TwoRuns.
Import Interview.
Local Open Scope Q_scope.

Lemma deduct_risk_severity (risks risks' : list ConsistencyRisk) (score : Q) :
  map severity risks = map severity risks' ->
  fold_left deduct_risk risks score = fold_left deduct_risk risks' score.
Proof.
  revert risks' score. induction risks as [| k risks IH]; intros [| k' risks'] score H;
    try discriminate H; [reflexivity |].
  injection H as Hk H. simpl. unfold deduct_risk at 2 4. rewrite Hk. apply IH. exact H.
Qed.

(** Whatever the iteration order of sets, a run gives the same score,
    claims, questions, and kinds and severities of risks; the order reaches
    the description of the skill_depth_mismatch risk only. *)
Lemma evaluate_scores_independent_of_order (o1 o2 : iteration_order)
    (r : ParsedResumeInternal) (fv : Features.FeatureVectorInternal) :
  outcome_map scored_part (evaluate o1 r fv) = outcome_map scored_part (evaluate o2 r fv).
Proof.
  unfold evaluate, _identify_consistency_risks.
  destruct (skills_used (skills r) (work_experience r) ∅) as [used | e]; [| reflexivity].
  cbn [bind outcome_map]. unfold scored_part.
  cbn [readiness_score resume_claims predicted_questions consistency_risks].
  destruct (nonempty (elements (list_to_set (map lower (skills r)) ∖ used)));
    [| reflexivity];
    unfold _compute_readiness_score;
    match goal with
    | |- Ok (py_max 0 (py_min 100 (round2 (fold_left deduct_risk ?a ?s))), _, _, _)
         = Ok (py_max 0 (py_min 100 (round2 (fold_left deduct_risk ?b ?s))), _, _, _) =>
        assert (Hsev : map severity a = map severity b)
          by (rewrite !map_app; reflexivity);
        assert (Hkind : map (fun risk => (risk_type risk, severity risk)) a
                        = map (fun risk => (risk_type risk, severity risk)) b)
          by (rewrite !map_app; reflexivity);
        rewrite (deduct_risk_severity a b s Hsev), Hkind; reflexivity
    end.
Qed.

(** C6 at a failing input. For the resume with the skills "python" and
    "sql", neither of which its job mentions, the two iteration orders of
    the set of unused skills give two different results: the description
    of the skill_depth_mismatch risk lists the skills in either order. *)
Theorem C6_interview_output_depends_on_set_order :
  admissible Inputs.listed_order /\ admissible Inputs.reversed_order
  /\ outcome_map (fun res => map description (consistency_risks res))
       (evaluate Inputs.listed_order Inputs.billing_resume Features.empty_features)
     = Ok [str_of "Skills listed but not mentioned in work experience: python, sql"]
  /\ outcome_map (fun res => map description (consistency_risks res))
       (evaluate Inputs.reversed_order Inputs.billing_resume Features.empty_features)
     = Ok [str_of "Skills listed but not mentioned in work experience: sql, python"]
  /\ evaluate Inputs.listed_order Inputs.billing_resume Features.empty_features
     <> evaluate Inputs.reversed_order Inputs.billing_resume Features.empty_features.
Proof.
  split; [intros l; reflexivity |].
  split; [intros l; symmetry; apply Permutation_rev |].
  split; [vm_compute; reflexivity |].
  split; [vm_compute; reflexivity |].
  intros H.
  apply (f_equal (outcome_map (fun res => map description (consistency_risks res)))) in H.
  vm_compute in H. discriminate H.
Qed.

End TwoRuns.

(** * Further properties of the code *)

(** ** Rounding to two decimals *)

Section RoundingBounds.
Local Open Scope Q_scope.

Lemma round_half_even_floor (q : Q) :
  round_half_even q = (Qnum q / Z.pos (Qden q))%Z
  \/ (round_half_even q = (Qnum q / Z.pos (Qden q) + 1)%Z
      /\ (Z.pos (Qden q) <= 2 * (Qnum q mod Z.pos (Qden q)))%Z).
Proof.
  unfold round_half_even.
  destruct (Z.compare_spec (2 * (Qnum q mod Z.pos (Qden q))) (Z.pos (Qden q)))
    as [H | H | H].
  - destruct (Z.even (Qnum q / Z.pos (Qden q))); [left; reflexivity |].
    right. split; [reflexivity | lia].
  - left. reflexivity.
  - right. split; [reflexivity | lia].
Qed.

Lemma round_half_even_ge (n : Z) (q : Q) : inject_Z n <= q -> (n <= round_half_even q)%Z.
Proof.
  destruct q as [a d]. unfold Qle. cbn [Qnum Qden inject_Z]. intros H.
  assert (Hf : (n <= a / Z.pos d)%Z) by (apply Z.div_le_lower_bound; lia).
  destruct (round_half_even_floor (a # d)) as [-> | [-> _]]; cbn [Qnum Qden]; lia.
Qed.

Lemma round_half_even_le (n : Z) (q : Q) : q <= inject_Z n -> (round_half_even q <= n)%Z.
Proof.
  destruct q as [a d]. unfold Qle. cbn [Qnum Qden inject_Z]. intros H.
  assert (Ha : (a <= n * Z.pos d)%Z) by lia.
  pose proof (Z.div_mod a (Z.pos d)) as Hdm.
  pose proof (Z.mod_pos_bound a (Z.pos d)) as Hm.
  destruct (round_half_even_floor (a # d)) as [-> | [-> Hhalf]]; cbn [Qnum Qden] in *; nia.
Qed.

Lemma round_half_even_integer (n : Z) : round_half_even (inject_Z n) = n.
Proof.
  apply Z.le_antisymm.
  - apply round_half_even_le. apply Qle_refl.
  - apply round_half_even_ge. apply Qle_refl.
Qed.



(** Rounding keeps a value between two bounds that have two decimals. *)
Lemma round2_ge (n : Z) (q : Q) : inject_Z n / 100 <= q -> inject_Z n / 100 <= round2 q.
Proof.
  intros H. unfold round2.
  change (inject_Z n / 100) with (inject_Z n * (1 # 100)) in *.
  assert (Hn : (n <= round_half_even (q * 100))%Z).
  { apply round_half_even_ge. lra. }
  assert (Hq : inject_Z n <= inject_Z (round_half_even (q * 100)))
    by (rewrite <- Zle_Qle; exact Hn).
  set (m := inject_Z (round_half_even (q * 100))) in *.
  change (m / 100) with (m * (1 # 100)). lra.
Qed.

Lemma round2_le (n : Z) (q : Q) : q <= inject_Z n / 100 -> round2 q <= inject_Z n / 100.
Proof.
  intros H. unfold round2.
  change (inject_Z n / 100) with (inject_Z n * (1 # 100)) in *.
  assert (Hn : (round_half_even (q * 100) <= n)%Z).
  { apply round_half_even_le. lra. }
  assert (Hq : inject_Z (round_half_even (q * 100)) <= inject_Z n)
    by (rewrite <- Zle_Qle; exact Hn).
  set (m := inject_Z (round_half_even (q * 100))) in *.
  change (m / 100) with (m * (1 # 100)). lra.
Qed.

(** A value with two decimals is not changed by the rounding. *)
Lemma round2_exact (n : Z) (q : Q) : q == inject_Z n / 100 -> round2 q == q.
Proof.
  intros H. unfold round2.
  rewrite (round_half_even_compat (q * 100) (inject_Z n)) by (rewrite H; field).
  rewrite round_half_even_integer. rewrite H. reflexivity.
Qed.

Lemma round2_le_100 (q : Q) : q <= 100 -> round2 q <= 100.
Proof.
  intros H. pose proof (round2_le 10000 q) as H'.
  change (inject_Z 10000 / 100) with (10000 # 100) in H'.
  assert (Hq : q <= 10000 # 100) by lra. specialize (H' Hq). lra.
Qed.

Lemma round2_ge_100 (q : Q) : 100 <= q -> 100 <= round2 q.
Proof.
  intros H. pose proof (round2_ge 10000 q) as H'.
  change (inject_Z 10000 / 100) with (10000 # 100) in H'.
  assert (Hq : 10000 # 100 <= q) by lra. specialize (H' Hq). lra.
Qed.

Lemma round2_ge_0 (q : Q) : 0 <= q -> 0 <= round2 q.
Proof.
  intros H. pose proof (round2_ge 0 q) as H'.
  change (inject_Z 0 / 100) with (0 # 100) in H'.
  assert (Hq : 0 # 100 <= q) by lra. specialize (H' Hq). lra.
Qed.

Lemma inject_Z_hundredths (n : Z) : inject_Z (n * 100) / 100 == inject_Z n.
Proof. rewrite inject_Z_mult. change (inject_Z 100) with 100. field. Qed.

(** Rounding keeps a value on its side of an integer. *)
Lemma round2_le_int (n : Z) (q : Q) : q <= inject_Z n -> round2 q <= inject_Z n.
Proof.
  intros H. rewrite <- (inject_Z_hundredths n). apply round2_le.
  rewrite inject_Z_hundredths. exact H.
Qed.

Lemma round2_ge_int (n : Z) (q : Q) : inject_Z n <= q -> inject_Z n <= round2 q.
Proof.
  intros H. rewrite <- (inject_Z_hundredths n). apply round2_ge.
  rewrite inject_Z_hundredths. exact H.
Qed.

(** An integer is not changed by the rounding. *)
Lemma round2_int (n : Z) (q : Q) : q == inject_Z n -> round2 q == inject_Z n.
Proof.
  intros H. rewrite (round2_exact (n * 100) q); [exact H |].
  rewrite inject_Z_hundredths. exact H.
Qed.

End RoundingBounds.

(** ** Results of the ATS simulator *)

Section ATSResults.
Import Features ATS.
Local Open Scope Q_scope.

Lemma reject_if_reasons (b : bool) (msg : string) (res : ATSResultInternal) :
  rejection_reasons (reject_if b msg res) = rejection_reasons res ++ reasons_if b msg.
Proof. destruct b; simpl; [reflexivity | rewrite app_nil_r; reflexivity]. Qed.

Lemma check_required_fields_reasons (r : ParsedResumeInternal) (res : ATSResultInternal) :
  rejection_reasons (snd (_check_required_fields r res))
  = rejection_reasons res
    ++ reasons_if (negb (field_present (email r))) "Missing required field: email"
    ++ reasons_if (negb (field_present (phone r))) "Missing required field: phone"
    ++ reasons_if (negb (nonempty (work_experience r))) "Missing required field: work history".
Proof.
  unfold _check_required_fields. rewrite !nonempty_zlen. cbn [snd].
  rewrite !reject_if_reasons, <- !app_assoc. reflexivity.
Qed.

Lemma check_hard_filters_reasons (fv : FeatureVectorInternal) (res : ATSResultInternal) :
  rejection_reasons (snd (_check_hard_filters fv res))
  = rejection_reasons res
    ++ reasons_if (failed (has_required_skills (categorical fv)))
         "Hard filter failed: missing required skills"
    ++ reasons_if (failed (has_required_degree (categorical fv)))
         "Hard filter failed: missing required education".
Proof.
  unfold _check_hard_filters.
  destruct (has_required_skills (categorical fv)) as [[|] |],
           (has_required_degree (categorical fv)) as [[|] |];
    cbn [snd failed negb reject_if reject rejection_reasons reasons_if];
    rewrite <- ?app_assoc, ?app_nil_r; reflexivity.
Qed.

Lemma compute_keyword_matching_reasons (r : ParsedResumeInternal)
    (jd : ParsedJobDescriptionInternal) (fv : FeatureVectorInternal)
    (res : ATSResultInternal) :
  rejection_reasons (snd (_compute_keyword_matching r jd fv res))
  = rejection_reasons res ++ shortfall_reason (fst (_compute_keyword_matching r jd fv res)).
Proof.
  unfold _compute_keyword_matching, shortfall_reason.
  destruct (zlen (required_skills jd) =? 0)%Z eqn:E.
  - apply Z.eqb_eq in E. cbn [fst snd total_matched total_required]. rewrite E.
    cbn [Z.ltb Z.compare]. rewrite app_nil_r. reflexivity.
  - cbn [fst snd total_matched total_required missing_keywords].
    match goal with
    | |- context [if ?b then _ else _] => destruct b
    end; simpl; [reflexivity | rewrite app_nil_r; reflexivity].
Qed.

(** The reasons the three steps of a simulation leave, in their order. *)
Lemma simulate_reasons
    (r : ParsedResumeInternal) (jd : ParsedJobDescriptionInternal)
    (fv : FeatureVectorInternal) (t : pystr) :
  rejection_reasons (simulate r jd fv t)
  = reasons_if (negb (field_present (email r))) "Missing required field: email"
    ++ reasons_if (negb (field_present (phone r))) "Missing required field: phone"
    ++ reasons_if (negb (nonempty (work_experience r))) "Missing required field: work history"
    ++ reasons_if (failed (has_required_skills (categorical fv)))
         "Hard filter failed: missing required skills"
    ++ reasons_if (failed (has_required_degree (categorical fv)))
         "Hard filter failed: missing required education"
    ++ shortfall_reason (keyword_breakdown (simulate r jd fv t)).
Proof.
  unfold simulate.
  pose proof (check_required_fields_reasons r (set_ats_type t empty_result)) as H1.
  destruct (_check_required_fields r (set_ats_type t empty_result)) as [status res1].
  pose proof (check_hard_filters_reasons fv (set_required_fields_status status res1)) as H2.
  destruct (_check_hard_filters fv (set_required_fields_status status res1))
    as [filters res2].
  pose proof (compute_keyword_matching_reasons r jd fv (set_hard_filters filters res2)) as H3.
  destruct (_compute_keyword_matching r jd fv (set_hard_filters filters res2))
    as [breakdown res3].
  cbn [fst snd rejection_reasons keyword_breakdown set_compatibility_score
       set_keyword_match_percentage set_keyword_breakdown set_hard_filters
       set_required_fields_status set_ats_type empty_result] in *.
  rewrite H3, H2, H1. cbn [app]. rewrite <- !app_assoc. reflexivity.
Qed.

Lemma reasons_if_length (b : bool) (msg : string) : (length (reasons_if b msg) <= 1)%nat.
Proof. destruct b; simpl; lia. Qed.

Lemma shortfall_reason_length (b : ATSKeywordBreakdown) :
  (length (shortfall_reason b) <= 1)%nat.
Proof. unfold shortfall_reason. destruct (total_matched b <? total_required b)%Z; simpl; lia. Qed.

(** X1. The rejection reasons of a simulation are, in this order, the
    reasons for a missing email, phone and work history, for a failed skills
    and education filter, and for a keyword shortfall, each one present
    exactly when its check fails; there are at most six. *)
Theorem X1_rejection_reasons_in_order
    (r : ParsedResumeInternal) (jd : ParsedJobDescriptionInternal)
    (fv : FeatureVectorInternal) (t : pystr) :
  let res := simulate r jd fv t in
  rejection_reasons res
  = reasons_if (negb (field_present (email r))) "Missing required field: email"
    ++ reasons_if (negb (field_present (phone r))) "Missing required field: phone"
    ++ reasons_if (negb (nonempty (work_experience r))) "Missing required field: work history"
    ++ reasons_if (failed (has_required_skills (categorical fv)))
         "Hard filter failed: missing required skills"
    ++ reasons_if (failed (has_required_degree (categorical fv)))
         "Hard filter failed: missing required education"
    ++ shortfall_reason (keyword_breakdown res)
  /\ (length (rejection_reasons res) <= 6)%nat.
Proof.
  cbv zeta. split; [apply simulate_reasons |].
  rewrite simulate_reasons, !length_app.
  pose proof (shortfall_reason_length (keyword_breakdown (simulate r jd fv t))).
  repeat match goal with
    | |- context [length (reasons_if ?b ?m)] =>
        let H := fresh "Hlen" in
        pose proof (reasons_if_length b m) as H;
        generalize dependent (length (reasons_if b m)); intros
    end.
  lia.
Qed.

(** X2. The compatibility score of every simulation, whatever the feature
    vector, lies between 0 and 100. *)
Theorem X2_compatibility_score_bounds
    (r : ParsedResumeInternal) (jd : ParsedJobDescriptionInternal)
    (fv : FeatureVectorInternal) (t : pystr) :
  0 <= compatibility_score (simulate r jd fv t) <= 100.
Proof.
  destruct (simulate_facts r jd fv t) as (_ & _ & _ & (hf & Hhf & _) & _ & _ & Hscore).
  rewrite Hscore.
  assert (Hhf' : hard_filters (set_compatibility_score 0 (simulate r jd fv t)) = Some hf)
    by exact Hhf.
  rewrite (score_formula _ hf Hhf'). unfold spec_compatibility_score.
  split; [apply py_max_ge_l |].
  apply py_max_lub; [lra |].
  apply round2_le_100.
  match goal with
  | |- context [if Qltb ?k 60 then _ else _] =>
      destruct (Qltb k 60) eqn:Ek;
      [apply Qltb_true in Ek;
       destruct (py_min_cases 20 (60 - k)) as [[Hm ->] | [Hm ->]] |]
  end;
    unfold deduction;
    repeat match goal with
      | |- context [if ?b then _ else _] => destruct b
      end; lra.
Qed.

Lemma keyword_matching_breakdown_any (r : ParsedResumeInternal)
    (jd : ParsedJobDescriptionInternal) (fv : FeatureVectorInternal)
    (res res' : ATSResultInternal) :
  fst (_compute_keyword_matching r jd fv res) = fst (_compute_keyword_matching r jd fv res').
Proof.
  unfold _compute_keyword_matching.
  destruct (zlen (required_skills jd) =? 0)%Z; reflexivity.
Qed.

Lemma simulate_breakdown (r : ParsedResumeInternal) (jd : ParsedJobDescriptionInternal)
    (fv : FeatureVectorInternal) (t : pystr) :
  keyword_breakdown (simulate r jd fv t)
  = fst (_compute_keyword_matching r jd fv empty_result).
Proof.
  destruct (simulate_facts r jd fv t) as (_ & _ & _ & _ & Hbd & _).
  rewrite Hbd. apply keyword_matching_breakdown_any.
Qed.

Lemma simulate_percentage (r : ParsedResumeInternal) (jd : ParsedJobDescriptionInternal)
    (fv : FeatureVectorInternal) (t : pystr) :
  keyword_match_percentage (simulate r jd fv t)
  = _calculate_keyword_match_percentage (keyword_breakdown (simulate r jd fv t)).
Proof. apply (simulate_facts r jd fv t). Qed.

Lemma zlen_nonneg {A : Type} (l : list A) : (0 <= zlen l)%Z.
Proof. unfold zlen. lia. Qed.

Lemma zlen_zero {A : Type} (l : list A) : zlen l = 0%Z <-> l = [].
Proof.
  unfold zlen. destruct l; simpl; split; intros H; try reflexivity; try discriminate; lia.
Qed.

Lemma breakdown_required (r : ParsedResumeInternal) (jd : ParsedJobDescriptionInternal)
    (fv : FeatureVectorInternal) (res : ATSResultInternal) :
  total_required (fst (_compute_keyword_matching r jd fv res)) = zlen (required_skills jd).
Proof.
  unfold _compute_keyword_matching.
  destruct (zlen (required_skills jd) =? 0)%Z; reflexivity.
Qed.

(** The percentage of a breakdown with at least as many matches as
    requirements is 100 or more; with no more matches than requirements it
    lies between 0 and 100. *)
Lemma percentage_full (b : ATSKeywordBreakdown) :
  (0 <= total_required b <= total_matched b)%Z ->
  100 <= _calculate_keyword_match_percentage b.
Proof.
  intros [H0 H1]. unfold _calculate_keyword_match_percentage.
  destruct (total_required b =? 0)%Z eqn:E; [lra |].
  apply Z.eqb_neq in E. apply round2_ge_100.
  assert (Hr : 0 < inject_Z (total_required b)).
  { change 0 with (inject_Z 0). rewrite <- Zlt_Qlt. lia. }
  assert (Hm : inject_Z (total_required b) <= inject_Z (total_matched b))
    by (rewrite <- Zle_Qle; exact H1).
  assert (Hq : 1 <= inject_Z (total_matched b) / inject_Z (total_required b)).
  { apply Qle_shift_div_l; [exact Hr | lra]. }
  set (x := inject_Z (total_matched b) / inject_Z (total_required b)) in *. lra.
Qed.

Lemma percentage_bounds (b : ATSKeywordBreakdown) :
  (0 <= total_matched b <= total_required b)%Z ->
  0 <= _calculate_keyword_match_percentage b <= 100.
Proof.
  intros [H0 H1]. unfold _calculate_keyword_match_percentage.
  destruct (total_required b =? 0)%Z eqn:E; [lra |].
  apply Z.eqb_neq in E.
  assert (Hr : 0 < inject_Z (total_required b)).
  { change 0 with (inject_Z 0). rewrite <- Zlt_Qlt. lia. }
  assert (Hm : inject_Z (total_matched b) <= inject_Z (total_required b))
    by (rewrite <- Zle_Qle; exact H1).
  assert (Hm0 : 0 <= inject_Z (total_matched b)).
  { change 0 with (inject_Z 0). rewrite <- Zle_Qle. exact H0. }
  assert (Hq : 0 <= inject_Z (total_matched b) / inject_Z (total_required b) <= 1).
  { split.
    - apply Qle_shift_div_l; [exact Hr | lra].
    - apply Qle_shift_div_r; [exact Hr | lra]. }
  set (x := inject_Z (total_matched b) / inject_Z (total_required b)) in *.
  split; [apply round2_ge_0 | apply round2_le_100]; lra.
Qed.

Lemma reasons_if_nil (b : bool) (msg : string) : reasons_if b msg = [] -> b = false.
Proof. destruct b; [discriminate | reflexivity]. Qed.

(** X3. A simulation that records no rejection reason has the
    compatibility score 100, whatever the feature vector. *)
Theorem X3_no_rejection_reason_full_score
    (r : ParsedResumeInternal) (jd : ParsedJobDescriptionInternal)
    (fv : FeatureVectorInternal) (t : pystr) :
  rejection_reasons (simulate r jd fv t) = [] ->
  compatibility_score (simulate r jd fv t) == 100.
Proof.
  intros Hnone. rewrite simulate_reasons in Hnone.
  repeat (apply app_eq_nil in Hnone; destruct Hnone as [?H Hnone]).
  repeat match goal with
    | H : reasons_if _ _ = [] |- _ => apply reasons_if_nil in H
    end.
  destruct (simulate_facts r jd fv t)
    as (He & Hp & Hw & (hf & Hhf & Hx & Hd) & _ & Hkmp & Hscore).
  assert (Hfull : 100 <= keyword_match_percentage (simulate r jd fv t)).
  { rewrite Hkmp. apply percentage_full.
    rewrite simulate_breakdown, breakdown_required.
    split; [apply zlen_nonneg |].
    unfold shortfall_reason in Hnone. rewrite simulate_breakdown in Hnone.
    rewrite breakdown_required in Hnone.
    destruct (total_matched (fst (_compute_keyword_matching r jd fv empty_result))
              <? zlen (required_skills jd))%Z eqn:E; [discriminate Hnone |].
    apply Z.ltb_ge in E. exact E. }
  rewrite Hscore.
  assert (Hhf' : hard_filters (set_compatibility_score 0 (simulate r jd fv t)) = Some hf)
    by exact Hhf.
  rewrite (score_formula _ hf Hhf'). unfold spec_compatibility_score.
  cbn [required_fields_status keyword_match_percentage set_compatibility_score].
  rewrite He, Hp, Hw, Hx, Hd.
  repeat match goal with
    | H : ?b = false |- context [deduction ?b _] => rewrite H
    end.
  assert (Hk : Qltb (keyword_match_percentage (simulate r jd fv t)) 60 = false)
    by (apply Qltb_false; lra).
  rewrite Hk. cbn [deduction].
  rewrite (round2_compat _ 100) by lra.
  vm_compute. reflexivity.
Qed.

(** X3 on a resume with contact data, a job, the required skill and the
    required degree. *)
Lemma X3_witness :
  compatibility_score
    (simulate Inputs.complete_resume Inputs.python_degree_job
       (extract Inputs.complete_resume Inputs.python_degree_job) (str_of "generic")) == 100.
Proof.
  apply X3_no_rejection_reason_full_score. vm_compute. reflexivity.
Defined.

Lemma in_reasons_if (msg : string) : In (str_of msg) (reasons_if true msg).
Proof. left. reflexivity. Qed.

(** X4. With the features the extractor computes, a job description that
    names no required skills and no required education makes every resume
    fail both hard filters: both rejection reasons are recorded and the
    compatibility score is at most 65, although the keyword match
    percentage is 100. *)
Theorem X4_no_requirements_fail_both_filters
    (r : ParsedResumeInternal) (jd : ParsedJobDescriptionInternal) (t : pystr) :
  required_skills jd = [] -> required_education jd = None ->
  let res := simulate r jd (extract r jd) t in
  In (str_of "Hard filter failed: missing required skills") (rejection_reasons res)
  /\ In (str_of "Hard filter failed: missing required education") (rejection_reasons res)
  /\ keyword_match_percentage res = 100
  /\ compatibility_score res <= 65.
Proof.
  intros Hskills Hedu. cbv zeta.
  destruct (extract_fields r jd) as (_ & Hsk & Hdg).
  assert (Hs : has_required_skills (categorical (extract r jd)) = Some false).
  { rewrite Hsk. unfold _compute_has_required_skills. rewrite Hskills.
    cbn [nonempty negb]. rewrite Bool.orb_true_r. reflexivity. }
  assert (Hd : has_required_degree (categorical (extract r jd)) = Some false).
  { rewrite Hdg. unfold _compute_has_required_degree. rewrite Hedu. reflexivity. }
  assert (Hk : keyword_match_percentage (simulate r jd (extract r jd) t) = 100).
  { rewrite simulate_percentage, simulate_breakdown.
    unfold _calculate_keyword_match_percentage. rewrite breakdown_required, Hskills.
    reflexivity. }
  split; [| split; [| split; [exact Hk |]]].
  - rewrite simulate_reasons, Hs. cbn [failed].
    do 3 (apply in_or_app; right). apply in_or_app. left. apply in_reasons_if.
  - rewrite simulate_reasons, Hd. cbn [failed].
    do 4 (apply in_or_app; right). apply in_or_app. left. apply in_reasons_if.
  - destruct (simulate_facts r jd (extract r jd) t)
      as (_ & _ & _ & (hf & Hhf & Hx & Hdm) & _ & _ & Hscore).
    rewrite Hscore.
    assert (Hhf' : hard_filters (set_compatibility_score 0
                                   (simulate r jd (extract r jd) t)) = Some hf)
      by exact Hhf.
    rewrite (score_formula _ hf Hhf'), Hx, Hdm, Hs, Hd. unfold spec_compatibility_score.
    cbn [keyword_match_percentage set_compatibility_score failed deduction]. rewrite Hk.
    apply py_max_lub; [lra |]. apply (round2_le_int 65).
    change (Qltb 100 60) with false. cbv iota. unfold deduction.
    repeat match goal with
      | |- context [if ?b then _ else _] => destruct b
      end; change (inject_Z 65) with 65; lra.
Qed.

(** X4 on the resume without contact data and the job description without
    requirements. *)
Lemma X4_witness :
  let res := simulate Inputs.no_contact_resume Inputs.open_job
               (extract Inputs.no_contact_resume Inputs.open_job) (str_of "generic") in
  In (str_of "Hard filter failed: missing required skills") (rejection_reasons res)
  /\ In (str_of "Hard filter failed: missing required education") (rejection_reasons res)
  /\ keyword_match_percentage res = 100
  /\ compatibility_score res <= 65.
Proof.
  apply (X4_no_requirements_fail_both_filters
           Inputs.no_contact_resume Inputs.open_job (str_of "generic")); reflexivity.
Defined.

Lemma filter_partition {A : Type} (f : A -> bool) (l : list A) :
  Permutation (List.filter f l ++ List.filter (fun x => negb (f x)) l) l.
Proof.
  induction l as [| x l IH]; [reflexivity |]. simpl.
  destruct (f x); simpl.
  - apply perm_skip. exact IH.
  - rewrite <- Permutation_middle. apply perm_skip. exact IH.
Qed.

Lemma filter_map_length {A B : Type} (g : A -> B) (f : B -> bool) (l : list A) :
  length (List.filter f (map g l)) = length (List.filter (fun x => f (g x)) l).
Proof.
  induction l as [| x l IH]; [reflexivity |]. simpl.
  destruct (f (g x)); simpl; rewrite IH; reflexivity.
Qed.

Lemma filter_none {A : Type} (f : A -> bool) (l : list A) :
  (forall x, f x = false) -> List.filter f l = [].
Proof.
  intros H. induction l as [| x l IH]; [reflexivity |]. simpl. rewrite H. exact IH.
Qed.

(** The breakdown the simulator computes from extracted features. *)
Lemma extracted_breakdown (r : ParsedResumeInternal) (jd : ParsedJobDescriptionInternal)
    (res : ATSResultInternal) :
  let bd := fst (_compute_keyword_matching r jd (extract r jd) res) in
  let is_matched := fun kw => mem (lower kw) (map lower (skills r)) in
  map keyword (matched_keywords bd) = List.filter is_matched (required_skills jd)
  /\ missing_keywords bd = List.filter (fun kw => negb (is_matched kw)) (required_skills jd)
  /\ total_matched bd = zlen (matched_keywords bd).
Proof.
  cbv zeta. destruct (extract_fields r jd) as (Hkw & _ & _).
  unfold _compute_keyword_matching. rewrite Hkw.
  destruct (zlen (required_skills jd) =? 0)%Z eqn:E.
  - apply Z.eqb_eq, zlen_zero in E. rewrite E. repeat split.
  - cbn [fst matched_keywords missing_keywords total_matched].
    rewrite map_map. cbn [keyword]. rewrite map_id.
    split; [reflexivity | split; [reflexivity |]].
    unfold _compute_keyword_match_count, zlen. rewrite length_map.
    destruct (skills r) as [| s0 l0] eqn:Es.
    + cbn [nonempty negb orb fst map]. rewrite filter_none; [reflexivity |].
      intros kw. reflexivity.
    + destruct (required_skills jd) as [| q0 l1] eqn:Er.
      * discriminate E.
      * cbn [nonempty negb orb fst]. f_equal. apply filter_map_length.
Qed.

(** X5. With the features the extractor computes, the breakdown splits the
    required skills into the matched and the missing ones, the matched
    total is the number of matched keywords, a missing keyword is one whose
    lowercase form is not among the lowercase resume skills, and the keyword
    match percentage lies between 0 and 100. *)
Theorem X5_keyword_breakdown_partition
    (r : ParsedResumeInternal) (jd : ParsedJobDescriptionInternal) (t : pystr) :
  let res := simulate r jd (extract r jd) t in
  let bd := keyword_breakdown res in
  Permutation (map keyword (matched_keywords bd) ++ missing_keywords bd) (required_skills jd)
  /\ total_required bd = zlen (required_skills jd)
  /\ total_matched bd = zlen (matched_keywords bd)
  /\ (forall kw, In kw (missing_keywords bd) <->
         In kw (required_skills jd) /\ mem (lower kw) (map lower (skills r)) = false)
  /\ 0 <= keyword_match_percentage res <= 100.
Proof.
  cbv zeta. rewrite simulate_percentage, simulate_breakdown.
  destruct (extracted_breakdown r jd empty_result) as (Hm & Hmiss & Htotal).
  pose proof (filter_partition (fun kw => mem (lower kw) (map lower (skills r)))
                (required_skills jd)) as Hperm.
  split; [rewrite Hm, Hmiss; exact Hperm |].
  split; [apply breakdown_required |].
  split; [exact Htotal |].
  split.
  - intros kw. rewrite Hmiss, filter_In, Bool.negb_true_iff. reflexivity.
  - apply percentage_bounds. rewrite Htotal, breakdown_required.
    split; [apply zlen_nonneg |].
    unfold zlen. apply inj_le.
    rewrite <- (length_map keyword), Hm. apply filter_length_le.
Qed.

End ATSResults.

(** ** Values of the extracted features *)

Section FeatureValues.
Import Features.
Local Open Scope Q_scope.

Lemma forallb_filter_length {A : Type} (f : A -> bool) (l : list A) :
  forallb f l = true <-> length (List.filter f l) = length l.
Proof.
  induction l as [| x l IH]; simpl; [tauto |].
  pose proof (filter_length_le f l) as Hle.
  destruct (f x); simpl.
  - rewrite IH. split; intros H; lia.
  - split; [discriminate | lia].
Qed.

(** The count and the flag the extractor computes from non-empty lists. *)
Lemma extract_skill_features (r : ParsedResumeInternal) (jd : ParsedJobDescriptionInternal) :
  skills r <> [] -> required_skills jd <> [] ->
  let hit := fun skill => mem skill (map lower (skills r)) in
  keyword_match_count (quantitative (extract r jd))
  = Some (zlen (List.filter hit (map lower (required_skills jd))))
  /\ has_required_skills (categorical (extract r jd))
     = Some (forallb hit (map lower (required_skills jd))).
Proof.
  intros Hs Hr. cbv zeta. destruct (extract_fields r jd) as (Hkw & Hsk & _).
  rewrite Hkw, Hsk. unfold _compute_keyword_match_count, _compute_has_required_skills.
  destruct (skills r); [congruence |]. destruct (required_skills jd); [congruence |].
  split; reflexivity.
Qed.

(** X6. When the resume lists skills and the job description requires
    some, keyword_match_count is computed, lies between 0 and the number of
    required skills, and has_required_skills is True exactly when it equals
    that number. *)
Theorem X6_all_required_iff_full_count
    (r : ParsedResumeInternal) (jd : ParsedJobDescriptionInternal) :
  skills r <> [] -> required_skills jd <> [] ->
  let fv := extract r jd in
  exists c : Z,
    keyword_match_count (quantitative fv) = Some c
    /\ (0 <= c <= zlen (required_skills jd))%Z
    /\ (has_required_skills (categorical fv) = Some true <-> c = zlen (required_skills jd))
    /\ is_computed fv "keyword_match_count" = true.
Proof.
  intros Hs Hr. cbv zeta.
  destruct (extract_skill_features r jd Hs Hr) as [Hkw Hsk].
  set (hit := fun skill => mem skill (map lower (skills r))) in *.
  exists (zlen (List.filter hit (map lower (required_skills jd)))).
  pose proof (filter_length_le hit (map lower (required_skills jd))) as Hle.
  rewrite length_map in Hle.
  split; [exact Hkw |]. split; [unfold zlen; lia |]. split.
  - rewrite Hsk. split.
    + intros [= H]. apply forallb_filter_length in H. unfold zlen.
      rewrite H, length_map. reflexivity.
    + intros H. f_equal. apply forallb_filter_length. unfold zlen in H.
      rewrite length_map. lia.
  - assert (Hin : In "keyword_match_count"%string feature_names) by (simpl; tauto).
    destruct (extract_bookkeeping r jd _ Hin) as (_ & Hone & _).
    assert (Hx : exactly_one (extract r jd) "keyword_match_count") by (apply Hone; discriminate).
    unfold exactly_one in Hx.
    assert (Hmiss : is_missing (extract r jd) "keyword_match_count" = false).
    { unfold extract, _compute_skills_count, _compute_keyword_match_count,
        _compute_resume_length_words, _compute_years_experience,
        _compute_has_required_skills, _compute_has_required_degree.
      destruct (skills r); [congruence |]. destruct (required_skills jd); [congruence |].
      cbn [nonempty negb orb].
      repeat match goal with
        | |- context [match required_education ?jd with _ => _ end] =>
            destruct (required_education jd) as [[| ? ?] |]
        | |- context [if ?b then _ else _] => destruct b
        end; reflexivity. }
    rewrite Hmiss in Hx. destruct (is_computed (extract r jd) "keyword_match_count");
      [reflexivity | discriminate Hx].
Qed.

(** X6 on the complete resume and the job description requiring "python". *)
Lemma X6_witness :
  let fv := extract Inputs.complete_resume Inputs.python_degree_job in
  exists c : Z,
    keyword_match_count (quantitative fv) = Some c
    /\ (0 <= c <= zlen (required_skills Inputs.python_degree_job))%Z
    /\ (has_required_skills (categorical fv) = Some true
        <-> c = zlen (required_skills Inputs.python_degree_job))
    /\ is_computed fv "keyword_match_count" = true.
Proof.
  apply (X6_all_required_iff_full_count Inputs.complete_resume Inputs.python_degree_job);
    discriminate.
Defined.

Lemma lower_char_idempotent (c : char) : lower_char (lower_char c) = lower_char c.
Proof.
  unfold lower_char. destruct (isupper c) eqn:E; [| rewrite E; reflexivity].
  unfold isupper in *. apply andb_prop in E as [E1 E2].
  apply N.leb_le in E1, E2.
  assert (H : (c + 32 <=? 90)%N = false) by (apply N.leb_gt; lia).
  rewrite H, Bool.andb_false_r. reflexivity.
Qed.

Lemma lower_idempotent (s : pystr) : lower (lower s) = lower s.
Proof.
  unfold lower. rewrite map_map. apply map_ext. intros c. apply lower_char_idempotent.
Qed.

(** X7. Skill matching ignores case: two resumes whose skills agree up to
    case, against two job descriptions whose required skills agree up to
    case, get the same keyword_match_count and has_required_skills. *)
Theorem X7_skill_matching_ignores_case
    (r r' : ParsedResumeInternal) (jd jd' : ParsedJobDescriptionInternal) :
  map lower (skills r) = map lower (skills r') ->
  map lower (required_skills jd) = map lower (required_skills jd') ->
  keyword_match_count (quantitative (extract r jd))
  = keyword_match_count (quantitative (extract r' jd'))
  /\ has_required_skills (categorical (extract r jd))
     = has_required_skills (categorical (extract r' jd')).
Proof.
  intros Hs Hr.
  destruct (extract_fields r jd) as (Hkw & Hsk & _).
  destruct (extract_fields r' jd') as (Hkw' & Hsk' & _).
  rewrite Hkw, Hsk, Hkw', Hsk'.
  unfold _compute_keyword_match_count, _compute_has_required_skills.
  assert (Hn : nonempty (skills r) = nonempty (skills r')).
  { destruct (skills r), (skills r'); try reflexivity; discriminate Hs. }
  assert (Hm : nonempty (required_skills jd) = nonempty (required_skills jd')).
  { destruct (required_skills jd), (required_skills jd'); try reflexivity; discriminate Hr. }
  rewrite Hn, Hm, Hs, Hr.
  destruct (negb (nonempty (skills r')) || negb (nonempty (required_skills jd')));
    split; reflexivity.
Qed.

(** X7 on the complete resume with "Python" and with "python". *)
Lemma X7_witness :
  keyword_match_count (quantitative (extract Inputs.complete_resume Inputs.python_degree_job))
  = keyword_match_count (quantitative (extract Inputs.lowercase_resume Inputs.python_degree_job))
  /\ has_required_skills (categorical (extract Inputs.complete_resume Inputs.python_degree_job))
     = has_required_skills
         (categorical (extract Inputs.lowercase_resume Inputs.python_degree_job)).
Proof.
  apply X7_skill_matching_ignores_case; reflexivity.
Defined.

Lemma months_sum (l : list (gmap string pyval)) (a : Z) :
  fold_left (fun acc exp => (acc + months_of_entry exp)%Z) l a
  = (a + 12 * zlen (List.filter dated l))%Z.
Proof.
  revert a. induction l as [| e l IH]; intros a; [unfold zlen; simpl; lia |].
  simpl fold_left. rewrite IH. unfold months_of_entry, dated. simpl List.filter.
  destruct (truthy (get e "start_date") && truthy (get e "end_date"));
    unfold zlen; simpl length; lia.
Qed.

Lemma years_missing_iff_no_entries (r : ParsedResumeInternal)
    (jd : ParsedJobDescriptionInternal) :
  is_missing (extract r jd) "years_experience" = negb (nonempty (work_experience r)).
Proof.
  unfold extract, _compute_skills_count, _compute_keyword_match_count,
    _compute_resume_length_words, _compute_years_experience,
    _compute_has_required_skills, _compute_has_required_degree.
  generalize (zlen (skills r));
  generalize (fold_left (fun acc exp => (acc + description_words exp)%Z) (work_experience r) 0%Z);
  generalize (fold_left (fun acc exp => (acc + months_of_entry exp)%Z) (work_experience r) 0%Z);
  generalize (negb (nonempty (skills r)) || negb (nonempty (required_skills jd)));
  generalize (nonempty (work_experience r)).
  intros we unskilled months words count.
  repeat match goal with
    | |- context [match required_education ?jd with _ => _ end] =>
        destruct (required_education jd) as [[| ? ?] |]
    | |- context [if ?b then _ else _] => destruct b; cbn [negb]
    end; reflexivity.
Qed.

(** X8. years_experience is the number of work-experience entries that
    give both a start and an end date, whatever the dates are; it is filed
    as missing exactly when there is no entry at all. *)
Theorem X8_years_experience_counts_dated_entries
    (r : ParsedResumeInternal) (jd : ParsedJobDescriptionInternal) :
  let fv := extract r jd in
  (exists y : Q,
     years_experience (quantitative fv) = Some y
     /\ y == inject_Z (zlen (List.filter dated (work_experience r))))
  /\ (is_missing fv "years_experience" = true <-> work_experience r = []).
Proof.
  cbv zeta. split.
  - unfold extract, _compute_skills_count, _compute_keyword_match_count,
      _compute_resume_length_words, _compute_years_experience,
      _compute_has_required_skills, _compute_has_required_degree.
    rewrite months_sum.
    set (n := zlen (List.filter dated (work_experience r))).
    assert (Hn : (0 <= n)%Z) by apply zlen_nonneg.
    assert (Hempty : work_experience r = [] -> n = 0%Z).
    { intros H. subst n. rewrite H. reflexivity. }
    assert (Hy : (if (0 <? 0 + 12 * n)%Z then inject_Z (0 + 12 * n) / 12 else 0)
                 == inject_Z n).
    { destruct (0 <? 0 + 12 * n)%Z eqn:E.
      - rewrite Z.add_0_l, inject_Z_mult. change (inject_Z 12) with 12. field.
      - apply Z.ltb_ge in E. assert (Hz : n = 0%Z) by lia. rewrite Hz. reflexivity. }
    repeat match goal with
      | |- context [match required_education ?jd with _ => _ end] =>
          destruct (required_education jd) as [[| ? ?] |]
      | |- context [if negb (nonempty (work_experience r)) then _ else _] =>
          destruct (work_experience r) eqn:Ew; cbn [nonempty negb]
      | |- context [if ?b then _ else _] =>
          lazymatch b with
          | (0 <? 0 + 12 * n)%Z => fail
          | _ => destruct b
          end
      end;
      eexists; (split; [reflexivity |]);
      first [ exact Hy | rewrite Hempty by reflexivity; reflexivity ].
  - rewrite years_missing_iff_no_entries. destruct (work_experience r); simpl.
    + split; reflexivity.
    + split; intros H; discriminate H.
Qed.

End FeatureValues.

(** ** Results of the interview evaluator *)

Section InterviewResults.
Import Regex Interview.
Local Open Scope Q_scope.







Lemma text_claim_profile (text ctype : pystr) (job : gmap string pyval) :
  In (profile_of (_create_claim_from_text text ctype job)) claim_profiles.
Proof.
  unfold _create_claim_from_text, _evaluate_defensibility, profile_of.
  destruct (search metrics_re text); [left; reflexivity |].
  destruct (search actions_re (lower text) && negb _);
    [right; left; reflexivity |].
  destruct (_ || _); [do 3 right; left; reflexivity | do 2 right; left; reflexivity].
Qed.

(** X10. Every claim the evaluator extracts has one of five profiles:
    (0.9, deep, no risk), (0.7, moderate, no risk), (0.5, moderate, medium),
    (0.3, surface, high) for a claim made from text and (0.5, surface,
    medium) for a skill; in each the risk is the one the defensibility
    dictates. *)
Theorem X10_claim_profiles (r : ParsedResumeInternal) (c : ResumeClaim) :
  In c (_extract_resume_claims r) ->
  In (profile_of c) claim_profiles
  /\ consistency_risk c = _assess_consistency_risk (claim_text c) (defensibility_score c).
Proof.
  intros Hc.
  assert (Hprofile : In (profile_of c) claim_profiles).
  { unfold _extract_resume_claims in Hc.
    assert (Hjobs : forall c, In c (flat_map (fun job => achievement_claims job
                                                ++ description_claims job)
                                      (work_experience r)) ->
                              In (profile_of c) claim_profiles).
    { intros c' Hc'. apply in_flat_map in Hc' as (job & _ & Hc').
      apply in_app_or in Hc' as [Hc' | Hc'].
      - unfold achievement_claims in Hc'.
        destruct (get_or job "achievements" (VList [])) as [| | | | l |]; try contradiction.
        apply in_flat_map in Hc' as (a & _ & Hc').
        destruct a as [| | | a | |]; try contradiction.
        destruct (nonempty (strip a)); [| contradiction].
        destruct Hc' as [<- | []]. apply text_claim_profile.
      - unfold description_claims in Hc'.
        destruct (get_or job "description" (VStr [])) as [| | | d | |]; try contradiction.
        destruct (nonempty (strip d)); [| contradiction].
        apply in_flat_map in Hc' as (b & _ & Hc').
        destruct (nonempty (strip b) && _); [| contradiction].
        destruct Hc' as [<- | []]. apply text_claim_profile. }
    destruct (negb _ && _).
    - apply in_app_or in Hc as [Hc | Hc]; [apply Hjobs; exact Hc |].
      apply in_flat_map in Hc as (skill & _ & Hc).
      destruct (nonempty skill && _); [| contradiction].
      destruct Hc as [<- | []]. do 4 right. left. reflexivity.
    - apply Hjobs. exact Hc. }
  split; [exact Hprofile |].
  unfold profile_of, claim_profiles in Hprofile. cbn [In] in Hprofile.
  destruct Hprofile as [H | [H | [H | [H | [H | []]]]]];
    injection H as Hd _ Hr; rewrite <- Hr, <- Hd; reflexivity.
Qed.

(** X10 on the claim of the job in the billing resume. *)
Lemma X10_witness :
  let c := _create_claim_from_text (str_of "Built the billing system")
             (str_of "achievement") Inputs.billing_job in
  In (profile_of c) claim_profiles
  /\ consistency_risk c = _assess_consistency_risk (claim_text c) (defensibility_score c).
Proof.
  apply (X10_claim_profiles Inputs.billing_resume). vm_compute. left. reflexivity.
Defined.

Lemma questions_of_claim_length (c : ResumeClaim) :
  ((if risky c then 1 else 0) <= length (questions_of_claim c)
   /\ length (questions_of_claim c) <= (if risky c then 3 else 0))%nat.
Proof.
  unfold questions_of_claim, risky.
  destruct (risk_is c "high" || risk_is c "medium"); [| simpl; lia].
  rewrite !length_app.
  destruct (Qltb _ _), (negb _); simpl; lia.
Qed.

Lemma questions_length (claims : list ResumeClaim) :
  (length (List.filter risky claims) <= length (flat_map questions_of_claim claims)
   /\ length (flat_map questions_of_claim claims) <= 3 * length (List.filter risky claims))%nat.
Proof.
  induction claims as [| c claims IH]; [simpl; lia |].
  cbn [flat_map List.filter]. rewrite length_app.
  pose proof (questions_of_claim_length c) as Hc.
  destruct (risky c); cbn [length]; lia.
Qed.

(** X11. At most ten questions are predicted; before the cut every claim
    with the risk "high" or "medium" gives between one and three of them and
    the other claims give none, so no question is predicted exactly when no
    claim carries such a risk. *)
Theorem X11_predicted_questions_count (claims : list ResumeClaim) :
  (Nat.min 10 (length (List.filter risky claims))
     <= length (_predict_interview_questions claims))%nat
  /\ (length (_predict_interview_questions claims)
        <= Nat.min 10 (3 * length (List.filter risky claims)))%nat
  /\ (_predict_interview_questions claims = [] <-> List.filter risky claims = []).
Proof.
  unfold _predict_interview_questions.
  pose proof (questions_length claims) as [Hlo Hhi].
  rewrite length_firstn.
  split; [lia |]. split; [lia |].
  split; intros H.
  - apply (f_equal (@length _)) in H. rewrite length_firstn in H. cbn [length] in H.
    destruct (List.filter risky claims); [reflexivity | cbn [length] in *; lia].
  - rewrite H in Hhi. cbn [length] in Hhi.
    destruct (flat_map questions_of_claim claims); [reflexivity | cbn [length] in Hhi; lia].
Qed.

Lemma deduct_claim_points (s : Q) (c : ResumeClaim) :
  deduct_claim s c == s - inject_Z (claim_points c).
Proof.
  unfold deduct_claim, claim_points.
  destruct (risk_is c "high"), (risk_is c "medium"),
    (Qltb (defensibility_score c) (4 # 10)), (Qltb (defensibility_score c) (6 # 10));
    match goal with |- context [inject_Z ?z] =>
      let v := eval vm_compute in z in change z with v end;
    unfold inject_Z; lra.
Qed.

Lemma deduct_risk_points (s : Q) (k : ConsistencyRisk) :
  deduct_risk s k == s - inject_Z (risk_points k).
Proof.
  unfold deduct_risk, risk_points.
  destruct (str_eqb (severity k) (str_of "high")),
    (str_eqb (severity k) (str_of "medium")), (str_eqb (severity k) (str_of "low"));
    unfold inject_Z; lra.
Qed.

Lemma fold_deduct_claims (claims : list ResumeClaim) (s : Q) (n : Z) :
  s == inject_Z n ->
  fold_left deduct_claim claims s
  == inject_Z (n - fold_right (fun c m => claim_points c + m)%Z 0%Z claims).
Proof.
  revert s n. induction claims as [| c claims IH]; intros s n Hs; cbn [fold_left fold_right].
  - rewrite Z.sub_0_r. exact Hs.
  - rewrite (IH _ (n - claim_points c)%Z).
    + apply inject_Z_injective. lia.
    + rewrite deduct_claim_points, Hs. unfold Zminus.
      rewrite inject_Z_plus, inject_Z_opp. lra.
Qed.

Lemma fold_deduct_risks (risks : list ConsistencyRisk) (s : Q) (n : Z) :
  s == inject_Z n ->
  fold_left deduct_risk risks s
  == inject_Z (n - fold_right (fun k m => risk_points k + m)%Z 0%Z risks).
Proof.
  revert s n. induction risks as [| k risks IH]; intros s n Hs; cbn [fold_left fold_right].
  - rewrite Z.sub_0_r. exact Hs.
  - rewrite (IH _ (n - risk_points k)%Z).
    + apply inject_Z_injective. lia.
    + rewrite deduct_risk_points, Hs. unfold Zminus.
      rewrite inject_Z_plus, inject_Z_opp. lra.
Qed.

Lemma claim_points_range (c : ResumeClaim) : (0 <= claim_points c <= 13)%Z.
Proof.
  unfold claim_points.
  destruct (risk_is c "high"), (risk_is c "medium"),
    (Qltb (defensibility_score c) (4 # 10)), (Qltb (defensibility_score c) (6 # 10)); lia.
Qed.

Lemma risk_points_range (k : ConsistencyRisk) : (0 <= risk_points k <= 10)%Z.
Proof.
  unfold risk_points.
  destruct (str_eqb (severity k) (str_of "high")),
    (str_eqb (severity k) (str_of "medium")), (str_eqb (severity k) (str_of "low")); lia.
Qed.

Lemma total_points_nonneg (claims : list ResumeClaim) (risks : list ConsistencyRisk) :
  (0 <= total_points claims risks)%Z.
Proof.
  unfold total_points.
  assert (Hc : (0 <= fold_right (fun c n => claim_points c + n) 0 claims)%Z).
  { induction claims as [| c claims IH]; cbn [fold_right]; [lia |].
    pose proof (claim_points_range c). lia. }
  assert (Hk : (0 <= fold_right (fun k n => risk_points k + n) 0 risks)%Z).
  { induction risks as [| k risks IH]; cbn [fold_right]; [lia |].
    pose proof (risk_points_range k). lia. }
  lia.
Qed.

(** X12. The readiness score is 100 less the points of the claims (8 for
    the risk high, 4 for medium, and 5 for a defensibility under 0.4, 2 for
    one under 0.6) and of the risks (10, 5, 2 by severity), and 0 when the
    points exceed 100: a whole number between 0 and 100. *)
Theorem X12_readiness_score_closed_form
    (claims : list ResumeClaim) (risks : list ConsistencyRisk) :
  _compute_readiness_score claims risks
  == inject_Z (Z.max 0 (100 - total_points claims risks))
  /\ 0 <= _compute_readiness_score claims risks <= 100.
Proof.
  assert (Hform : _compute_readiness_score claims risks
                  == inject_Z (Z.max 0 (100 - total_points claims risks))).
  { unfold _compute_readiness_score.
    pose proof (total_points_nonneg claims risks) as Hp.
    assert (Hs : fold_left deduct_risk risks (fold_left deduct_claim claims 100)
                 == inject_Z (100 - total_points claims risks)).
    { rewrite (fold_deduct_risks risks _
                 (100 - fold_right (fun c n => claim_points c + n)%Z 0%Z claims)).
      - apply inject_Z_injective. unfold total_points. lia.
      - apply (fold_deduct_claims claims 100 100). reflexivity. }
    apply round2_int in Hs.
    set (x := round2 _) in *. set (p := total_points claims risks) in *.
    assert (Hx : x <= 100).
    { rewrite Hs. change 100 with (inject_Z 100). rewrite <- Zle_Qle. lia. }
    destruct (py_min_cases 100 x) as [[Hm ->] | [Hm ->]].
    - destruct (py_max_cases 0 x) as [[H0 ->] | [H0 ->]].
      + rewrite Hs. rewrite Hs in H0. change 0 with (inject_Z 0) in H0.
        rewrite <- Zlt_Qlt in H0. apply inject_Z_injective. lia.
      + rewrite Hs in H0. change 0 with (inject_Z 0) in H0.
        rewrite <- Zle_Qle in H0. change 0 with (inject_Z 0).
        apply inject_Z_injective. lia.
    - assert (Hx' : x == 100) by lra.
      rewrite Hs in Hx'. change 100 with (inject_Z 100) in Hx'.
      apply (proj1 (inject_Z_injective _ _)) in Hx'.
      destruct (py_max_cases 0 100) as [[H0 ->] | [H0 ->]];
        [| exfalso; apply (Qlt_not_le 0 100); [reflexivity | exact H0]].
      change 100 with (inject_Z 100). apply inject_Z_injective. lia. }
  split; [exact Hform |].
  rewrite Hform. pose proof (total_points_nonneg claims risks) as Hp.
  change 0 with (inject_Z 0). change 100 with (inject_Z 100).
  rewrite <- !Zle_Qle. lia.
Qed.

End InterviewResults.

(** ** Results of the score aggregator *)

Section ScoringResults.
Import Scoring.
Local Open Scope Q_scope.

Lemma constant_strict_boost (n : pystr) (st : list pystr) (q : Q) :
  0 < q -> strict_boost {| signal := n; stages_affected := st; compound_effect := Some q |}.
Proof.
  intros Hq. exists q. unfold effect_of. cbn [compound_effect].
  destruct (Qeqb q 0) eqn:E; [apply Qeqb_true in E; lra |].
  repeat split; [exact Hq].
Qed.

Lemma constant_strict_penalty (n : pystr) (st : list pystr) (q : Q) :
  q < 0 -> strict_penalty {| signal := n; stages_affected := st; compound_effect := Some q |}.
Proof.
  intros Hq. exists q. unfold effect_of. cbn [compound_effect].
  destruct (Qeqb q 0) eqn:E; [apply Qeqb_true in E; lra |].
  repeat split; [exact Hq].
Qed.

Lemma strict_boost_positive (s : SignalImpact) :
  strict_boost s -> is_positive (compound_effect s) = true.
Proof.
  intros (e & -> & _ & He). cbn [is_positive].
  destruct (Qeqb e 0) eqn:E; [apply Qeqb_true in E; lra |].
  apply Qltb_true in He. rewrite He. reflexivity.
Qed.

Lemma strict_penalty_not_positive (s : SignalImpact) :
  strict_penalty s -> is_positive (compound_effect s) = false.
Proof.
  intros (e & -> & _ & He). cbn [is_positive].
  destruct (Qltb 0 e) eqn:E; [apply Qltb_true in E; lra |].
  apply Bool.andb_false_r.
Qed.

Lemma strict_penalty_negative (s : SignalImpact) :
  strict_penalty s -> is_negative (compound_effect s) = true.
Proof.
  intros (e & -> & _ & He). cbn [is_negative].
  destruct (Qeqb e 0) eqn:E; [apply Qeqb_true in E; lra |].
  apply Qltb_true in He. rewrite He. reflexivity.
Qed.

Lemma strict_boost_not_negative (s : SignalImpact) :
  strict_boost s -> is_negative (compound_effect s) = false.
Proof.
  intros (e & -> & _ & He). cbn [is_negative].
  destruct (Qltb e 0) eqn:E; [apply Qltb_true in E; lra |].
  apply Bool.andb_false_r.
Qed.

Lemma ats_influence_sign ats rec :
  (80 <= ATS.compatibility_score ats /\ strict_boost (_analyze_ats_influence ats rec))
  \/ (ATS.compatibility_score ats < 80 /\ strict_penalty (_analyze_ats_influence ats rec)).
Proof.
  unfold _analyze_ats_influence.
  destruct (Qleb 80 (ATS.compatibility_score ats)) eqn:E.
  - left. split; [apply Qleb_true; exact E |]. apply constant_strict_boost. reflexivity.
  - right. split; [apply Qleb_false; exact E |].
    destruct (Qltb _ 50); apply constant_strict_penalty; reflexivity.
Qed.

Lemma interview_dominance_sign int :
  match _analyze_interview_dominance int with
  | Some s => strict_boost s \/ strict_penalty s
  | None => True
  end.
Proof.
  unfold _analyze_interview_dominance.
  repeat match goal with
         | |- context [if ?b then _ else _] => destruct b
         end;
    try exact I;
    first [ right; apply constant_strict_penalty; reflexivity
          | left; apply constant_strict_boost; reflexivity ].
Qed.

Lemma risk_compounding_shape ats rec int :
  Forall strict_penalty (_analyze_risk_compounding ats rec int)
  /\ (length (_analyze_risk_compounding ats rec int) <= 3)%nat.
Proof.
  unfold _analyze_risk_compounding.
  destruct (collect_risks ats rec int) as [[critical high] medium].
  destruct (nonempty critical), (3 <=? length medium)%nat, (2 <=? length high)%nat;
    cbn [app length]; (split; [| lia]);
    repeat (constructor; [apply constant_strict_penalty; reflexivity |]); constructor.
Qed.

(** X13. Every signal the engine reports has an effect that is set and not
    zero, so the aggregator skips none: positive effects in the positive
    list, negative ones in the negative list.  The signal of the ATS score is
    always among them, a boost exactly from the score 80 on; there are at
    most two positive signals and between one and five signals in all. *)
Theorem X13_signals_have_strict_effects
    (ats : ATS.ATSResultInternal) (rec : Recruiter.RecruiterResultInternal)
    (int : Interview.InterviewReadinessResultInternal) :
  let summary := apply ats rec int in
  Forall strict_boost (positive_signals summary)
  /\ Forall strict_penalty (negative_signals summary)
  /\ (In (_analyze_ats_influence ats rec) (positive_signals summary)
      <-> 80 <= ATS.compatibility_score ats)
  /\ (In (_analyze_ats_influence ats rec) (negative_signals summary)
      <-> ATS.compatibility_score ats < 80)
  /\ (length (positive_signals summary) <= 2)%nat
  /\ (1 <= length (positive_signals summary) + length (negative_signals summary) <= 5)%nat.
Proof.
  cbv zeta. unfold apply.
  pose proof (risk_compounding_shape ats rec int) as [Hrisk Hlen].
  set (risk := _analyze_risk_compounding ats rec int) in *. clearbody risk.
  pose proof (ats_influence_sign ats rec) as Ha.
  set (a := _analyze_ats_influence ats rec) in *. clearbody a.
  pose proof (interview_dominance_sign int) as Hd.
  set (d := _analyze_interview_dominance int) in *. clearbody d.
  set (score := ATS.compatibility_score ats) in *. clearbody score.
  assert (Hnot : forall s : SignalImpact, strict_boost s -> strict_penalty s -> False).
  { intros s (e & He & _ & Hpos) (e' & He' & _ & Hneg). rewrite He in He'.
    injection He' as <-. lra. }
  assert (Hrisk' : forall s, strict_boost s -> ~ In s risk).
  { intros s Hs Hin. rewrite List.Forall_forall in Hrisk. exact (Hnot s Hs (Hrisk s Hin)). }
  destruct Ha as [[Hscore Ha] | [Hscore Ha]].
  - rewrite (strict_boost_positive a Ha).
    destruct d as [s |].
    + destruct Hd as [Hs | Hs].
      * rewrite (strict_boost_not_negative s Hs).
        cbn [positive_signals negative_signals app length].
        repeat split; try lia; try (intros _; lra); try (intros _; left; reflexivity).
        -- repeat constructor; assumption.
        -- exact Hrisk.
        -- intros Hin. exfalso. exact (Hrisk' a Ha Hin).
        -- intros Hlt. lra.
      * rewrite (strict_penalty_negative s Hs).
        cbn [positive_signals negative_signals app length].
        repeat split; try lia; try (intros _; lra); try (intros _; left; reflexivity).
        -- repeat constructor; assumption.
        -- constructor; assumption.
        -- intros [-> | Hin]; exfalso; [exact (Hnot a Ha Hs) | exact (Hrisk' a Ha Hin)].
        -- intros Hlt. lra.
    + cbn [positive_signals negative_signals app length].
      repeat split; try lia; try (intros _; lra); try (intros _; left; reflexivity).
      * repeat constructor; assumption.
      * exact Hrisk.
      * intros Hin. exfalso. exact (Hrisk' a Ha Hin).
      * intros Hlt. lra.
  - rewrite (strict_penalty_not_positive a Ha).
    destruct d as [s |].
    + destruct Hd as [Hs | Hs].
      * rewrite (strict_boost_not_negative s Hs).
        cbn [positive_signals negative_signals app length].
        repeat split; try lia; try (intros _; left; reflexivity).
        -- repeat constructor; assumption.
        -- constructor; assumption.
        -- intros [-> | []]. exfalso. exact (Hnot a Hs Ha).
        -- intros Hge. lra.
        -- intros _. exact Hscore.
      * rewrite (strict_penalty_negative s Hs).
        cbn [positive_signals negative_signals app length].
        repeat split; try lia; try (intros _; left; reflexivity).
        -- constructor.
        -- repeat (constructor; [assumption |]). exact Hrisk.
        -- intros [].
        -- intros Hge. lra.
        -- intros _. exact Hscore.
    + cbn [positive_signals negative_signals app length].
      repeat split; try lia; try (intros _; left; reflexivity).
      * constructor.
      * constructor; assumption.
      * intros [].
      * intros Hge. lra.
      * intros _. exact Hscore.
Qed.

(** X14. The base offer probability is half the base interview probability
    up to 0.5 and 0.5 plus four tenths of it above, so it is at most 0.25 or
    between 0.7 and 0.9 and never in between; for an interview probability
    strictly between 0.5 and 5/6 it exceeds the interview probability, so
    the base probabilities themselves are no funnel. *)
Theorem X14_base_offer_probability
    (ats : ATS.ATSResultInternal) (rec : Recruiter.RecruiterResultInternal)
    (int : Interview.InterviewReadinessResultInternal) :
  let base := _calculate_base_probabilities ats rec int in
  let p := interview_pass base in
  (if Qltb (5 # 10) p then offer base == (1 # 2) + (4 # 10) * p
   else offer base == (1 # 2) * p)
  /\ (offer base <= 1 # 4 \/ 7 # 10 <= offer base <= 9 # 10)
  /\ (offer base <= p <-> p <= 1 # 2 \/ 5 # 6 <= p).
Proof.
  cbv zeta. unfold _calculate_base_probabilities.
  cbn [interview_pass offer].
  pose proof (clamp_unit (Interview.readiness_score int / 100)) as Hp.
  set (p := py_max 0 (py_min 1 (Interview.readiness_score int / 100))) in *.
  clearbody p.
  destruct (Qltb (5 # 10) p) eqn:E.
  - apply Qltb_true in E.
    set (off := (7 # 10) + (p - (5 # 10)) * (4 # 10)).
    assert (Hoff : off == (1 # 2) + (4 # 10) * p) by (unfold off; ring).
    assert (Hclamp : py_max 0 (py_min 1 off) == off).
    { destruct (py_min_cases 1 off) as [[H1 ->] | [H1 ->]];
        [| rewrite Hoff in H1; lra].
      destruct (py_max_cases 0 off) as [[H0 ->] | [H0 ->]];
        [reflexivity | rewrite Hoff in H0; lra]. }
    rewrite Hclamp, Hoff.
    split; [reflexivity |]. split; [right; lra |].
    split; [intros H; right; lra | intros [H | H]; lra].
  - apply Qltb_false in E.
    set (off := p * (5 # 10)).
    assert (Hoff : off == (1 # 2) * p) by (unfold off; ring).
    assert (Hclamp : py_max 0 (py_min 1 off) == off).
    { destruct (py_min_cases 1 off) as [[H1 ->] | [H1 ->]];
        [| rewrite Hoff in H1; lra].
      destruct (py_max_cases 0 off) as [[H0 ->] | [H0 ->]];
        [reflexivity | rewrite Hoff in H0; lra]. }
    rewrite Hclamp, Hoff.
    split; [reflexivity |]. split; [left; lra |].
    split; [intros H; left; lra | intros _; lra].
Qed.




Lemma enforce_funnel_funnel (p : StageProbabilities) : funnel (enforce_funnel p).
Proof.
  unfold funnel, enforce_funnel. cbn [offer interview_pass recruiter_pass ats_pass].
  repeat split; apply py_min_le_r.
Qed.

Lemma py_min_left (a b : Q) : a <= b -> py_min a b = a.
Proof.
  intros H. unfold py_min. destruct (Qltb b a) eqn:E; [| reflexivity].
  apply Qltb_true in E. lra.
Qed.

Lemma enforce_funnel_fixed (p : StageProbabilities) : funnel p -> enforce_funnel p = p.
Proof.
  destruct p as [a r i o]. unfold funnel, enforce_funnel.
  cbn [offer interview_pass recruiter_pass ats_pass]. intros (Ho & Hi & Hr).
  rewrite (py_min_left r a Hr), (py_min_left i r Hi), (py_min_left o i Ho). reflexivity.
Qed.

(** X16. Without signals the aggregator returns a funnel of probabilities
    unchanged; the result of any call is such a funnel, so passing it
    through the aggregator again without signals changes nothing. *)
Theorem X16_funnel_is_kept
    (base : StageProbabilities) (summary : SignalCompoundingSummary) :
  (funnel base -> _apply_compounding_effects base no_signals = base)
  /\ _apply_compounding_effects (_apply_compounding_effects base summary) no_signals
     = _apply_compounding_effects base summary.
Proof.
  assert (Hfixed : forall p, funnel p -> _apply_compounding_effects p no_signals = p).
  { intros p Hp. unfold _apply_compounding_effects, compound_signals, no_signals.
    cbn [positive_signals negative_signals fold_left]. apply enforce_funnel_fixed. exact Hp. }
  split; [apply Hfixed |].
  apply Hfixed. unfold _apply_compounding_effects. apply enforce_funnel_funnel.
Qed.

(** X16 on the base probabilities of three full scores. *)
Lemma X16_witness :
  let base := _calculate_base_probabilities (Inputs.ats_with_score 100)
                Inputs.clean_recruiter Inputs.clean_interview in
  _apply_compounding_effects base no_signals = base.
Proof.
  cbv zeta.
  apply (X16_funnel_is_kept _ no_signals).
  unfold funnel. vm_compute. repeat split; discriminate.
Defined.

End ScoringResults.

(** ** The orchestrator with the stage methods of the source *)

Section SourceStages.
Import Orchestrator.
Local Open Scope Q_scope.

Context {Data : Type} (clock : nat -> Q).

Lemma not_implemented_keeps_bookkeeping : keeps_bookkeeping (@not_implemented Data).
Proof. intros ctx. split; reflexivity. Qed.

Lemma source_stages_keep_bookkeeping (name : string) (m : stage_method Data) :
  In (name, m) (stages source_methods) -> keeps_bookkeeping m.
Proof.
  cbn [stages source_methods In _run_parsing _run_feature_extraction _run_ats_simulation
         _run_recruiter_evaluation _run_interview_readiness _run_scoring _run_explainability].
  intros H.
  repeat (destruct H as [[= _ <-] | H]; [apply not_implemented_keeps_bookkeeping |]).
  destruct H.
Qed.

Lemma run_stage_data (st : nat * AnalysisContext Data) (name : string) :
  data (snd (run_stage clock st (name, not_implemented))) = data (snd st)
  /\ analysis_id (snd (run_stage clock st (name, not_implemented))) = analysis_id (snd st)
  /\ start_time (snd (run_stage clock st (name, not_implemented))) = start_time (snd st).
Proof. destruct st as [tick ctx]. repeat split. Qed.

(** X17. With the stage methods of the repository, which all raise
    NotImplementedError, a run ends every one of the seven stages with the
    status "failed" and a recorded duration, leaves the other entries of the
    two maps as they were, fills the start time when it was not set, keeps
    one that was set, and changes nothing else of the context. *)
Theorem X17_source_stages_all_fail (utcnow : Q) (ctx : AnalysisContext Data) :
  let final := run clock source_methods utcnow ctx in
  (forall k name, nth_error stage_names k = Some name ->
     stage_statuses final !! name = Some "failed"%string
     /\ stage_timings final !! name = Some (clock (S (2 * k)) - clock (2 * k)))
  /\ (forall name, ~ In name stage_names ->
        stage_statuses final !! name = stage_statuses ctx !! name
        /\ stage_timings final !! name = stage_timings ctx !! name)
  /\ start_time final = Some (default utcnow (start_time ctx))
  /\ data final = data ctx
  /\ analysis_id final = analysis_id ctx.
Proof.
  cbv zeta.
  assert (Hnames : map fst (stages (@source_methods Data)) = stage_names) by reflexivity.
  split; [| split].
  - intros k name Hk.
    assert (Hnth : nth_error (stages (@source_methods Data)) k = Some (name, not_implemented)).
    { do 7 (destruct k as [| k]; [injection Hk as <-; reflexivity |]).
      destruct k; discriminate. }
    destruct (run_stages_spec clock (stages source_methods)
                (O, ensure_start_time utcnow ctx) k name not_implemented)
      as (Htick & Hs & Ht).
    + apply stages_distinct.
    + apply source_stages_keep_bookkeeping.
    + exact Hnth.
    + cbn [fst] in Htick. change (0 + 2 * k)%nat with (2 * k)%nat in Htick.
      unfold run. rewrite Hs, Ht, Htick. split; reflexivity.
  - intros name Hnot.
    destruct (run_stages_frame clock (stages source_methods)
                (O, ensure_start_time utcnow ctx) name) as [Hs Ht].
    + apply source_stages_keep_bookkeeping.
    + rewrite Hnames. exact Hnot.
    + unfold run. rewrite Hs, Ht. cbn [snd].
      unfold ensure_start_time. destruct (start_time ctx); split; reflexivity.
  - unfold run, run_stages, stages, source_methods, ensure_start_time.
    cbn [fold_left _run_parsing _run_feature_extraction _run_ats_simulation
           _run_recruiter_evaluation _run_interview_readiness _run_scoring
           _run_explainability].
    destruct (start_time ctx) as [t |] eqn:Est; cbn [default from_option id];
      (split; [| split; reflexivity]).
    + cbn [run_stage not_implemented snd start_time set_timing set_status]. exact Est.
    + reflexivity.
Qed.

End SourceStages.

(** ** Results of the recruiter evaluator *)

Section RecruiterResults.
Import Features Recruiter RecruiterEvaluator.
Local Open Scope Q_scope.

(** [max(0.0, min(100.0, round(x, 2)))] on a whole number. *)
Lemma clamp_round_int (x : Q) (n : Z) :
  x == inject_Z n ->
  py_max 0 (py_min 100 (round2 x)) == inject_Z (Z.max 0 (Z.min 100 n)).
Proof.
  intros Hx. apply round2_int in Hx. set (y := round2 x) in *. clearbody y.
  destruct (py_min_cases 100 y) as [[Hm ->] | [Hm ->]].
  - rewrite Hx in Hm. change 100 with (inject_Z 100) in Hm. rewrite <- Zlt_Qlt in Hm.
    destruct (py_max_cases 0 y) as [[H0 ->] | [H0 ->]].
    + rewrite Hx in *. change 0 with (inject_Z 0) in H0. rewrite <- Zlt_Qlt in H0.
      apply inject_Z_injective. lia.
    + rewrite Hx in H0. change 0 with (inject_Z 0) in H0. rewrite <- Zle_Qle in H0.
      change 0 with (inject_Z 0). apply inject_Z_injective. lia.
  - rewrite Hx in Hm. change 100 with (inject_Z 100) in Hm. rewrite <- Zle_Qle in Hm.
    destruct (py_max_cases 0 100) as [[H0 ->] | [H0 ->]];
      [| exfalso; apply (Qlt_not_le 0 100); [reflexivity | exact H0]].
    change 100 with (inject_Z 100). apply inject_Z_injective. lia.
Qed.

Lemma deduct_flag_points (s : Q) (f : RecruiterRedFlag) :
  deduct_flag s f == s - inject_Z (flag_points f).
Proof.
  unfold deduct_flag, flag_points.
  destruct (str_eqb (severity f) (str_of "critical")),
    (str_eqb (severity f) (str_of "high")), (str_eqb (severity f) (str_of "medium")),
    (str_eqb (severity f) (str_of "low"));
    unfold inject_Z; lra.
Qed.

Lemma fold_deduct_flags (flags : list RecruiterRedFlag) (s : Q) (n : Z) :
  s == inject_Z n ->
  fold_left deduct_flag flags s == inject_Z (n - total_flag_points flags).
Proof.
  unfold total_flag_points.
  revert s n. induction flags as [| f flags IH]; intros s n Hs; cbn [fold_left fold_right].
  - rewrite Z.sub_0_r. exact Hs.
  - rewrite (IH _ (n - flag_points f)%Z).
    + apply inject_Z_injective. lia.
    + rewrite deduct_flag_points, Hs. unfold Zminus.
      rewrite inject_Z_plus, inject_Z_opp. lra.
Qed.

Lemma flag_points_range (f : RecruiterRedFlag) : (0 <= flag_points f <= 20)%Z.
Proof.
  unfold flag_points.
  destruct (str_eqb (severity f) (str_of "critical")),
    (str_eqb (severity f) (str_of "high")), (str_eqb (severity f) (str_of "medium")),
    (str_eqb (severity f) (str_of "low")); lia.
Qed.

Lemma total_flag_points_nonneg (flags : list RecruiterRedFlag) :
  (0 <= total_flag_points flags)%Z.
Proof.
  unfold total_flag_points. induction flags as [| f flags IH]; cbn [fold_right]; [lia |].
  pose proof (flag_points_range f). lia.
Qed.

Lemma total_flag_points_app (a b : list RecruiterRedFlag) :
  total_flag_points (a ++ b) = (total_flag_points a + total_flag_points b)%Z.
Proof.
  unfold total_flag_points. induction a as [| f a IH]; cbn [app fold_right]; [lia |].
  rewrite IH. lia.
Qed.

Lemma evaluation_score_closed (c s : Q) (flags : list RecruiterRedFlag) :
  5 # 10 <= c -> 5 # 10 <= s ->
  _compute_evaluation_score c s flags
  == inject_Z (Z.max 0 (100 - total_flag_points flags)).
Proof.
  intros Hc Hs. unfold _compute_evaluation_score.
  apply Qltb_false in Hc, Hs. rewrite Hc, Hs.
  rewrite (clamp_round_int _ (100 - total_flag_points flags)).
  - pose proof (total_flag_points_nonneg flags). apply inject_Z_injective. lia.
  - apply fold_deduct_flags. reflexivity.
Qed.

(** X18. The evaluation score lies between 0 and 100 for all scores and red
    flags.  When neither the career score nor the stability score is under
    0.5 it is 100 less 20, 10, 5 and 2 points for each critical, high,
    medium and low red flag, and 0 when the points exceed 100. *)
Theorem X18_evaluation_score_closed_form
    (c s : Q) (flags : list RecruiterRedFlag) :
  0 <= _compute_evaluation_score c s flags <= 100
  /\ (5 # 10 <= c -> 5 # 10 <= s ->
      _compute_evaluation_score c s flags
      == inject_Z (Z.max 0 (100 - total_flag_points flags))).
Proof.
  split; [| apply evaluation_score_closed].
  unfold _compute_evaluation_score. split.
  - apply py_max_ge_l.
  - apply py_max_lub; [lra | apply py_min_le_l].
Qed.

(** X18 on full scores and the two flags of an empty work history. *)
Lemma X18_witness :
  _compute_evaluation_score 1 1 [no_tenure_flag; no_achievements_flag]
  == inject_Z (Z.max 0 (100 - total_flag_points [no_tenure_flag; no_achievements_flag])).
Proof.
  apply (X18_evaluation_score_closed_form 1 1 [no_tenure_flag; no_achievements_flag]);
    vm_compute; discriminate.
Defined.

Lemma py_min_pos (a b : Q) : 0 < a -> 0 < b -> 0 < py_min a b.
Proof. intros Ha Hb. destruct (py_min_cases a b) as [[H ->] | [H ->]]; lra. Qed.

Lemma py_min_nonneg_le (a b : Q) : 0 < a -> 0 < b -> 0 < py_min a b <= a.
Proof. intros Ha Hb. split; [apply py_min_pos; assumption | apply py_min_le_l]. Qed.

(** X19. The job stability score lies between 0 and 1 and at most three red
    flags are raised with it.  Every deduction comes with a red flag and
    every red flag with a deduction: no flag is raised exactly when the
    score is 1, which is exactly when the average tenure is at least 12
    months, no job had a short tenure and the gaps, if any, total at most 6
    months. *)
Theorem X19_stability_deductions_are_flagged (analysis : JobStabilityAnalysis) :
  let score := fst (_compute_job_stability_score analysis) in
  let flags := snd (_compute_job_stability_score analysis) in
  let total_gap_months :=
    fold_left (fun acc gap => acc + duration_months gap) (employment_gaps analysis) 0 in
  0 <= score <= 1
  /\ (length flags <= 3)%nat
  /\ (flags = [] <-> score == 1)
  /\ (flags = [] <->
      12 <= average_tenure_months analysis
      /\ (short_tenure_jobs_count analysis <= 0)%Z
      /\ (employment_gaps analysis = [] \/ total_gap_months <= 6)).
Proof.
  cbv zeta. unfold _compute_job_stability_score.
  set (avg := average_tenure_months analysis).
  set (short := short_tenure_jobs_count analysis).
  set (gaps := employment_gaps analysis).
  set (total := fold_left (fun acc gap => acc + duration_months gap) gaps 0).
  set (f1 := {| flag_type := str_of "job_hopping";
                severity := if Qltb avg 6 then _ else _ |}).
  set (f2 := {| flag_type := str_of "job_hopping";
                severity := if (short =? 1)%Z then _ else _ |}).
  set (f3 := {| flag_type := str_of "employment_gap" |}).
  clearbody f1 f2 f3.
  set (p1 := py_min (4 # 10) ((12 - avg) / 12 * (4 # 10))).
  set (p2 := py_min (3 # 10) (inject_Z short * (1 # 10))).
  set (p3 := py_min (3 # 10) ((total - 6) / 12)).
  assert (H1 : Qltb avg 12 = true -> 0 < p1 <= 4 # 10).
  { intros H. apply Qltb_true in H. apply py_min_nonneg_le; [reflexivity |].
    apply Qmult_lt_0_compat; [| reflexivity].
    apply Qlt_shift_div_l; [reflexivity | lra]. }
  assert (H2 : (0 <? short)%Z = true -> 0 < p2 <= 3 # 10).
  { intros H. apply Z.ltb_lt in H. apply py_min_nonneg_le; [reflexivity |].
    apply Qmult_lt_0_compat; [| reflexivity].
    change 0 with (inject_Z 0). rewrite <- Zlt_Qlt. exact H. }
  assert (H3 : Qltb 6 total = true -> 0 < p3 <= 3 # 10).
  { intros H. apply Qltb_true in H. apply py_min_nonneg_le; [reflexivity |].
    apply Qlt_shift_div_l; [reflexivity | lra]. }
  assert (Hclamp : forall x, 0 <= x <= 1 -> py_max 0 (py_min 1 x) == x).
  { intros x Hx. destruct (py_min_cases 1 x) as [[Hm ->] | [Hm ->]].
    - destruct (py_max_cases 0 x) as [[H0 ->] | [H0 ->]]; lra.
    - destruct (py_max_cases 0 1) as [[H0 ->] | [H0 ->]]; lra. }
  clearbody p1 p2 p3.
  destruct (Qltb avg 12) eqn:E1; [specialize (H1 eq_refl) | apply Qltb_false in E1];
    (destruct (0 <? short)%Z eqn:E2;
       [specialize (H2 eq_refl); apply Z.ltb_lt in E2 | apply Z.ltb_ge in E2]);
    (destruct (nonempty gaps) eqn:E3;
       [destruct (Qltb 6 total) eqn:E4;
          [specialize (H3 eq_refl); apply Qltb_true in E4 | apply Qltb_false in E4]
       | assert (E3' : gaps = []) by (destruct gaps; [reflexivity | discriminate])]);
    cbn [fst snd app length];
    try apply Qltb_true in E1;
    match goal with
    | |- context [py_max 0 (py_min 1 ?x)] =>
        let H := fresh "Hx" in
        assert (H : py_max 0 (py_min 1 x) == x) by (apply Hclamp; lra);
        rewrite H
    end;
    (split; [lra |]); (split; [lia |]);
    (split;
     [ split; [first [discriminate | intros _; lra]
              | first [intros _; reflexivity | intros H'; exfalso; lra]]
     | split;
       [ first
           [ discriminate
           | intros _; split; [lra |]; split; [lia |];
             first [left; assumption | right; assumption] ]
       | first
           [ intros _; reflexivity
           | intros (Ha & Hb & Hc); exfalso;
             first
               [ lra | lia
               | destruct Hc as [Hc | Hc];
                 [rewrite Hc in E3; discriminate | lra] ] ] ] ]).
Qed.

Lemma stability_of_resume (r : ParsedResumeInternal) :
  let out := _compute_job_stability_score (_analyze_job_stability r) in
  (work_experience r = [] /\ fst out == 6 # 10 /\ snd out = [no_tenure_flag])
  \/ (work_experience r <> [] /\ fst out == 1 /\ snd out = []).
Proof.
  cbv zeta. unfold _analyze_job_stability.
  destruct (work_experience r) as [| job jobs].
  - left. split; [reflexivity |]. split; vm_compute; reflexivity.
  - right. split; [discriminate |]. split; vm_compute; reflexivity.
Qed.

(** What the career analysis of a resume can be: no verdict, or one of
    three trajectories with at least one promotion counted. *)
Lemma career_cases (r : ParsedResumeInternal) (a : CareerProgressionAnalysis) :
  _analyze_career_progression r = Ok a ->
  let titles := List.filter truthy (map title_of (work_experience r)) in
  (trajectory a = str_of "insufficient_data"
   /\ ((length (work_experience r) < 2)%nat \/ (length titles < 2)%nat))
  \/ ((2 <= length (work_experience r))%nat /\ (2 <= length titles)%nat
      /\ forallb hashable titles = true
      /\ trajectory a
         = (if (length (distinct titles) =? length titles)%nat then str_of "upward"
            else if (length (distinct titles) =? 1)%nat then str_of "lateral"
            else str_of "mixed")
      /\ promotions_count a = Some (zlen titles - 1)%Z
      /\ responsibility_increase a = Some true
      /\ title_progression a = titles).
Proof.
  cbv zeta. unfold _analyze_career_progression.
  set (titles := List.filter truthy (map title_of (work_experience r))).
  destruct (negb (nonempty (work_experience r)) || (length (work_experience r) <? 2)%nat)
    eqn:Eshort.
  - intros [= <-]. left. split; [reflexivity |]. left.
    apply orb_prop in Eshort as [H | H].
    + destruct (work_experience r); [simpl; lia | discriminate].
    + apply Nat.ltb_lt in H. exact H.
  - apply Bool.orb_false_elim in Eshort as [_ Hlen]. apply Nat.ltb_ge in Hlen.
    destruct (2 <=? length titles)%nat eqn:Et.
    + apply Nat.leb_le in Et. unfold len_set.
      destruct (forallb hashable titles) eqn:Eh; [| discriminate].
      cbn [bind].
      assert (Hp : (0 <? zlen titles - 1)%Z = true)
        by (apply Z.ltb_lt; unfold zlen; lia).
      rewrite Hp.
      assert (Hr : (1 <? length (work_experience r))%nat = true)
        by (apply Nat.ltb_lt; lia).
      rewrite Hr.
      destruct (length (distinct titles) =? length titles)%nat;
        [| destruct (length (distinct titles) =? 1)%nat];
        cbn [bind]; intros [= <-]; right; repeat split; assumption.
    + apply Nat.leb_gt in Et. cbn [bind]. intros [= <-]. left.
      split; [reflexivity |]. right. exact Et.
Qed.

Lemma career_score_range (r : ParsedResumeInternal) (a : CareerProgressionAnalysis) :
  _analyze_career_progression r = Ok a ->
  trajectory a <> str_of "downward"
  /\ ((trajectory a = str_of "insufficient_data"
       /\ _compute_career_progression_score a = 5 # 10)
      \/ (65 # 100 <= _compute_career_progression_score a <= 1)).
Proof.
  intros Ha. destruct (career_cases r a Ha) as [[Ht _] | (_ & Hlen & _ & Ht & Hp & Hr & _)].
  - split; [rewrite Ht; discriminate |]. left. split; [exact Ht |].
    unfold _compute_career_progression_score. rewrite Ht. reflexivity.
  - set (titles := List.filter truthy (map title_of (work_experience r))) in *.
    assert (Hn : (1 <= zlen titles - 1)%Z) by (unfold zlen; lia).
    set (n := (zlen titles - 1)%Z) in *. clearbody n.
    assert (Hpos : negb (n =? 0)%Z && (0 <? n)%Z = true).
    { apply andb_true_intro. split; [apply negb_true_iff, Z.eqb_neq | apply Z.ltb_lt]; lia. }
    assert (Hq : 5 # 100 <= inject_Z n * (5 # 100)).
    { assert (H1 : 1 <= inject_Z n) by (change 1 with (inject_Z 1); rewrite <- Zle_Qle; lia).
      lra. }
    split.
    + rewrite Ht.
      destruct (length (distinct titles) =? length titles)%nat;
        [| destruct (length (distinct titles) =? 1)%nat]; discriminate.
    + right. unfold _compute_career_progression_score. rewrite Hp, Hr, Hpos.
      assert (Hm : 5 # 100 <= py_min (2 # 10) (inject_Z n * (5 # 100)) <= 2 # 10).
      { split; [apply py_min_glb; lra | apply py_min_le_l]. }
      set (m := py_min (2 # 10) (inject_Z n * (5 # 100))) in *. clearbody m.
      rewrite Ht.
      destruct (length (distinct titles) =? length titles)%nat;
        [| destruct (length (distinct titles) =? 1)%nat];
        match goal with
        | |- context [str_eqb ?s (str_of "insufficient_data")] =>
            let b := eval vm_compute in (str_eqb s (str_of "insufficient_data")) in
            change (str_eqb s (str_of "insufficient_data")) with b
        end;
        repeat match goal with
               | |- context [str_eqb ?s (str_of ?t)] =>
                   let b := eval vm_compute in (str_eqb s (str_of t)) in
                   change (str_eqb s (str_of t)) with b
               end;
        cbv iota;
        match goal with
        | |- _ <= py_max 0 (py_min 1 ?y) <= _ =>
            destruct (py_min_cases 1 y) as [[Hy ->] | [Hy ->]];
            [destruct (py_max_cases 0 y) as [[Hz ->] | [Hz ->]]
            |destruct (py_max_cases 0 1) as [[Hz ->] | [Hz ->]]]; lra
        end.
Qed.
Lemma length_flags_points (len : Z) :
  (length (length_flags len) <= 1)%nat
  /\ (total_flag_points (length_flags len)
      = if (len <? 200)%Z then 5 else if (1500 <? len)%Z then 2 else 0)%Z.
Proof.
  unfold length_flags.
  destruct (len <? 200)%Z; [split; [simpl; lia | reflexivity] |].
  destruct (1500 <? len)%Z; split; simpl; try lia; reflexivity.
Qed.

(** [x or 0] on an optional integer. *)
Lemma or_zero (o : option Z) :
  match o with Some n => if (n =? 0)%Z then 0%Z else n | None => 0%Z end = default 0%Z o.
Proof.
  destruct o as [n |]; [| reflexivity]. cbn [default from_option id].
  destruct (n =? 0)%Z eqn:E; [apply Z.eqb_eq in E; congruence | reflexivity].
Qed.

Lemma quality_flags_shape (r : ParsedResumeInternal) (fv : FeatureVectorInternal)
    (flags : list RecruiterRedFlag) :
  _check_resume_quality r fv = Ok flags ->
  let len := default 0%Z (resume_length_words (quantitative fv)) in
  flags = length_flags len \/ flags = length_flags len ++ [no_achievements_flag].
Proof.
  cbv zeta. unfold _check_resume_quality. rewrite or_zero.
  destruct (count_achievements (work_experience r) 0) as [n | e]; [| discriminate].
  cbn [bind]. destruct (n =? 0)%Z; intros [= <-]; [right | left]; reflexivity.
Qed.

Lemma quality_flags_empty (r : ParsedResumeInternal) (fv : FeatureVectorInternal) :
  work_experience r = [] ->
  _check_resume_quality r fv
  = Ok (length_flags (default 0%Z (resume_length_words (quantitative fv)))
        ++ [no_achievements_flag]).
Proof.
  intros H. unfold _check_resume_quality. rewrite or_zero, H. reflexivity.
Qed.






(** X20. Whatever the resume, a result of the recruiter evaluator has a
    career score of 0.5 (no verdict) or between 0.65 and 1, never the
    trajectory "downward", a stability score of 0.6 for an empty work
    history and 1 otherwise, at most three red flags and an evaluation score
    of 100 less the points of the red flags, which is at least 80; so the
    base probability of the recruiter stage is at least 0.8. *)
Theorem X20_recruiter_scores_are_high
    (r : ParsedResumeInternal) (fv : FeatureVectorInternal) (persona : pystr)
    (ev : Evaluation) :
  evaluate r fv persona = Ok ev ->
  let res := result ev in
  (career_progression_score res = 5 # 10 \/ 65 # 100 <= career_progression_score res <= 1)
  /\ (forall a, career_progression_analysis ev = Some a ->
        trajectory a <> str_of "downward")
  /\ (if nonempty (work_experience r) then job_stability_score res == 1
      else job_stability_score res == 6 # 10)
  /\ (length (red_flags res) <= 3)%nat
  /\ evaluation_score res == inject_Z (100 - total_flag_points (red_flags res))
  /\ 80 <= evaluation_score res <= 100
  /\ recruiter_persona res = Some persona
  /\ (forall ats int,
        8 # 10 <= Scoring.recruiter_pass (Scoring._calculate_base_probabilities ats res int)).
Proof.
  cbv zeta. unfold evaluate.
  destruct (_analyze_career_progression r) as [a | e] eqn:Ea; [| discriminate].
  cbn [bind].
  pose proof (career_score_range r a Ea) as [Hdown Hcareer].
  pose proof (stability_of_resume r) as Hstab. cbv zeta in Hstab.
  destruct (_compute_job_stability_score (_analyze_job_stability r)) as [s sflags].
  cbn [fst snd] in Hstab.
  destruct (_check_resume_quality r fv) as [qflags | e] eqn:Eq; [| discriminate].
  cbn [bind]. intros [= <-]. cbn [result career_progression_analysis
    career_progression_score job_stability_score red_flags evaluation_score
    recruiter_persona].
  pose proof (quality_flags_shape r fv qflags Eq) as Hq. cbv zeta in Hq.
  set (len := default 0%Z (resume_length_words (quantitative fv))) in *.
  pose proof (length_flags_points len) as [Hl1 Hl2].
  set (c := _compute_career_progression_score a) in *.
  assert (Hc : 5 # 10 <= c).
  { destruct Hcareer as [[_ ->] | [H _]]; [apply Qle_refl | lra]. }
  assert (Hs : 5 # 10 <= s).
  { destruct Hstab as [(_ & -> & _) | (_ & -> & _)]; lra. }
  assert (Hpoints : (total_flag_points (sflags ++ qflags) <= 20)%Z
                    /\ (length (sflags ++ qflags) <= 3)%nat).
  { rewrite total_flag_points_app, length_app.
    assert (Hsf : (total_flag_points sflags <= 10)%Z /\ (length sflags <= 1)%nat).
    { destruct Hstab as [(_ & _ & ->) | (_ & _ & ->)]; split; simpl; try lia;
        vm_compute; discriminate. }
    assert (Hqf : (total_flag_points qflags <= 10)%Z /\ (length qflags <= 2)%nat).
    { destruct Hq as [-> | ->].
      - rewrite Hl2. split; [| lia].
        destruct (len <? 200)%Z; [lia |]. destruct (1500 <? len)%Z; lia.
      - rewrite total_flag_points_app, length_app, Hl2.
        change (total_flag_points [no_achievements_flag]) with 5%Z. cbn [length].
        split; [| lia].
        destruct (len <? 200)%Z; [lia |]. destruct (1500 <? len)%Z; lia. }
    lia. }
  destruct Hpoints as [Hpoints Hcount].
  pose proof (total_flag_points_nonneg (sflags ++ qflags)) as Hnonneg.
  pose proof (evaluation_score_closed c s (sflags ++ qflags) Hc Hs) as Hscore.
  rewrite Z.max_r in Hscore by lia.
  split; [destruct Hcareer as [[_ H] | H]; [left; exact H | right; exact H] |].
  split; [intros a' [= <-]; exact Hdown |].
  split.
  { destruct Hstab as [(Hw & Hv & _) | (Hw & Hv & _)].
    - rewrite Hw. exact Hv.
    - destruct (work_experience r); [contradiction | exact Hv]. }
  split; [exact Hcount |].
  split; [exact Hscore |].
  assert (Hrange : 80 <= _compute_evaluation_score c s (sflags ++ qflags) <= 100).
  { rewrite Hscore. change 80 with (inject_Z 80). change 100 with (inject_Z 100).
    rewrite <- !Zle_Qle. lia. }
  split; [exact Hrange |].
  split; [reflexivity |].
  intros ats int. unfold Scoring._calculate_base_probabilities.
  cbn [Scoring.recruiter_pass evaluation_score].
  set (x := _compute_evaluation_score c s (sflags ++ qflags)) in *. clearbody x.
  assert (Hx : 8 # 10 <= x / 100 <= 1).
  { split.
    - apply Qle_shift_div_l; [reflexivity | lra].
    - apply Qle_shift_div_r; [reflexivity | lra]. }
  set (y := x / 100) in *. clearbody y.
  destruct (py_min_cases 1 y) as [[Hm ->] | [Hm ->]].
  - destruct (py_max_cases 0 y) as [[H0 ->] | [H0 ->]]; lra.
  - destruct (py_max_cases 0 1) as [[H0 ->] | [H0 ->]]; lra.
Qed.
(** X20 on the billing resume. *)
Lemma X20_witness :
  exists ev,
    evaluate Inputs.billing_resume empty_features (str_of "generic") = Ok ev
    /\ 80 <= evaluation_score (result ev) <= 100.
Proof.
  eexists. split; [vm_compute; reflexivity |].
  apply (X20_recruiter_scores_are_high Inputs.billing_resume empty_features
           (str_of "generic")).
  vm_compute. reflexivity.
Defined.



(** X22. For a resume without work experience the evaluator always returns:
    no career verdict with the score 0.5, the stability score 0.6, the red
    flag of a zero average tenure first, then the flag of the resume length,
    if any, and the flag of missing achievements; the evaluation score is 85
    less the points of the length flag, that is 80, 83 or 85. *)
Theorem X22_empty_work_history
    (r : ParsedResumeInternal) (fv : FeatureVectorInternal) (persona : pystr) :
  work_experience r = [] ->
  let len := default 0%Z (resume_length_words (quantitative fv)) in
  exists ev,
    evaluate r fv persona = Ok ev
    /\ career_progression_analysis ev = Some insufficient_data
    /\ career_progression_score (result ev) = 5 # 10
    /\ job_stability_score (result ev) == 6 # 10
    /\ red_flags (result ev)
       = no_tenure_flag :: length_flags len ++ [no_achievements_flag]
    /\ evaluation_score (result ev)
       == (if (len <? 200)%Z then 80 else if (1500 <? len)%Z then 83 else 85).
Proof.
  intros Hw. cbv zeta.
  set (len := default 0%Z (resume_length_words (quantitative fv))).
  assert (Ha : _analyze_career_progression r = Ok insufficient_data).
  { unfold _analyze_career_progression. rewrite Hw. reflexivity. }
  pose proof (stability_of_resume r) as Hstab. cbv zeta in Hstab.
  destruct Hstab as [(_ & Hs & Hf) | (Hne & _)]; [| contradiction].
  unfold evaluate. rewrite Ha. cbn [bind].
  destruct (_compute_job_stability_score (_analyze_job_stability r)) as [s sflags].
  cbn [fst snd] in Hs, Hf. subst sflags.
  rewrite (quality_flags_empty r fv Hw). fold len. cbn [bind].
  eexists. split; [reflexivity |].
  cbn [result career_progression_analysis career_progression_score job_stability_score
         red_flags evaluation_score].
  split; [reflexivity |]. split; [reflexivity |]. split; [exact Hs |].
  split; [reflexivity |].
  rewrite evaluation_score_closed.
  - change ([no_tenure_flag] ++ length_flags len ++ [no_achievements_flag])
      with (no_tenure_flag :: length_flags len ++ [no_achievements_flag]).
    change (no_tenure_flag :: length_flags len ++ [no_achievements_flag])
      with ([no_tenure_flag] ++ length_flags len ++ [no_achievements_flag]).
    rewrite !total_flag_points_app.
    destruct (length_flags_points len) as [_ ->].
    change (total_flag_points [no_tenure_flag]) with 10%Z.
    change (total_flag_points [no_achievements_flag]) with 5%Z.
    destruct (len <? 200)%Z; [reflexivity |].
    destruct (1500 <? len)%Z; reflexivity.
  - vm_compute. discriminate.
  - rewrite Hs. vm_compute. discriminate.
Qed.

(** X22 on the empty resume. *)
Lemma X22_witness :
  exists ev,
    evaluate Inputs.empty_resume empty_features (str_of "generic") = Ok ev
    /\ red_flags (result ev)
       = no_tenure_flag :: length_flags 0 ++ [no_achievements_flag]
    /\ evaluation_score (result ev) == 80.
Proof.
  destruct (X22_empty_work_history Inputs.empty_resume empty_features (str_of "generic")
              eq_refl) as (ev & He & _ & _ & _ & Hf & Hs).
  exists ev. split; [exact He |]. split; [exact Hf | exact Hs].
Defined.

End RecruiterResults.

(** ** The ranked risk factors *)

Section RankedRisks.
Import Scoring RiskFactors.
Local Open Scope Q_scope.

Lemma negative_signals_strict ats rec int :
  Forall strict_penalty (negative_signals (apply ats rec int)).
Proof.
  unfold apply.
  pose proof (risk_compounding_shape ats rec int) as [Hrisk _].
  set (risk := _analyze_risk_compounding ats rec int) in *. clearbody risk.
  pose proof (ats_influence_sign ats rec) as Ha.
  set (a := _analyze_ats_influence ats rec) in *. clearbody a.
  pose proof (interview_dominance_sign int) as Hd.
  set (d := _analyze_interview_dominance int) in *. clearbody d.
  destruct Ha as [[_ Ha] | [_ Ha]].
  - rewrite (strict_boost_positive a Ha).
    destruct d as [s |]; [| exact Hrisk].
    destruct Hd as [Hs | Hs].
    + rewrite (strict_boost_not_negative s Hs). exact Hrisk.
    + rewrite (strict_penalty_negative s Hs). constructor; assumption.
  - rewrite (strict_penalty_not_positive a Ha).
    destruct d as [s |]; [| constructor; assumption].
    destruct Hd as [Hs | Hs].
    + rewrite (strict_boost_not_negative s Hs). constructor; assumption.
    + rewrite (strict_penalty_negative s Hs).
      cbn [negative_signals app]. repeat (constructor; [assumption |]). exact Hrisk.
Qed.

Lemma recruiter_impact_negative (s : pystr) : recruiter_impact s < 0.
Proof.
  unfold recruiter_impact.
  repeat match goal with |- context [if ?b then _ else _] => destruct b end; reflexivity.
Qed.

Lemma interview_impact_negative (s : pystr) : interview_impact s < 0.
Proof.
  unfold interview_impact.
  repeat match goal with |- context [if ?b then _ else _] => destruct b end; reflexivity.
Qed.

Lemma signal_risk_factors_strict (s : SignalImpact) :
  strict_penalty s ->
  exists x, signal_risk_factors s = [x] /\ impact_on_overall_probability x < 0.
Proof.
  intros (e & _ & He & Hneg). unfold signal_risk_factors. rewrite He.
  eexists. split; [reflexivity |]. cbn [impact_on_overall_probability]. lra.
Qed.

Lemma collected_negative ats rec int (summary : SignalCompoundingSummary) :
  Forall strict_penalty (negative_signals summary) ->
  Forall (fun x => impact_on_overall_probability x < 0)
    (collected_risk_factors ats rec int summary)
  /\ length (collected_risk_factors ats rec int summary)
     = ((if Qltb (ATS.compatibility_score ats) 50 then 1 else 0)
        + length (Recruiter.red_flags rec)
        + length (Interview.consistency_risks int)
        + length (negative_signals summary))%nat.
Proof.
  intros Hneg. unfold collected_risk_factors.
  assert (Hats : Forall (fun x => impact_on_overall_probability x < 0) (ats_risk_factors ats)
                 /\ length (ats_risk_factors ats)
                    = (if Qltb (ATS.compatibility_score ats) 50 then 1 else 0)%nat).
  { unfold ats_risk_factors. destruct (Qltb (ATS.compatibility_score ats) 50) eqn:E.
    - split; [| reflexivity]. constructor; [| constructor].
      cbn [impact_on_overall_probability]. apply Qltb_true in E.
      assert (H : 0 < (50 - ATS.compatibility_score ats) / 100)
        by (apply Qlt_shift_div_l; [reflexivity | lra]).
      set (x := (50 - ATS.compatibility_score ats) / 100) in *. lra.
    - split; [constructor | reflexivity]. }
  assert (Hsig : Forall (fun x => impact_on_overall_probability x < 0)
                   (flat_map signal_risk_factors (negative_signals summary))
                 /\ length (flat_map signal_risk_factors (negative_signals summary))
                    = length (negative_signals summary)).
  { induction Hneg as [| s l Hs Hl [IH1 IH2]]; [split; [constructor | reflexivity] |].
    cbn [flat_map]. destruct (signal_risk_factors_strict s Hs) as (x & -> & Hx).
    cbn [app length]. split; [constructor; assumption | rewrite IH2; reflexivity]. }
  destruct Hats as [Ha1 Ha2]. destruct Hsig as [Hs1 Hs2].
  split.
  - repeat apply Forall_app_2; try assumption.
    + apply List.Forall_forall. intros x Hx. apply in_map_iff in Hx as (f & <- & _).
      apply recruiter_impact_negative.
    + apply List.Forall_forall. intros x Hx. apply in_map_iff in Hx as (f & <- & _).
      apply interview_impact_negative.
  - rewrite !length_app, !length_map, Ha2, Hs2. lia.
Qed.

Lemma impact_key_le (a b : RiskFactor) :
  Recommendations.key_le impact_key a b <-> at_least_as_severe a b.
Proof.
  unfold Recommendations.key_le, at_least_as_severe. rewrite key_le_spec.
  unfold impact_key. cbn [fst snd]. split.
  - intros [H | [_ H]]; [lia | exact H].
  - intros H. right. split; [reflexivity | exact H].
Qed.

Lemma strongly_sorted_impl {A : Type} (R S : A -> A -> Prop) (l : list A) :
  StronglySorted R l -> (forall a b, R a b -> S a b) -> StronglySorted S l.
Proof.
  intros Hs Himpl. induction Hs as [| a l Hl IH Hall]; constructor; [exact IH |].
  eapply List.Forall_impl; [| exact Hall]. intros b. apply Himpl.
Qed.

(** X23. The risk factors of an aggregated score are the collected ones,
    one for an ATS score under 50, one per recruiter red flag, one per
    interview consistency risk and one per negative signal, ordered by
    their impact with the most negative first and, among equal impacts, in
    the order of collection; every impact is negative. *)
Theorem X23_risk_factors_ranked
    (ats : ATS.ATSResultInternal) (rec : Recruiter.RecruiterResultInternal)
    (int : Interview.InterviewReadinessResultInternal) :
  let collected := collected_risk_factors ats rec int (apply ats rec int) in
  let ranked := risk_factors (RiskFactors.aggregate ats rec int) in
  Permutation ranked collected
  /\ StronglySorted at_least_as_severe ranked
  /\ (forall q : Q,
        List.filter (fun x => Qeqb (impact_on_overall_probability x) q) ranked
        = List.filter (fun x => Qeqb (impact_on_overall_probability x) q) collected)
  /\ Forall (fun x => impact_on_overall_probability x < 0) ranked
  /\ length ranked
     = ((if Qltb (ATS.compatibility_score ats) 50 then 1 else 0)
        + length (Recruiter.red_flags rec)
        + length (Interview.consistency_risks int)
        + length (negative_signals (apply ats rec int)))%nat.
Proof.
  cbv zeta. unfold RiskFactors.aggregate. cbn [risk_factors]. unfold _rank_risk_factors.
  set (collected := collected_risk_factors ats rec int (apply ats rec int)).
  pose proof (collected_negative ats rec int (apply ats rec int)
                (negative_signals_strict ats rec int)) as [Hneg Hlen].
  fold collected in Hneg, Hlen.
  pose proof (sorted_perm impact_key collected) as Hperm.
  split; [exact Hperm |]. split; [| split; [| split]].
  - assert (Hs : StronglySorted (Recommendations.key_le impact_key)
                   (Recommendations.sorted impact_key collected)).
    { apply Sorted_StronglySorted; [apply key_le_transitive | apply sorted_sorted]. }
    apply (strongly_sorted_impl _ _ _ Hs). intros a b. apply impact_key_le.
  - intros q.
    pose proof (sorted_stable impact_key (0%Z, q) collected) as Hst.
    unfold Recommendations.key_eq, impact_key in Hst. cbn [fst snd] in Hst.
    exact Hst.
  - apply List.Forall_forall. intros x Hx.
    rewrite List.Forall_forall in Hneg. apply Hneg.
    apply (Permutation_in x Hperm). exact Hx.
  - rewrite (Permutation_length Hperm). exact Hlen.
Qed.

End RankedRisks.

(** ** The generated recommendations *)

Section Recommending.
Import Recommendations RiskFactors RecommendationEngine.
Local Open Scope Q_scope.

Lemma red_flag_recommendation_cases (f : Recruiter.RecruiterRedFlag) :
  (known_flag f = true /\ exists rec, red_flag_recommendation f = [rec]
                                      /\ reference rec = flag_reference f)
  \/ (known_flag f = false /\ red_flag_recommendation f = []).
Proof.
  unfold known_flag, red_flag_recommendation, mem. cbn [map existsb].
  destruct (str_eqb (Recruiter.flag_type f) (str_of "job_hopping"));
    [left; split; [reflexivity |]; eexists; split; reflexivity |].
  destruct (str_eqb (Recruiter.flag_type f) (str_of "employment_gap"));
    [left; split; [reflexivity |]; eexists; split; reflexivity |].
  destruct (str_eqb (Recruiter.flag_type f) (str_of "generic_resume"));
    [left; split; [reflexivity |]; eexists; split; reflexivity |].
  destruct (str_eqb (Recruiter.flag_type f) (str_of "formatting_issues"));
    [left; split; [reflexivity |]; eexists; split; reflexivity |].
  right. split; reflexivity.
Qed.

Lemma risk_recommendation_cases (k : Interview.ConsistencyRisk) :
  (known_risk k = true /\ exists rec, risk_recommendation k = [rec]
                                      /\ reference rec = risk_reference k)
  \/ (known_risk k = false /\ risk_recommendation k = []).
Proof.
  unfold known_risk, risk_recommendation, mem. cbn [map existsb].
  destruct (str_eqb (Interview.risk_type k) (str_of "vague_claim"));
    [left; split; [reflexivity |]; eexists; split; reflexivity |].
  destruct (str_eqb (Interview.risk_type k) (str_of "overstated_achievement"));
    [left; split; [reflexivity |]; eexists; split; reflexivity |].
  destruct (str_eqb (Interview.risk_type k) (str_of "skill_depth_mismatch"));
    [left; split; [reflexivity |]; eexists; split; reflexivity |].
  destruct (str_eqb (Interview.risk_type k) (str_of "missing_context"));
    [left; split; [reflexivity |]; eexists; split; reflexivity |].
  right. split; reflexivity.
Qed.

Lemma flat_map_references {A : Type} (gen : A -> list Recommendation)
    (known : A -> bool) (ref : A -> option pystr * pystr * pystr) (l : list A) :
  (forall x, (known x = true /\ exists rec, gen x = [rec] /\ reference rec = ref x)
             \/ (known x = false /\ gen x = [])) ->
  map reference (flat_map gen l) = map ref (List.filter known l).
Proof.
  intros Hgen. induction l as [| x l IH]; [reflexivity |].
  cbn [flat_map List.filter].
  destruct (Hgen x) as [[-> (rec & -> & Href)] | [-> ->]].
  - cbn [app map]. rewrite Href, IH. reflexivity.
  - exact IH.
Qed.

(** X24. The recommendations for the recruiter stage are, in order, one
    for each red flag of a known type (job_hopping, employment_gap,
    generic_resume, formatting_issues), each naming the type as its risk
    and the description of the flag as its reasoning; the recommendations
    for the interview stage are the same for the consistency risks of the
    types vague_claim, overstated_achievement, skill_depth_mismatch and
    missing_context.  A flag or risk of another type gets none. *)
Theorem X24_one_recommendation_per_known_risk
    (rec : Recruiter.RecruiterResultInternal)
    (int : Interview.InterviewReadinessResultInternal) :
  map reference (_generate_recruiter_recommendations rec)
  = map flag_reference (List.filter known_flag (Recruiter.red_flags rec))
  /\ map reference (_generate_interview_recommendations int)
     = map risk_reference (List.filter known_risk (Interview.consistency_risks int)).
Proof.
  split.
  - apply flat_map_references. apply red_flag_recommendation_cases.
  - apply flat_map_references. apply risk_recommendation_cases.
Qed.

Lemma filter_all {A : Type} (f : A -> bool) (l : list A) :
  forallb f l = true -> List.filter f l = l.
Proof.
  induction l as [| x l IH]; [reflexivity |]. cbn [forallb List.filter].
  intros H. apply andb_prop in H as [-> Hl]. rewrite (IH Hl). reflexivity.
Qed.

Lemma evaluator_flags_known (r : ParsedResumeInternal)
    (fv : Features.FeatureVectorInternal) (persona : pystr)
    (ev : RecruiterEvaluator.Evaluation) :
  RecruiterEvaluator.evaluate r fv persona = RecruiterEvaluator.Ok ev ->
  forallb known_flag (Recruiter.red_flags (RecruiterEvaluator.result ev)) = true.
Proof.
  unfold RecruiterEvaluator.evaluate.
  destruct (RecruiterEvaluator._analyze_career_progression r) as [a | e]; [| discriminate].
  cbn [RecruiterEvaluator.bind].
  pose proof (stability_of_resume r) as Hstab. cbv zeta in Hstab.
  destruct (RecruiterEvaluator._compute_job_stability_score
              (RecruiterEvaluator._analyze_job_stability r)) as [s sflags].
  cbn [fst snd] in Hstab.
  destruct (RecruiterEvaluator._check_resume_quality r fv) as [qflags | e] eqn:Eq;
    [| discriminate].
  cbn [RecruiterEvaluator.bind]. intros [= <-].
  cbn [RecruiterEvaluator.result Recruiter.red_flags].
  pose proof (quality_flags_shape r fv qflags Eq) as Hq. cbv zeta in Hq.
  set (len := default 0%Z (Features.resume_length_words (Features.quantitative fv))) in *.
  assert (Hlen : forallb known_flag (RecruiterEvaluator.length_flags len) = true).
  { unfold RecruiterEvaluator.length_flags.
    destruct (len <? 200)%Z; [reflexivity |]. destruct (1500 <? len)%Z; reflexivity. }
  rewrite forallb_app.
  assert (Hs : forallb known_flag sflags = true)
    by (destruct Hstab as [(_ & _ & ->) | (_ & _ & ->)]; reflexivity).
  rewrite Hs. cbn [andb].
  destruct Hq as [-> | ->]; [exact Hlen |].
  rewrite forallb_app, Hlen. reflexivity.
Qed.

Lemma forallb_flat_map {A B : Type} (p : B -> bool) (g : A -> list B) (l : list A) :
  (forall x, forallb p (g x) = true) -> forallb p (flat_map g l) = true.
Proof.
  intros Hg. induction l as [| x l IH]; [reflexivity |].
  cbn [flat_map]. rewrite forallb_app, Hg, IH. reflexivity.
Qed.

Lemma interview_risks_known (order : Interview.iteration_order)
    (r : ParsedResumeInternal) (claims : list Interview.ResumeClaim)
    (risks : list Interview.ConsistencyRisk) :
  Interview._identify_consistency_risks order r claims = Interview.Ok risks ->
  forallb known_risk risks = true.
Proof.
  unfold Interview._identify_consistency_risks.
  destruct (Interview.skills_used (skills r) (work_experience r) ∅) as [used | e];
    [| discriminate].
  cbn [Interview.bind]. intros [= <-].
  rewrite !forallb_app.
  apply andb_true_intro. split; [apply andb_true_intro; split |].
  - destruct (nonempty _); reflexivity.
  - apply forallb_flat_map. intros c.
    destruct (negb (nonempty (Interview.supporting_evidence c))
              && Qltb (Interview.defensibility_score c) (5 # 10)); [| reflexivity].
    destruct (Qltb (Interview.defensibility_score c) (4 # 10)); reflexivity.
  - apply forallb_flat_map. intros c.
    match goal with |- context [if ?b then _ else _] => destruct b end; reflexivity.
Qed.

(** X25. Every red flag the recruiter evaluator raises and every
    consistency risk the interview evaluator identifies is of a type the
    recommendation engine knows: the recommendations for the two stages
    are, in order, one per red flag and one per risk. *)
Theorem X25_evaluator_risks_all_get_recommendations
    (order : Interview.iteration_order) (r : ParsedResumeInternal)
    (fv : Features.FeatureVectorInternal) (persona : pystr)
    (ev : RecruiterEvaluator.Evaluation)
    (int : Interview.InterviewReadinessResultInternal) :
  RecruiterEvaluator.evaluate r fv persona = RecruiterEvaluator.Ok ev ->
  Interview.evaluate order r fv = Interview.Ok int ->
  map reference (_generate_recruiter_recommendations (RecruiterEvaluator.result ev))
  = map flag_reference (Recruiter.red_flags (RecruiterEvaluator.result ev))
  /\ map reference (_generate_interview_recommendations int)
     = map risk_reference (Interview.consistency_risks int).
Proof.
  intros Hev Hint.
  unfold _generate_recruiter_recommendations, _generate_interview_recommendations.
  rewrite (flat_map_references red_flag_recommendation known_flag flag_reference _
             red_flag_recommendation_cases).
  rewrite (flat_map_references risk_recommendation known_risk risk_reference _
             risk_recommendation_cases).
  rewrite (filter_all known_flag _ (evaluator_flags_known r fv persona ev Hev)).
  split; [reflexivity |].
  rewrite filter_all; [reflexivity |].
  unfold Interview.evaluate in Hint.
  destruct (Interview._identify_consistency_risks order r
              (Interview._extract_resume_claims r)) as [risks | e] eqn:Er; [| discriminate].
  cbn [Interview.bind] in Hint. injection Hint as <-.
  cbn [Interview.consistency_risks].
  apply (interview_risks_known order r _ risks Er).
Qed.

(** X25 on the billing resume. *)
Lemma X25_witness :
  exists ev int,
    RecruiterEvaluator.evaluate Inputs.billing_resume Features.empty_features
      (str_of "generic") = RecruiterEvaluator.Ok ev
    /\ Interview.evaluate Inputs.listed_order Inputs.billing_resume Features.empty_features
       = Interview.Ok int
    /\ map reference (_generate_recruiter_recommendations (RecruiterEvaluator.result ev))
       = map flag_reference (Recruiter.red_flags (RecruiterEvaluator.result ev))
    /\ map reference (_generate_interview_recommendations int)
       = map risk_reference (Interview.consistency_risks int).
Proof.
  eexists. eexists. split; [vm_compute; reflexivity |]. split; [vm_compute; reflexivity |].
  apply (X25_evaluator_risks_all_get_recommendations Inputs.listed_order
           Inputs.billing_resume Features.empty_features (str_of "generic"));
    vm_compute; reflexivity.
Defined.


Lemma split_char_aux_free (sep : char) (cur s : pystr) :
  existsb (char_eqb sep) s = false -> split_char_aux sep cur s = [rev cur ++ s].
Proof.
  revert cur. induction s as [| c s IH]; intros cur H; cbn [split_char_aux].
  - rewrite app_nil_r. reflexivity.
  - cbn [existsb] in H. apply Bool.orb_false_elim in H as [Hc Hs].
    unfold char_eqb in *. rewrite N.eqb_sym in Hc. rewrite Hc.
    rewrite (IH (c :: cur) Hs). cbn [rev]. rewrite <- app_assoc. reflexivity.
Qed.

Lemma split_char_aux_at (sep : char) (cur a b : pystr) :
  existsb (char_eqb sep) a = false ->
  split_char_aux sep cur (a ++ sep :: b) = (rev cur ++ a) :: split_char_aux sep [] b.
Proof.
  revert cur. induction a as [| c a IH]; intros cur H; cbn [app split_char_aux].
  - unfold char_eqb. rewrite N.eqb_refl, app_nil_r. reflexivity.
  - cbn [existsb] in H. apply Bool.orb_false_elim in H as [Hc Ha].
    unfold char_eqb in *. rewrite N.eqb_sym in Hc. rewrite Hc.
    rewrite (IH (c :: cur) Ha). cbn [rev]. rewrite <- app_assoc. reflexivity.
Qed.

Lemma split_char_aux_hd (sep : char) (cur t : pystr) :
  hd [] (split_char_aux sep cur t) = rev cur ++ hd [] (split_char_aux sep [] t).
Proof.
  revert cur. induction t as [| d t IH]; intros cur; cbn [split_char_aux].
  - cbn [hd rev app]. rewrite app_nil_r. reflexivity.
  - destruct (char_eqb d sep).
    + cbn [hd rev app]. rewrite app_nil_r. reflexivity.
    + rewrite (IH (d :: cur)), (IH [d]). cbn [rev app]. rewrite <- app_assoc. reflexivity.
Qed.

Lemma split_char_hd (sep c : char) (s : pystr) :
  char_eqb c sep = false ->
  hd [] (split_char sep (c :: s)) = c :: hd [] (split_char sep s).
Proof.
  intros Hc. unfold split_char.
  change (split_char_aux sep [] (c :: s))
    with (if char_eqb c sep then rev [] :: split_char_aux sep [] s
          else split_char_aux sep [c] s).
  rewrite Hc. rewrite (split_char_aux_hd sep [c] s). reflexivity.
Qed.

(** X26. For a risk of the type skill_depth_mismatch whose description has
    the form the interview evaluator gives it, the recommended action names
    the text between the first and the second colon of the description,
    stripped: the skills of the description when no skill contains a colon,
    and otherwise only what stands in front of the first colon in them. *)
Theorem X26_skills_read_back_from_description
    (k : Interview.ConsistencyRisk) (names : pystr) :
  Interview.risk_type k = str_of "skill_depth_mismatch" ->
  Interview.description k
  = str_of "Skills listed but not mentioned in work experience: " ++ names ->
  exists rec,
    risk_recommendation k = [rec]
    /\ action rec = demonstrate (hd [] (split_char colon names))
    /\ (colon_free names = true -> action rec = demonstrate names).
Proof.
  intros Ht Hd. unfold risk_recommendation. rewrite Ht.
  change (str_eqb (str_of "skill_depth_mismatch") (str_of "vague_claim")) with false.
  change (str_eqb (str_of "skill_depth_mismatch") (str_of "overstated_achievement"))
    with false.
  change (str_eqb (str_of "skill_depth_mismatch") (str_of "skill_depth_mismatch"))
    with true.
  cbv iota. eexists. split; [reflexivity |].
  unfold recommend. cbn [action]. rewrite Hd.
  set (head := str_of "Skills listed but not mentioned in work experience").
  change (str_of "Skills listed but not mentioned in work experience: " ++ names)
    with (head ++ colon :: (32%N :: names)).
  assert (Hhead : existsb (char_eqb colon) head = false) by (vm_compute; reflexivity).
  assert (Hin : existsb (char_eqb colon) (head ++ colon :: 32%N :: names) = true).
  { rewrite existsb_app. cbn [existsb]. unfold char_eqb at 2. rewrite N.eqb_refl.
    rewrite Bool.orb_true_r. reflexivity. }
  rewrite Hin.
  assert (Hseg : strip (nth 1 (split_char colon (head ++ colon :: 32%N :: names)) [])
                 = strip (hd [] (split_char colon names))).
  { unfold split_char.
    rewrite (split_char_aux_at colon [] head (32%N :: names) Hhead).
    cbn [nth].
    assert (Hnth : forall l : list pystr, nth 0 l [] = hd [] l)
      by (intros [| x l]; reflexivity).
    rewrite Hnth.
    change (split_char_aux colon [] (32%N :: names))
      with (split_char_aux colon [32%N] names).
    rewrite (split_char_aux_hd colon [32%N] names). reflexivity. }
  rewrite Hseg. split; [reflexivity |].
  intros Hfree. unfold colon_free in Hfree. apply negb_true_iff in Hfree.
  unfold split_char. rewrite (split_char_aux_free colon [] names Hfree). reflexivity.
Qed.


(** X26 on the risk of the two skills of the billing resume. *)
Lemma X26_witness :
  exists rec,
    risk_recommendation Inputs.skill_risk = [rec]
    /\ action rec = demonstrate (str_of "python, sql").
Proof.
  destruct (X26_skills_read_back_from_description Inputs.skill_risk (str_of "python, sql")
              eq_refl eq_refl) as (rec & Hrec & _ & Hact).
  exists rec. split; [exact Hrec | apply Hact; reflexivity].
Defined.

Lemma low_percentage_shortfall (b : ATS.ATSKeywordBreakdown) :
  (0 <= ATS.total_required b)%Z ->
  ATS._calculate_keyword_match_percentage b < 60 ->
  (ATS.total_matched b <? ATS.total_required b)%Z = true.
Proof.
  intros Hreq Hlow. apply Z.ltb_lt.
  unfold ATS._calculate_keyword_match_percentage in Hlow.
  destruct (ATS.total_required b =? 0)%Z eqn:E; [lra |].
  apply Z.eqb_neq in E.
  destruct (Z.lt_ge_cases (ATS.total_matched b) (ATS.total_required b)) as [H | H];
    [exact H | exfalso].
  assert (Hr : 0 < inject_Z (ATS.total_required b)).
  { change 0 with (inject_Z 0). rewrite <- Zlt_Qlt. lia. }
  assert (Hm : inject_Z (ATS.total_required b) <= inject_Z (ATS.total_matched b))
    by (rewrite <- Zle_Qle; exact H).
  assert (Hq : 1 <= inject_Z (ATS.total_matched b) / inject_Z (ATS.total_required b)).
  { apply Qle_shift_div_l; [exact Hr | lra]. }
  set (x := inject_Z (ATS.total_matched b) / inject_Z (ATS.total_required b)) in *.
  assert (H100 : 100 <= round2 (x * 100)) by (apply round2_ge_100; lra).
  lra.
Qed.

(** X27. On the result of an ATS simulation every recommendation of the ATS
    stage answers a rejection reason: a recommendation other than the one
    for the keywords names a recorded rejection reason as its risk, the one
    for the keywords is given only when the shortfall of keywords was
    recorded, and every rejection reason other than that shortfall is named
    by a recommendation.  There are never more recommendations than
    reasons. *)
Theorem X27_ats_recommendations_answer_rejections
    (r : ParsedResumeInternal) (jd : ParsedJobDescriptionInternal)
    (fv : Features.FeatureVectorInternal) (t : pystr) :
  let ats := ATS.simulate r jd fv t in
  let recs := _generate_ats_recommendations ats in
  let shortfall := ATS.shortfall_reason (ATS.keyword_breakdown ats) in
  (forall rec, In rec recs ->
     (rec = keyword_recommendation ats /\ shortfall <> [])
     \/ exists reason, In reason (ATS.rejection_reasons ats)
                       /\ referenced_risk rec = Some reason)
  /\ (forall reason, In reason (ATS.rejection_reasons ats) ->
        In reason shortfall \/ In (Some reason) (map referenced_risk recs))
  /\ (length recs <= length (ATS.rejection_reasons ats))%nat.
Proof.
  cbv zeta.
  pose proof (simulate_reasons r jd fv t) as Hreasons.
  destruct (simulate_facts r jd fv t) as (He & Hp & Hw & (hf & Hhf & Hexp & Hedu) & _ & Hk & _).
  assert (Hshort : ATS.keyword_match_percentage (ATS.simulate r jd fv t) < 60 ->
                   ATS.shortfall_reason (ATS.keyword_breakdown (ATS.simulate r jd fv t))
                   <> []).
  { intros Hlow. rewrite Hk in Hlow. unfold ATS.shortfall_reason.
    rewrite (low_percentage_shortfall _); [discriminate | | exact Hlow].
    rewrite simulate_breakdown, breakdown_required. apply zlen_nonneg. }
  unfold _generate_ats_recommendations. rewrite Hhf, He, Hp, Hw, Hexp, Hedu.
  rewrite Hreasons. unfold ATS.reasons_if.
  set (kw := keyword_recommendation (ATS.simulate r jd fv t)) in *.
  set (shortfall := ATS.shortfall_reason (ATS.keyword_breakdown (ATS.simulate r jd fv t)))
    in *.
  clearbody kw.
  assert (Hlen : Qltb (ATS.keyword_match_percentage (ATS.simulate r jd fv t)) 60 = true ->
                 (1 <= length shortfall)%nat).
  { intros H. apply Qltb_true in H. specialize (Hshort H).
    destruct shortfall; [contradiction | cbn [length]; lia]. }
  assert (Hne : Qltb (ATS.keyword_match_percentage (ATS.simulate r jd fv t)) 60 = true ->
                shortfall <> []).
  { intros H. apply Qltb_true in H. exact (Hshort H). }
  clear Hshort Hreasons Hk.
  repeat match goal with
         | |- context [recommend ?a ?b ?c ?d ?e ?f ?g ?h (str_of ?risk)] =>
             let item := fresh "item" in
             let reason := fresh "reason" in
             let H := fresh "Hitem" in
             set (reason := str_of risk) in *;
             set (item := recommend a b c d e f g h reason);
             assert (H : referenced_risk item = Some reason) by reflexivity;
             clearbody item reason
         end.
  destruct (Qltb (ATS.keyword_match_percentage (ATS.simulate r jd fv t)) 60);
    [specialize (Hlen eq_refl); specialize (Hne eq_refl) | clear Hlen Hne];
    clearbody shortfall;
    destruct (ATS.field_present (email r)), (ATS.field_present (phone r)),
      (nonempty (work_experience r)),
      (Features.has_required_skills (Features.categorical fv)) as [[|] |],
      (Features.has_required_degree (Features.categorical fv)) as [[|] |];
    cbn [negb ATS.failed app];
    (split;
    [ intros x Hin; cbn [In] in Hin;
      repeat (destruct Hin as [<- | Hin];
              [first [ left; split; [reflexivity | assumption]
                     | right; eexists; split; [| eassumption];
                       cbn [In]; repeat (first [left; reflexivity | right]) ] |]);
      destruct Hin
    | split;
    [ intros x Hin; cbn [In] in Hin;
      repeat (destruct Hin as [<- | Hin];
              [right; cbn [map In];
               repeat (first [left; assumption | right]) |]);
      first [destruct Hin | left; exact Hin]
    | cbn [length]; lia ] ]).
Qed.

End Recommending.

(** ** The ranked list of recommendations *)

Section Generating.
Import Recommendations RiskFactors RecommendationEngine.
Local Open Scope Q_scope.

Lemma recommend_well_formed (p c a i r s : pystr) (d e : Q) (k : pystr) :
  mem p (map str_of ["critical"; "high"; "medium"; "low"]%string) = true ->
  0 < d -> 0 < e -> well_formed (recommend p c a i r s d e k).
Proof.
  intros Hp Hd He. split; [exact Hp |].
  split; eexists; (split; [reflexivity | assumption]).
Qed.

Ltac literal_priority :=
  repeat match goal with
         | |- context [if ?b then str_of _ else str_of _] => destruct b
         end;
  vm_compute; reflexivity.

Lemma ats_recommendations_well_formed (ats : ATS.ATSResultInternal) :
  Forall well_formed (_generate_ats_recommendations ats).
Proof.
  unfold _generate_ats_recommendations.
  repeat apply Forall_app_2.
  - destruct (negb _); constructor; [| constructor].
    apply recommend_well_formed; [reflexivity | reflexivity | reflexivity].
  - destruct (negb _); constructor; [| constructor].
    apply recommend_well_formed; [reflexivity | reflexivity | reflexivity].
  - destruct (negb _); constructor; [| constructor].
    apply recommend_well_formed; [reflexivity | reflexivity | reflexivity].
  - destruct (Qltb (ATS.keyword_match_percentage ats) 60) eqn:E; constructor; [| constructor].
    apply Qltb_true in E. unfold keyword_recommendation.
    apply recommend_well_formed.
    + destruct (Qltb _ 40); reflexivity.
    + apply py_min_pos; [reflexivity | lra].
    + apply py_min_pos; [reflexivity |].
      apply Qlt_shift_div_l; [reflexivity | lra].
  - destruct (ATS.hard_filters ats) as [hf |]; [| constructor].
    apply Forall_app_2.
    + destruct (ATS.experience_met hf) as [[|] |]; constructor; [| constructor].
      apply recommend_well_formed; reflexivity.
    + destruct (ATS.education_met hf) as [[|] |]; constructor; [| constructor].
      apply recommend_well_formed; reflexivity.
Qed.

Lemma forall_flat_map {A B : Type} (P : B -> Prop) (g : A -> list B) (l : list A) :
  (forall x, Forall P (g x)) -> Forall P (flat_map g l).
Proof.
  intros Hg. induction l as [| x l IH]; [constructor |].
  cbn [flat_map]. apply Forall_app_2; [apply Hg | exact IH].
Qed.

Lemma red_flag_recommendation_well_formed (f : Recruiter.RecruiterRedFlag) :
  Forall well_formed (red_flag_recommendation f).
Proof.
  unfold red_flag_recommendation.
  repeat match goal with
         | |- Forall _ (if ?b then _ else _) => destruct b
         end;
    try constructor; try constructor;
    apply recommend_well_formed;
    repeat match goal with
           | |- context [if ?b then _ else _] => destruct b
           end; reflexivity.
Qed.

Lemma risk_recommendation_well_formed (k : Interview.ConsistencyRisk) :
  Forall well_formed (risk_recommendation k).
Proof.
  unfold risk_recommendation.
  repeat match goal with
         | |- Forall _ (if ?b then _ else _) => destruct b
         end;
    try constructor; try constructor;
    apply recommend_well_formed;
    repeat match goal with
           | |- context [if ?b then _ else _] => destruct b
           end; reflexivity.
Qed.

Lemma risk_factor_recommendation_well_formed (existing : list pystr) (x : RiskFactor) :
  Forall well_formed (risk_factor_recommendation existing x).
Proof.
  unfold risk_factor_recommendation.
  destruct (mem (factor x) existing); [constructor |].
  destruct (Qltb (py_abs (impact_on_overall_probability x)) (10 # 100)) eqn:E;
    [constructor |].
  apply Qltb_false in E. constructor; [| constructor].
  apply recommend_well_formed.
  - destruct (mem (RiskFactors.severity x) [str_of "critical"; str_of "high"]); reflexivity.
  - lra.
  - lra.
Qed.

Lemma all_recommendations_well_formed (ats : ATS.ATSResultInternal)
    (rec : Recruiter.RecruiterResultInternal)
    (int : Interview.InterviewReadinessResultInternal) (agg : AggregatedScore) :
  Forall well_formed
    (stage_recommendations ats rec int
     ++ _generate_aggregated_recommendations agg (stage_recommendations ats rec int)).
Proof.
  unfold stage_recommendations.
  apply Forall_app_2; [apply Forall_app_2; [| apply Forall_app_2] |].
  - apply ats_recommendations_well_formed.
  - apply forall_flat_map, red_flag_recommendation_well_formed.
  - apply forall_flat_map, risk_recommendation_well_formed.
  - apply forall_flat_map, risk_factor_recommendation_well_formed.
Qed.

Lemma generate_unfold (ats : ATS.ATSResultInternal)
    (rec : Recruiter.RecruiterResultInternal)
    (int : Interview.InterviewReadinessResultInternal) (agg : AggregatedScore) :
  generate ats rec int agg
  = _rank_recommendations
      (stage_recommendations ats rec int
       ++ _generate_aggregated_recommendations agg (stage_recommendations ats rec int)).
Proof.
  unfold generate, stage_recommendations. cbn [app]. rewrite <- !app_assoc. reflexivity.
Qed.


Lemma priority_score_known (x : Recommendation) :
  known_priority x = true ->
  (0 <= priority_score x)%Z /\ (priority_score x = 0%Z <-> critical x = true).
Proof.
  unfold known_priority, mem, critical, priority_score. cbn [map existsb].
  intros H.
  destruct (str_eqb (priority x) (str_of "critical")) eqn:E1.
  { apply str_eqb_eq in E1. rewrite E1. vm_compute. split; [discriminate |]. tauto. }
  destruct (str_eqb (priority x) (str_of "high")) eqn:E2.
  { apply str_eqb_eq in E2. rewrite E2. vm_compute. split; [discriminate |].
    split; discriminate. }
  destruct (str_eqb (priority x) (str_of "medium")) eqn:E3.
  { apply str_eqb_eq in E3. rewrite E3. vm_compute. split; [discriminate |].
    split; discriminate. }
  destruct (str_eqb (priority x) (str_of "low")) eqn:E4; [| discriminate].
  apply str_eqb_eq in E4. rewrite E4. vm_compute. split; [discriminate |].
  split; discriminate.
Qed.

Lemma recommend_not_critical (p c a i r s : pystr) (d e : Q) (k : pystr) :
  str_eqb p (str_of "critical") = false -> critical (recommend p c a i r s d e k) = false.
Proof. intros H. exact H. Qed.

Lemma ats_recommendations_critical (ats : ATS.ATSResultInternal) :
  Forall (fun x => critical x = true ->
                   referenced_risk x = Some work_history_risk
                   /\ ATS.rf_work_history (ATS.required_fields_status ats) = false)
    (_generate_ats_recommendations ats)
  /\ (ATS.rf_work_history (ATS.required_fields_status ats) = false ->
      exists w, In w (_generate_ats_recommendations ats) /\ critical w = true).
Proof.
  unfold _generate_ats_recommendations. split.
  - repeat apply Forall_app_2.
    + destruct (negb _); constructor; [discriminate | constructor].
    + destruct (negb _); constructor; [discriminate | constructor].
    + destruct (ATS.rf_work_history (ATS.required_fields_status ats));
        constructor; [| constructor].
      intros _. split; reflexivity.
    + destruct (Qltb (ATS.keyword_match_percentage ats) 60); constructor; [| constructor].
      unfold keyword_recommendation, critical, recommend. cbn [priority].
      destruct (Qltb _ 40); discriminate.
    + destruct (ATS.hard_filters ats) as [hf |]; [| constructor].
      apply Forall_app_2.
      * destruct (ATS.experience_met hf) as [[|] |]; constructor;
          [discriminate | constructor].
      * destruct (ATS.education_met hf) as [[|] |]; constructor;
          [discriminate | constructor].
  - intros ->. cbn [negb]. eexists. split.
    + apply in_or_app. right. apply in_or_app. right. apply in_or_app. left.
      left. reflexivity.
    + reflexivity.
Qed.

Lemma red_flag_recommendation_not_critical (f : Recruiter.RecruiterRedFlag) :
  Forall (fun x => critical x = false) (red_flag_recommendation f).
Proof.
  unfold red_flag_recommendation.
  repeat match goal with
         | |- Forall _ (if ?b then _ else _) => destruct b
         end;
    try constructor; try constructor;
    unfold critical, recommend; cbn [priority];
    repeat match goal with
           | |- context [if ?b then _ else _] => destruct b
           end; reflexivity.
Qed.

Lemma risk_recommendation_not_critical (k : Interview.ConsistencyRisk) :
  Forall (fun x => critical x = false) (risk_recommendation k).
Proof.
  unfold risk_recommendation.
  repeat match goal with
         | |- Forall _ (if ?b then _ else _) => destruct b
         end;
    try constructor; try constructor;
    unfold critical, recommend; cbn [priority];
    repeat match goal with
           | |- context [if ?b then _ else _] => destruct b
           end; reflexivity.
Qed.

Lemma risk_factor_recommendation_not_critical (existing : list pystr) (x : RiskFactor) :
  Forall (fun x => critical x = false) (risk_factor_recommendation existing x).
Proof.
  unfold risk_factor_recommendation.
  destruct (mem (factor x) existing); [constructor |].
  destruct (Qltb _ _); [constructor |].
  constructor; [| constructor]. unfold critical, recommend. cbn [priority].
  destruct (mem _ _); reflexivity.
Qed.

Lemma all_recommendations_critical (ats : ATS.ATSResultInternal)
    (rec : Recruiter.RecruiterResultInternal)
    (int : Interview.InterviewReadinessResultInternal) (agg : AggregatedScore) :
  Forall (fun x => critical x = true ->
                   referenced_risk x = Some work_history_risk
                   /\ ATS.rf_work_history (ATS.required_fields_status ats) = false)
    (stage_recommendations ats rec int
     ++ _generate_aggregated_recommendations agg (stage_recommendations ats rec int)).
Proof.
  assert (Hnot : forall l : list Recommendation,
             Forall (fun x => critical x = false) l ->
             Forall (fun x => critical x = true ->
                      referenced_risk x = Some work_history_risk
                      /\ ATS.rf_work_history (ATS.required_fields_status ats) = false) l).
  { intros l Hl. eapply List.Forall_impl; [| exact Hl].
    intros x Hx Hc. rewrite Hx in Hc. discriminate. }
  unfold stage_recommendations.
  apply Forall_app_2; [apply Forall_app_2; [| apply Forall_app_2] |].
  - apply ats_recommendations_critical.
  - apply Hnot, forall_flat_map, red_flag_recommendation_not_critical.
  - apply Hnot, forall_flat_map, risk_recommendation_not_critical.
  - apply Hnot, forall_flat_map, risk_factor_recommendation_not_critical.
Qed.

(** X28. Every recommendation the engine generates has one of the four
    priorities the ranking knows and positive score and probability deltas,
    and the list it returns is ordered by priority, in the order critical,
    high, medium, low, and, within a priority, by falling absolute score
    delta.  The only recommendation of the priority
    critical is the one for a missing work history: it heads the list
    whenever the work history is missing, and no recommendation is critical
    otherwise. *)
Theorem X28_generated_recommendations_ranked
    (ats : ATS.ATSResultInternal) (rec : Recruiter.RecruiterResultInternal)
    (int : Interview.InterviewReadinessResultInternal) (agg : AggregatedScore) :
  let recs := generate ats rec int agg in
  Forall well_formed recs
  /\ StronglySorted ranked_before recs
  /\ (if ATS.rf_work_history (ATS.required_fields_status ats)
      then forallb (fun x => negb (critical x)) recs = true
      else exists top rest,
             recs = top :: rest /\ critical top = true
             /\ referenced_risk top = Some work_history_risk).
Proof.
  cbv zeta. rewrite generate_unfold.
  pose proof (all_recommendations_well_formed ats rec int agg) as Hwf.
  pose proof (all_recommendations_critical ats rec int agg) as Hcrit.
  assert (Hw : ATS.rf_work_history (ATS.required_fields_status ats) = false ->
               exists w, In w (stage_recommendations ats rec int
                               ++ _generate_aggregated_recommendations agg
                                    (stage_recommendations ats rec int))
                         /\ critical w = true).
  { intros H. destruct (proj2 (ats_recommendations_critical ats) H) as (w & Hin & Hc).
    exists w. split; [| exact Hc]. apply in_or_app. left.
    unfold stage_recommendations. apply in_or_app. left. exact Hin. }
  set (l := stage_recommendations ats rec int
            ++ _generate_aggregated_recommendations agg (stage_recommendations ats rec int))
    in *.
  clearbody l. unfold _rank_recommendations.
  pose proof (sorted_perm sort_key l) as Hperm.
  assert (Hs : StronglySorted ranks_before (sorted sort_key l)).
  { assert (Hs : StronglySorted (key_le sort_key) (sorted sort_key l)).
    { apply Sorted_StronglySorted; [apply key_le_transitive | apply sorted_sorted]. }
    apply (strongly_sorted_impl _ _ _ Hs). intros a b. apply ranks_before_key_le. }
  assert (Hwf' : Forall well_formed (sorted sort_key l)).
  { apply List.Forall_forall. intros x Hx. rewrite List.Forall_forall in Hwf.
    apply Hwf. apply (Permutation_in x Hperm). exact Hx. }
  assert (Hcrit' : Forall (fun x => critical x = true ->
                      referenced_risk x = Some work_history_risk
                      /\ ATS.rf_work_history (ATS.required_fields_status ats) = false)
                     (sorted sort_key l)).
  { apply List.Forall_forall. intros x Hx. rewrite List.Forall_forall in Hcrit.
    apply Hcrit. apply (Permutation_in x Hperm). exact Hx. }
  split; [exact Hwf' |].
  split.
  { assert (Hk : StronglySorted (key_le sort_key) (sorted sort_key l)).
    { apply Sorted_StronglySorted; [apply key_le_transitive | apply sorted_sorted]. }
    apply (strongly_sorted_impl _ _ _ Hk). intros a b. apply ranked_before_key_le. }
  destruct (ATS.rf_work_history (ATS.required_fields_status ats)) eqn:Ework.
  - apply forallb_forall. intros x Hx. rewrite List.Forall_forall in Hcrit'.
    destruct (critical x) eqn:Ec; [| reflexivity].
    destruct (Hcrit' x Hx Ec) as [_ H]. discriminate.
  - destruct (Hw eq_refl) as (w & Hin & Hc).
    apply (Permutation_in w (Permutation_sym Hperm)) in Hin.
    destruct (sorted sort_key l) as [| top rest]; [destruct Hin |].
    exists top, rest. split; [reflexivity |].
    assert (Htop : critical top = true).
    { destruct Hin as [-> | Hin]; [exact Hc |].
      inversion Hs as [| ? ? _ Hall]; subst.
      rewrite List.Forall_forall in Hall. specialize (Hall w Hin).
      inversion Hwf' as [| ? ? Htop Hrest]; subst.
      rewrite List.Forall_forall in Hrest.
      destruct (priority_score_known top (proj1 Htop)) as [H0 Hiff].
      destruct (priority_score_known w (proj1 (Hrest w Hin))) as [_ Hiffw].
      apply Hiffw in Hc. apply Hiff.
      destruct Hall as [Hlt | [Heq _]]; lia. }
    split; [exact Htop |].
    inversion Hcrit' as [| ? ? Hc' _]; subst. apply (Hc' Htop).
Qed.


Lemma mem_In (x : pystr) (l : list pystr) : mem x l = true <-> In x l.
Proof.
  unfold mem. rewrite existsb_exists. split.
  - intros (y & Hy & Heq). apply str_eqb_eq in Heq. subst y. exact Hy.
  - intros H. exists x. split; [exact H | apply str_eqb_eq; reflexivity].
Qed.

Lemma existing_risk_types_In (t : pystr) (l : list Recommendation) :
  In t (existing_risk_types l)
  <-> t <> [] /\ exists r, In r l /\ referenced_risk r = Some t.
Proof.
  unfold existing_risk_types. rewrite in_flat_map. split.
  - intros (r & Hr & Ht). destruct (referenced_risk r) as [[| c risk] |] eqn:E;
      [destruct Ht | | destruct Ht].
    destruct Ht as [<- | []]. split; [discriminate |]. exists r. split; assumption.
  - intros (Hne & r & Hr & E). exists r. split; [exact Hr |]. rewrite E.
    destruct t; [contradiction | left; reflexivity].
Qed.

Lemma known_flag_covered (f : Recruiter.RecruiterRedFlag) (l : list Recommendation) :
  known_flag f = true ->
  (forall x, In x (red_flag_recommendation f) -> In x l) ->
  mem (Recruiter.flag_type f) (existing_risk_types l) = true.
Proof.
  intros Hk Hl. apply mem_In, existing_risk_types_In.
  destruct (red_flag_recommendation_cases f) as [[_ (r & Hr & Href)] | [Hn _]];
    [| congruence].
  injection Href as Href _ _. split.
  - unfold known_flag, mem in Hk. cbn [map existsb] in Hk.
    repeat (apply orb_prop in Hk as [Hk | Hk];
            [apply str_eqb_eq in Hk; rewrite Hk; discriminate |]).
    discriminate.
  - exists r. split; [apply Hl; rewrite Hr; left; reflexivity | exact Href].
Qed.

Lemma known_risk_covered (k : Interview.ConsistencyRisk) (l : list Recommendation) :
  known_risk k = true ->
  (forall x, In x (risk_recommendation k) -> In x l) ->
  mem (Interview.risk_type k) (existing_risk_types l) = true.
Proof.
  intros Hk Hl. apply mem_In, existing_risk_types_In.
  destruct (risk_recommendation_cases k) as [[_ (r & Hr & Href)] | [Hn _]];
    [| congruence].
  injection Href as Href _ _. split.
  - unfold known_risk, mem in Hk. cbn [map existsb] in Hk.
    repeat (apply orb_prop in Hk as [Hk | Hk];
            [apply str_eqb_eq in Hk; rewrite Hk; discriminate |]).
    discriminate.
  - exists r. split; [apply Hl; rewrite Hr; left; reflexivity | exact Href].
Qed.

(** X29. When every red flag and every consistency risk is of a known
    type, no risk is recommended twice: the recommendations added for the
    ranked risk factors never repeat a risk of the stage recommendations,
    all of them stem from the factor of a low ATS score or from a negative
    signal, and each reduces the probability by a tenth at least. *)
Theorem X29_aggregated_recommendations_are_new
    (ats : ATS.ATSResultInternal) (rec : Recruiter.RecruiterResultInternal)
    (int : Interview.InterviewReadinessResultInternal) :
  forallb known_flag (Recruiter.red_flags rec) = true ->
  forallb known_risk (Interview.consistency_risks int) = true ->
  let stage := stage_recommendations ats rec int in
  Forall (fun x =>
            exists t d,
              referenced_risk x = Some t
              /\ mem t (existing_risk_types stage) = false
              /\ impact_probability_delta x = Some d /\ 10 # 100 <= d
              /\ (t = low_ats_factor
                  \/ exists s, In s (Scoring.negative_signals (Scoring.apply ats rec int))
                               /\ t = Scoring.signal s))
    (_generate_aggregated_recommendations (RiskFactors.aggregate ats rec int) stage).
Proof.
  intros Hflags Hrisks. cbv zeta.
  set (stage := stage_recommendations ats rec int).
  unfold _generate_aggregated_recommendations, RiskFactors.aggregate. cbn [risk_factors].
  apply List.Forall_forall. intros x Hx.
  apply in_flat_map in Hx as (rf & Hrf & Hx).
  unfold _rank_risk_factors in Hrf.
  apply (Permutation_in rf (sorted_perm impact_key _)) in Hrf.
  unfold risk_factor_recommendation in Hx.
  destruct (mem (factor rf) (existing_risk_types stage)) eqn:Emem; [destruct Hx |].
  destruct (Qltb (py_abs (impact_on_overall_probability rf)) (10 # 100)) eqn:Esize;
    [destruct Hx |].
  destruct Hx as [<- | []]. apply Qltb_false in Esize.
  exists (factor rf), (py_abs (impact_on_overall_probability rf)).
  split; [reflexivity |]. split; [exact Emem |]. split; [reflexivity |].
  split; [exact Esize |].
  unfold collected_risk_factors in Hrf.
  apply in_app_or in Hrf as [Hrf | Hrf].
  { left. unfold ats_risk_factors in Hrf.
    destruct (Qltb (ATS.compatibility_score ats) 50); [| destruct Hrf].
    destruct Hrf as [<- | []]. reflexivity. }
  apply in_app_or in Hrf as [Hrf | Hrf].
  { exfalso. apply in_map_iff in Hrf as (f & <- & Hf).
    rewrite forallb_forall in Hflags.
    unfold recruiter_risk_factor in Emem. cbn [factor] in Emem.
    rewrite (known_flag_covered f stage (Hflags f Hf)) in Emem; [discriminate |].
    intros y Hy. unfold stage, stage_recommendations.
    apply in_or_app. right. apply in_or_app. left.
    unfold _generate_recruiter_recommendations. apply in_flat_map.
    exists f. split; assumption. }
  apply in_app_or in Hrf as [Hrf | Hrf].
  { exfalso. apply in_map_iff in Hrf as (k & <- & Hk).
    rewrite forallb_forall in Hrisks.
    unfold interview_risk_factor in Emem. cbn [factor] in Emem.
    rewrite (known_risk_covered k stage (Hrisks k Hk)) in Emem; [discriminate |].
    intros y Hy. unfold stage, stage_recommendations.
    apply in_or_app. right. apply in_or_app. right.
    unfold _generate_interview_recommendations. apply in_flat_map.
    exists k. split; assumption. }
  right. apply in_flat_map in Hrf as (s & Hs & Hrf). exists s. split; [exact Hs |].
  unfold signal_risk_factors in Hrf.
  destruct (Scoring.effect_of s); [| destruct Hrf].
  destruct Hrf as [<- | []]. reflexivity.
Qed.

(** X29 on a weak ATS score and the two red flags of an empty work
    history. *)
Lemma X29_witness :
  let ats := Inputs.ats_with_score 30 in
  let stage := stage_recommendations ats Inputs.flagged_recruiter Inputs.clean_interview in
  Forall (fun x =>
            exists t d,
              referenced_risk x = Some t
              /\ mem t (existing_risk_types stage) = false
              /\ impact_probability_delta x = Some d /\ 10 # 100 <= d
              /\ (t = low_ats_factor
                  \/ exists s, In s (Scoring.negative_signals
                                       (Scoring.apply ats Inputs.flagged_recruiter
                                          Inputs.clean_interview))
                               /\ t = Scoring.signal s))
    (_generate_aggregated_recommendations
       (RiskFactors.aggregate ats Inputs.flagged_recruiter Inputs.clean_interview) stage).
Proof.
  cbv zeta.
  apply (X29_aggregated_recommendations_are_new (Inputs.ats_with_score 30)
           Inputs.flagged_recruiter Inputs.clean_interview);
    vm_compute; reflexivity.
Defined.

End Generating.

(** ** Parsed resumes *)

Section ParsedResumes.
Import Regex ResumeParser.
Local Open Scope Q_scope.

Lemma find_from_occurs (r : re) (prev : option char) (s m : pystr) :
  find_from r prev s = Some m -> occurs_in m s.
Proof.
  revert prev. induction s as [| c s IH]; intros prev; cbn [find_from].
  - destruct (match_here r prev []) as [st |]; [| discriminate].
    intros [= <-]. exists [], []. reflexivity.
  - destruct (match_here r prev (c :: s)) as [st |].
    + intros [= <-]. exists [], (skipn (length (c :: s) - length (ms_rest st)) (c :: s)).
      cbn [app]. symmetry. apply firstn_skipn.
    + intros H. destruct (IH _ H) as (before & after & ->).
      exists (c :: before), after. reflexivity.
Qed.

Lemma first_found_occurs (patterns : list re) (text m : pystr) :
  first_found patterns text = Some m -> occurs_in m text.
Proof.
  induction patterns as [| p patterns IH]; cbn [first_found]; [discriminate |].
  destruct (find p text) as [x |] eqn:E; [| exact IH].
  intros [= <-]. exact (find_from_occurs p None text x E).
Qed.

Lemma found_some (m : option pystr) (e : pystr) :
  found m = Some e -> m = Some e /\ e <> [].
Proof.
  destruct m as [[| c s] |]; cbn [found]; try discriminate.
  intros [= <-]. split; [reflexivity | discriminate].
Qed.

Lemma work_history_deduction (e p s d : bool) (k : Q) :
  ATS.spec_compatibility_score e p true s d k <= 70.
Proof.
  unfold ATS.spec_compatibility_score.
  apply py_max_lub; [lra |].
  apply (round2_le_int 70).
  destruct (Qltb k 60) eqn:Ek;
    [apply Qltb_true in Ek;
     destruct (py_min_cases 20 (60 - k)) as [[Hm ->] | [Hm ->]] |];
    unfold ATS.deduction; destruct e, p, s, d; change (inject_Z 70) with 70; lra.
Qed.

(** X30. The parser fills the email and the phone only, each with a
    non-empty piece of the text, and never the work experience, the
    education or the skills; a missing email is reported by a warning and
    the confidence 0, and there are at most three warnings.  So the ATS
    simulation of a parsed resume always records the missing work history
    and its compatibility score is at most 70. *)
Theorem X30_parsed_resume_has_no_work_history (text : pystr) :
  let parsed := parse text in
  work_experience (resume parsed) = []
  /\ education (resume parsed) = []
  /\ skills (resume parsed) = []
  /\ (forall e, email (resume parsed) = Some e -> e <> [] /\ occurs_in e text)
  /\ (forall p, phone (resume parsed) = Some p -> p <> [] /\ occurs_in p text)
  /\ (email (resume parsed) = None <-> In missing_email (warnings parsed))
  /\ (email (resume parsed) = None
      <-> confidence_scores parsed !! "email"%string = Some 0)
  /\ (length (warnings parsed) <= 3)%nat
  /\ (forall jd fv t,
        let ats := ATS.simulate (resume parsed) jd fv t in
        In (str_of "Missing required field: work history") (ATS.rejection_reasons ats)
        /\ ATS.compatibility_score ats <= 70).
Proof.
  cbv zeta. unfold parse. cbn [resume warnings confidence_scores work_experience
    education skills email phone].
  set (e := found (_extract_email text)).
  set (p := found (_extract_phone text)).
  set (sections := _detect_sections text).
  split; [reflexivity |]. split; [reflexivity |]. split; [reflexivity |].
  split.
  { intros x Hx. apply found_some in Hx as [Hx Hne]. split; [exact Hne |].
    exact (find_from_occurs _ _ _ _ Hx). }
  split.
  { intros x Hx. apply found_some in Hx as [Hx Hne]. split; [exact Hne |].
    exact (first_found_occurs _ _ _ Hx). }
  split.
  { destruct e as [x |]; cbn [is_found app].
    - split; [discriminate |]. intros Hin.
      apply in_app_or in Hin as [Hin | Hin].
      + destruct (is_found p); [destruct Hin |].
        destruct Hin as [Hin | []]. discriminate Hin.
      + destruct (has_section "experience" sections); [destruct Hin |].
        destruct Hin as [Hin | []]. discriminate Hin.
    - split; [intros _; left; reflexivity | reflexivity]. }
  split.
  { rewrite lookup_insert_ne by discriminate.
    rewrite lookup_insert_ne by discriminate.
    rewrite lookup_insert.
    destruct e as [x |]; cbn [is_found]; split; try discriminate; reflexivity. }
  split.
  { destruct (is_found e), (is_found p), (has_section "experience" sections);
      cbn [app length]; lia. }
  intros jd fv t.
  set (r := {| name := None; email := e; phone := p; location := None;
               work_experience := []; education := []; skills := [] |}).
  split.
  - rewrite (simulate_reasons r jd fv t).
    apply in_or_app. right. apply in_or_app. right. apply in_or_app. left.
    left. reflexivity.
  - destruct (simulate_facts r jd fv t) as (_ & _ & Hw & (hf & Hhf & _) & _ & _ & Hscore).
    rewrite Hscore.
    assert (Hhf' : ATS.hard_filters (ATS.set_compatibility_score 0 (ATS.simulate r jd fv t))
                   = Some hf) by exact Hhf.
    rewrite (score_formula _ hf Hhf').
    assert (Hw' : ATS.rf_work_history
                    (ATS.required_fields_status
                       (ATS.set_compatibility_score 0 (ATS.simulate r jd fv t))) = false)
      by exact Hw.
    rewrite Hw'. cbn [negb]. apply work_history_deduction.
Qed.

End ParsedResumes.
